(** * Central Bot API: fleet state and command-queue coordinator

    A shallow embedding of [src/app.py].  The three process-wide
    dictionaries ([device_statuses], [command_queues],
    [recent_activities]) become one record that every request handler
    threads through; [datetime.now()] becomes a read of an explicit
    clock; a Python exception becomes the [Raise] branch of a result,
    with the store as it stood when the exception left the [try] block.

    Conventions.
    - A Python [dict] is an association list kept in insertion order with
      unique keys (iteration order is observable in [emergency_stop_all]
      and [cleanup_offline_devices]).
    - A Python [str] is a [string]; one [ascii] is one character, so the
      development speaks about texts over the 8-bit alphabet.
    - A Python [int] is a [Z]; a Python [float] is an IEEE 754 binary64
      value of [spec_float].
    - Logging calls are left out: they read values and change nothing.
    - The two places where the code goes through a temporary float on
      its way to a decision about time ([timedelta.total_seconds() / 60
      > 10] and [int(datetime.timestamp())]) are carried out in exact
      arithmetic on microsecond counts.  The outcome is the one of the
      float computation: binary64 rounding is monotone and 600 and 10
      are exact, so the quotient exceeds 10 exactly when the difference
      exceeds 600 000 000 microseconds; and a second count below 2^34
      (dates up to the year 2514) plus a fraction of at most 0.999999
      does not round up to the next whole second. *)

From Stdlib Require Import ZArith QArith List String Ascii Bool Lia.
From Stdlib Require Import Floats.SpecFloat.
From Stdlib Require Import Numbers.DecimalString Numbers.DecimalZ Numbers.DecimalPos.
From Stdlib Require Import Sorting.Sorted Sorting.Permutation.
Import ListNotations.

Open Scope string_scope.
Open Scope list_scope.
Open Scope Z_scope.

(** ** Python values *)

Module Py.

(** What [request.json] can hold, which is also everything the stores
    hold.  A [VFloat] is a binary64 in canonical form, as a JSON reader
    produces it and as the operations below return it. *)
#[warnings="-register-all"]
Inductive pyval : Type :=
| VNone
| VBool (b : bool)
| VInt (n : Z)
| VFloat (f : spec_float)
| VStr (s : string)
| VList (l : list pyval)
| VDict (d : list (string * pyval)).

Definition pydict : Type := list (string * pyval).

(** The exception classes the modelled operations raise; each carries
    the text that [str(e)] gives. *)
Inductive exn : Type :=
| AttributeError (msg : string)
| KeyError (msg : string)
| TypeError (msg : string)
| ValueError (msg : string)
| ZeroDivisionError (msg : string)
| OverflowError (msg : string).

Definition str_exn (e : exn) : string :=
  match e with
  | AttributeError m | KeyError m | TypeError m
  | ValueError m | ZeroDivisionError m | OverflowError m => m
  end.

Definition is_ZeroDivisionError (e : exn) : bool :=
  match e with ZeroDivisionError _ => true | _ => false end.

Inductive result (A : Type) : Type :=
| Ok (a : A)
| Raise (e : exn).
Arguments Ok {A} a.
Arguments Raise {A} e.

Definition rbind {A B} (r : result A) (k : A -> result B) : result B :=
  match r with
  | Ok a => k a
  | Raise e => Raise e
  end.

Definition type_name (v : pyval) : string :=
  match v with
  | VNone => "NoneType"
  | VBool _ => "bool"
  | VInt _ => "int"
  | VFloat _ => "float"
  | VStr _ => "str"
  | VList _ => "list"
  | VDict _ => "dict"
  end.

Definition str_of_Z (z : Z) : string := NilZero.string_of_int (Z.to_int z).

(** *** Dictionaries *)

Section Dict.
Context {V : Type}.

Fixpoint dict_get (k : string) (d : list (string * V)) : option V :=
  match d with
  | [] => None
  | (k', v) :: d' => if String.eqb k k' then Some v else dict_get k d'
  end.

Definition dict_mem (k : string) (d : list (string * V)) : bool :=
  match dict_get k d with Some _ => true | None => false end.

(** [d[k] = v]: an existing key keeps its place, a new key goes last. *)
Fixpoint dict_set (k : string) (v : V) (d : list (string * V))
  : list (string * V) :=
  match d with
  | [] => [(k, v)]
  | (k', v') :: d' =>
      if String.eqb k k' then (k', v) :: d' else (k', v') :: dict_set k v d'
  end.

(** [del d[k]] for a key that is present. *)
Fixpoint dict_del (k : string) (d : list (string * V)) : list (string * V) :=
  match d with
  | [] => []
  | (k', v') :: d' =>
      if String.eqb k k' then d' else (k', v') :: dict_del k d'
  end.

Definition dict_keys (d : list (string * V)) : list string := map fst d.
Definition dict_values (d : list (string * V)) : list V := map snd d.
End Dict.

(** [d[k]] on a dict. *)
Definition dict_getitem (k : string) (d : pydict) : result pyval :=
  match dict_get k d with
  | Some v => Ok v
  | None => Raise (KeyError ("'" ++ k ++ "'"))
  end.

(** [v.get(k, default)]: only a dict has the method. *)
Definition py_get (v : pyval) (k : string) (default : pyval) : result pyval :=
  match v with
  | VDict d =>
      Ok (match dict_get k d with Some x => x | None => default end)
  | _ =>
      Raise (AttributeError
               ("'" ++ type_name v ++ "' object has no attribute 'get'"))
  end.

(** *** Numbers *)

Definition fprec : Z := 53.
Definition femax : Z := 1024.

Definition fzero : spec_float := S754_zero false.
Definition fadd : spec_float -> spec_float -> spec_float := SFadd fprec femax.
Definition fmul : spec_float -> spec_float -> spec_float := SFmul fprec femax.
Definition fdiv : spec_float -> spec_float -> spec_float := SFdiv fprec femax.

Definition is_fzero (f : spec_float) : bool :=
  match f with S754_zero _ => true | _ => false end.

Definition is_finf (f : spec_float) : bool :=
  match f with S754_infinity _ => true | _ => false end.

(** The binary64 value nearest to an integer (ties to even). *)
Definition float_of_Z (z : Z) : spec_float :=
  binary_normalize fprec femax z 0 false.

(** [float(n)] as the mixed-mode operators apply it. *)
Definition int_to_float (z : Z) : result spec_float :=
  let f := float_of_Z z in
  if is_finf f then Raise (OverflowError "int too large to convert to float")
  else Ok f.

(** An integer as an exact, not normalised, mantissa. *)
Definition raw_of_Z (z : Z) : spec_float :=
  match z with
  | Z0 => S754_zero false
  | Zpos p => S754_finite false p 0
  | Zneg p => S754_finite true p 0
  end.

(** [a / b] on two ints: the correctly rounded quotient. *)
Definition int_truediv (a b : Z) : result spec_float :=
  if b =? 0 then Raise (ZeroDivisionError "division by zero")
  else
    let q := fdiv (raw_of_Z a) (raw_of_Z b) in
    if is_finf q
    then Raise (OverflowError "integer division result too large for a float")
    else Ok q.

(** The numeric reading of a value: [bool] is a subclass of [int]. *)
Inductive num : Type :=
| NInt (z : Z)
| NFloat (f : spec_float).

Definition as_num (v : pyval) : option num :=
  match v with
  | VBool b => Some (NInt (if b then 1 else 0))
  | VInt z => Some (NInt z)
  | VFloat f => Some (NFloat f)
  | _ => None
  end.

Definition unsupported (op : string) (a b : pyval) : exn :=
  TypeError ("unsupported operand type(s) for " ++ op ++ ": '"
             ++ type_name a ++ "' and '" ++ type_name b ++ "'").

(** [a + b]; [op] is the operator as the message names it ([+] or [+=]). *)
Definition py_add (op : string) (a b : pyval) : result pyval :=
  match as_num a, as_num b with
  | Some (NInt x), Some (NInt y) => Ok (VInt (x + y))
  | Some (NInt x), Some (NFloat g) =>
      rbind (int_to_float x) (fun f => Ok (VFloat (fadd f g)))
  | Some (NFloat f), Some (NInt y) =>
      rbind (int_to_float y) (fun g => Ok (VFloat (fadd f g)))
  | Some (NFloat f), Some (NFloat g) => Ok (VFloat (fadd f g))
  | _, _ =>
      match a, b with
      | VStr s, VStr t => Ok (VStr (s ++ t))
      | VList l, VList m => Ok (VList (l ++ m))
      | _, _ => Raise (unsupported op a b)
      end
  end.

(** [a - b] on numbers. *)
Definition py_sub (a b : pyval) : result pyval :=
  match as_num a, as_num b with
  | Some (NInt x), Some (NInt y) => Ok (VInt (x - y))
  | Some (NInt x), Some (NFloat g) =>
      rbind (int_to_float x) (fun f => Ok (VFloat (SFsub fprec femax f g)))
  | Some (NFloat f), Some (NInt y) =>
      rbind (int_to_float y) (fun g => Ok (VFloat (SFsub fprec femax f g)))
  | Some (NFloat f), Some (NFloat g) => Ok (VFloat (SFsub fprec femax f g))
  | _, _ => Raise (unsupported "-" a b)
  end.

(** [a * b] on numbers (the code multiplies quotients by 100). *)
Definition py_mul (a b : pyval) : result pyval :=
  match as_num a, as_num b with
  | Some (NInt x), Some (NInt y) => Ok (VInt (x * y))
  | Some (NInt x), Some (NFloat g) =>
      rbind (int_to_float x) (fun f => Ok (VFloat (fmul f g)))
  | Some (NFloat f), Some (NInt y) =>
      rbind (int_to_float y) (fun g => Ok (VFloat (fmul f g)))
  | Some (NFloat f), Some (NFloat g) => Ok (VFloat (fmul f g))
  | _, _ => Raise (unsupported "*" a b)
  end.

Definition num_is_zero (n : num) : bool :=
  match n with
  | NInt z => z =? 0
  | NFloat f => is_fzero f
  end.

Definition to_float (n : num) : result spec_float :=
  match n with
  | NInt z => int_to_float z
  | NFloat f => Ok f
  end.

(** [a / b]: true division.  With a float among the operands both are
    converted, then the converted divisor is tested. *)
Definition py_truediv (a b : pyval) : result pyval :=
  match as_num a, as_num b with
  | Some (NInt x), Some (NInt y) =>
      rbind (int_truediv x y) (fun q => Ok (VFloat q))
  | Some x, Some y =>
      rbind (to_float x) (fun f =>
      rbind (to_float y) (fun g =>
        if is_fzero g
        then Raise (ZeroDivisionError "float division by zero")
        else Ok (VFloat (fdiv f g))))
  | _, _ => Raise (unsupported "/" a b)
  end.

(** Exact comparison of an int with a float; [None] when the float is
    a NaN. *)
Definition compare_Z_float (z : Z) (f : spec_float) : option comparison :=
  match f with
  | S754_nan => None
  | S754_infinity s => Some (if s then Gt else Lt)
  | S754_zero _ => Some (z ?= 0)
  | S754_finite s m e =>
      let m' := if s then Zneg m else Zpos m in
      Some (if 0 <=? e then z ?= m' * 2 ^ e else z * 2 ^ (- e) ?= m')
  end.

Definition num_compare (a b : num) : option comparison :=
  match a, b with
  | NInt x, NInt y => Some (x ?= y)
  | NInt x, NFloat g => compare_Z_float x g
  | NFloat f, NInt y => option_map CompOpp (compare_Z_float y f)
  | NFloat f, NFloat g => SFcompare f g
  end.

Definition not_supported (op : string) (a b : pyval) : exn :=
  TypeError ("'" ++ op ++ "' not supported between instances of '"
             ++ type_name a ++ "' and '" ++ type_name b ++ "'").

(** [a > b] and [a < b] on numbers. *)
Definition py_gt (a b : pyval) : result bool :=
  match as_num a, as_num b with
  | Some x, Some y =>
      Ok (match num_compare x y with Some Gt => true | _ => false end)
  | _, _ => Raise (not_supported ">" a b)
  end.

Definition py_lt (a b : pyval) : result bool :=
  match as_num a, as_num b with
  | Some x, Some y =>
      Ok (match num_compare x y with Some Lt => true | _ => false end)
  | _, _ => Raise (not_supported "<" a b)
  end.

(** The value is numerically zero. *)
Definition py_is_zero (v : pyval) : bool :=
  match as_num v with
  | Some n => num_is_zero n
  | None => false
  end.

(** *** Truth, slices, builtins *)

Definition py_truthy (v : pyval) : bool :=
  match v with
  | VNone => false
  | VBool b => b
  | VInt z => negb (z =? 0)
  | VFloat f => negb (is_fzero f)
  | VStr s => negb (String.eqb s "")
  | VList l => match l with [] => false | _ => true end
  | VDict d => match d with [] => false | _ => true end
  end.

(** [a or b]. *)
Definition py_or (a b : pyval) : pyval := if py_truthy a then a else b.

(** [v[:n]]: strings and lists have slices. *)
Definition py_slice_to (n : nat) (v : pyval) : result pyval :=
  match v with
  | VStr s => Ok (VStr (substring 0 n s))
  | VList l => Ok (VList (firstn n l))
  | VDict _ => Raise (TypeError "unhashable type: 'slice'")
  | _ => Raise (TypeError ("'" ++ type_name v ++ "' object is not subscriptable"))
  end.

(** [isinstance(v, dict)]. *)
Definition is_dict (v : pyval) : bool :=
  match v with VDict _ => true | _ => false end.

(** [sum(xs)]: [0 + x1 + x2 + ...], left to right (from CPython 3.12
    on a sum of floats is compensated for rounding; sums of ints, the
    only ones the statements below evaluate, are not affected). *)
Fixpoint sum_from (acc : pyval) (xs : list pyval) : result pyval :=
  match xs with
  | [] => Ok acc
  | x :: xs' => rbind (py_add "+" acc x) (fun acc' => sum_from acc' xs')
  end.

Definition py_sum (xs : list pyval) : result pyval := sum_from (VInt 0) xs.

(** [v == s] for a string literal [s]. *)
Definition eq_str (v : pyval) (s : string) : bool :=
  match v with VStr t => String.eqb t s | _ => false end.

(** [s.replace(old, '')] for a non-empty [old]: [skip] counts the
    characters of a match still to be dropped. *)
Fixpoint remove_all_from (old s : string) (skip : nat) : string :=
  match s with
  | EmptyString => EmptyString
  | String c s' =>
      match skip with
      | S k => remove_all_from old s' k
      | O =>
          if String.prefix old s
          then remove_all_from old s' (Nat.pred (String.length old))
          else String c (remove_all_from old s' O)
      end
  end.

Definition str_remove_all (old s : string) : string := remove_all_from old s O.

(** Stable insertion by [<] on a key, as [list.sort(key=...)] orders a
    list whose keys [<] orders totally. *)
Section Sort.
Context {A : Type}.
Variable key : A -> pyval.

Definition key_lt (x y : A) : bool :=
  match py_lt (key x) (key y) with Ok b => b | Raise _ => false end.

(** [x] goes behind the elements that are smaller and in front of the
    first that is not: equal keys keep the order they came in. *)
Fixpoint insert_sorted (x : A) (l : list A) : list A :=
  match l with
  | [] => [x]
  | y :: l' => if key_lt y x then y :: insert_sorted x l' else x :: l
  end.

Definition sort_by_key (l : list A) : list A :=
  fold_right (fun x acc => insert_sorted x acc) [] l.

(** [l.sort(key=..., reverse=True)]: reverse, sort stably, reverse. *)
Definition sort_by_key_reverse (l : list A) : list A :=
  rev (sort_by_key (rev l)).
End Sort.

End Py.
Import Py.

(** ** Naive datetimes, as [datetime.now()] returns them *)

Module Datetime.

Record datetime : Type := mkDatetime {
  year : Z;
  month : Z;
  day : Z;
  hour : Z;
  minute : Z;
  second : Z;
  microsecond : Z
}.

Definition is_leap (y : Z) : bool :=
  (y mod 4 =? 0) && (negb (y mod 100 =? 0) || (y mod 400 =? 0)).

Definition days_in_month (y m : Z) : Z :=
  if m =? 2 then (if is_leap y then 29 else 28)
  else if (m =? 4) || (m =? 6) || (m =? 9) || (m =? 11) then 30
  else 31.

(** Days before January 1st of year [y] (year 1 is the first). *)
Definition days_before_year (y : Z) : Z :=
  let p := y - 1 in p * 365 + p / 4 - p / 100 + p / 400.

(** Days of year [y] before the first day of month [m]. *)
Definition days_before_month (y m : Z) : Z :=
  nth (Z.to_nat m) [0; 0; 31; 59; 90; 120; 151; 181; 212; 243; 273; 304; 334] 0
  + (if (2 <? m) && is_leap y then 1 else 0).

(** The proleptic Gregorian ordinal; 0001-01-01 is day 1. *)
Definition ymd2ord (y m d : Z) : Z :=
  days_before_year y + days_before_month y m + d.

(** The checks of the [datetime] constructor. *)
Definition check_fields (t : datetime) : result datetime :=
  if negb ((1 <=? year t) && (year t <=? 9999))
  then Raise (ValueError ("year " ++ str_of_Z (year t) ++ " is out of range"))
  else if negb ((1 <=? month t) && (month t <=? 12))
  then Raise (ValueError "month must be in 1..12")
  else if negb ((1 <=? day t) && (day t <=? days_in_month (year t) (month t)))
  then Raise (ValueError "day is out of range for month")
  else if negb ((0 <=? hour t) && (hour t <=? 23))
  then Raise (ValueError "hour must be in 0..23")
  else if negb ((0 <=? minute t) && (minute t <=? 59))
  then Raise (ValueError "minute must be in 0..59")
  else if negb ((0 <=? second t) && (second t <=? 59))
  then Raise (ValueError "second must be in 0..59")
  else if negb ((0 <=? microsecond t) && (microsecond t <=? 999999))
  then Raise (ValueError "microsecond must be in 0..999999")
  else Ok t.

Definition valid (t : datetime) : bool :=
  match check_fields t with Ok _ => true | Raise _ => false end.

(** Microseconds since the start of 0001-01-01. *)
Definition to_us (t : datetime) : Z :=
  (((ymd2ord (year t) (month t) (day t) - 1) * 86400
    + hour t * 3600 + minute t * 60 + second t) * 1000000)
  + microsecond t.

(** [a - b], a [timedelta], as its length in microseconds. *)
Definition sub (a b : datetime) : Z := to_us a - to_us b.

(** [td.total_seconds()]. *)
Definition total_seconds (td : Z) : Q := Qmake td 1000000.

(** [int(t.timestamp())] for a host whose zone is [utcoffset] seconds
    east of UTC throughout: whole seconds since 1970-01-01T00:00:00Z,
    rounded towards zero. *)
Definition int_timestamp (utcoffset : Z) (t : datetime) : Z :=
  Z.quot (to_us t - (ymd2ord 1970 1 1 - 1) * 86400000000
          - utcoffset * 1000000) 1000000.

(** *** Writing and reading the ISO format *)

Definition digit_char (d : Z) : ascii := ascii_of_nat (48 + Z.to_nat d).

(** [z] in [w] decimal digits, zero-padded. *)
Fixpoint zpad (w : nat) (z : Z) : string :=
  match w with
  | O => EmptyString
  | S w' => zpad w' (z / 10) ++ String (digit_char (z mod 10)) EmptyString
  end.

(** [t.isoformat()] *)
Definition isoformat (t : datetime) : string :=
  zpad 4 (year t) ++ "-" ++ zpad 2 (month t) ++ "-" ++ zpad 2 (day t)
  ++ "T" ++ zpad 2 (hour t) ++ ":" ++ zpad 2 (minute t) ++ ":"
  ++ zpad 2 (second t)
  ++ (if microsecond t =? 0 then "" else "." ++ zpad 6 (microsecond t)).

Definition digit_val (c : ascii) : option Z :=
  let n := nat_of_ascii c in
  if ((48 <=? n) && (n <=? 57))%nat then Some (Z.of_nat (n - 48)) else None.

(** Reads exactly [w] digits on top of [acc]. *)
Fixpoint read_digits (w : nat) (acc : Z) (s : string) : option (Z * string) :=
  match w with
  | O => Some (acc, s)
  | S w' =>
      match s with
      | String c s' =>
          match digit_val c with
          | Some d => read_digits w' (acc * 10 + d) s'
          | None => None
          end
      | EmptyString => None
      end
  end.

Definition read_char (c : ascii) (s : string) : option string :=
  match s with
  | String c' s' => if Ascii.eqb c c' then Some s' else None
  | EmptyString => None
  end.

Definition obind {A B} (o : option A) (k : A -> option B) : option B :=
  match o with Some a => k a | None => None end.

(** [fff] or [ffffff], up to the end of the text. *)
Definition read_fraction (s : string) : option Z :=
  obind (read_digits 3 0 s) (fun '(ms, r) =>
    match r with
    | EmptyString => Some (ms * 1000)
    | _ =>
        obind (read_digits 3 ms r) (fun '(us, r') =>
          match r' with EmptyString => Some us | _ => None end)
    end).

(** [HH[:MM[:SS[.fff[fff]]]]], up to the end of the text. *)
Definition read_time (s : string) : option (Z * Z * Z * Z) :=
  obind (read_digits 2 0 s) (fun '(h, r1) =>
    match r1 with
    | EmptyString => Some (h, 0, 0, 0)
    | _ =>
        obind (read_char ":" r1) (fun r2 =>
        obind (read_digits 2 0 r2) (fun '(mi, r3) =>
          match r3 with
          | EmptyString => Some (h, mi, 0, 0)
          | _ =>
              obind (read_char ":" r3) (fun r4 =>
              obind (read_digits 2 0 r4) (fun '(se, r5) =>
                match r5 with
                | EmptyString => Some (h, mi, se, 0)
                | _ =>
                    obind (read_char "." r5) (fun r6 =>
                    obind (read_fraction r6) (fun us =>
                      Some (h, mi, se, us)))
                end))
          end))
    end).

(** [YYYY-MM-DD[*HH[:MM[:SS[.fff[fff]]]]]]: the fields, unchecked. *)
Definition read_iso (s : string) : option datetime :=
  obind (read_digits 4 0 s) (fun '(y, r1) =>
  obind (read_char "-" r1) (fun r2 =>
  obind (read_digits 2 0 r2) (fun '(m, r3) =>
  obind (read_char "-" r3) (fun r4 =>
  obind (read_digits 2 0 r4) (fun '(d, r5) =>
    match r5 with
    | EmptyString => Some (mkDatetime y m d 0 0 0 0)
    | String _ r6 =>
        obind (read_time r6) (fun '(h, mi, se, us) =>
          Some (mkDatetime y m d h mi se us))
    end))))).

(** [datetime.fromisoformat(v)] on the documented grammar of CPython
    3.7 to 3.10 for texts without a UTC offset; later versions accept
    more forms, and all of them read back what [isoformat] writes
    ([fromisoformat_isoformat] below).  A text with an offset, which
    Python reads as an aware datetime that the subtraction from
    [datetime.now()] then rejects with a TypeError, is rejected here
    by the reader; the caller ends in its [except] branch either way. *)
Definition fromisoformat (v : pyval) : result datetime :=
  match v with
  | VStr s =>
      match read_iso s with
      | Some t => check_fields t
      | None => Raise (ValueError ("Invalid isoformat string: '" ++ s ++ "'"))
      end
  | _ => Raise (TypeError "fromisoformat: argument must be str")
  end.

End Datetime.
Import Datetime.

(** ** The coordinator *)

(** The module-level storage of [app.py], and how many times the
    process has read the clock. *)
Record world : Type := mkWorld {
  device_statuses : list (string * pydict);
  command_queues : list (string * list pydict);
  recent_activities : list (string * list pydict);
  ticks : nat
}.

Definition initial : world := mkWorld [] [] [] 0.

Definition set_device_statuses (f : list (string * pydict) -> list (string * pydict))
  (w : world) : world :=
  mkWorld (f (device_statuses w)) (command_queues w) (recent_activities w)
          (ticks w).

Definition set_command_queues
  (f : list (string * list pydict) -> list (string * list pydict))
  (w : world) : world :=
  mkWorld (device_statuses w) (f (command_queues w)) (recent_activities w)
          (ticks w).

Definition set_recent_activities
  (f : list (string * list pydict) -> list (string * list pydict))
  (w : world) : world :=
  mkWorld (device_statuses w) (command_queues w) (f (recent_activities w))
          (ticks w).

Definition tick (w : world) : world :=
  mkWorld (device_statuses w) (command_queues w) (recent_activities w)
          (S (ticks w)).

(** What a handler returns: the JSON body and the HTTP status. *)
Record response : Type := mkResponse {
  body : pydict;
  status_code : Z
}.

Definition jsonify (b : pydict) : response := mkResponse b 200.

(** A computation over the world that may raise. *)
Definition M (A : Type) : Type := world -> result A * world.

Definition ret {A} (a : A) : M A := fun w => (Ok a, w).

Definition bind {A B} (m : M A) (k : A -> M B) : M B :=
  fun w =>
    match m w with
    | (Ok a, w') => k a w'
    | (Raise e, w') => (Raise e, w')
    end.

Definition lift {A} (r : result A) : M A := fun w => (r, w).
Definition gets {A} (f : world -> A) : M A := fun w => (Ok (f w), w).
Definition modify (f : world -> world) : M unit := fun w => (Ok tt, f w).

(** [try: body  except Exception as e: handler(e)] *)
Definition try_except {A} (m : M A) (handler : exn -> M A) : M A :=
  fun w =>
    match m w with
    | (Ok a, w') => (Ok a, w')
    | (Raise e, w') => handler e w'
    end.

Declare Scope monad_scope.
Delimit Scope monad_scope with monad.
Notation "x <- m ;; k" := (bind m (fun x => k))
  (at level 61, m at next level, right associativity) : monad_scope.
Notation "m ;; k" := (bind m (fun _ => k))
  (at level 61, right associativity) : monad_scope.
Open Scope monad_scope.

(** A loop body run over a list, left to right, stopping at the first
    exception. *)
Fixpoint for_each {A} (xs : list A) (f : A -> M unit) : M unit :=
  match xs with
  | [] => ret tt
  | x :: xs' => f x ;; for_each xs' f
  end.

(** The same for a loop that only updates local variables. *)
Fixpoint fold_result {A S} (f : S -> A -> result S) (xs : list A) (s : S)
  : result S :=
  match xs with
  | [] => Ok s
  | x :: xs' => rbind (f s x) (fold_result f xs')
  end.

Definition statuses_json (d : list (string * pydict)) : pyval :=
  VDict (map (fun '(k, v) => (k, VDict v)) d).

Definition lists_json (d : list (string * list pydict)) : pyval :=
  VDict (map (fun '(k, l) => (k, VList (map VDict l))) d).

Definition len {A} (l : list A) : Z := Z.of_nat (List.length l).

Section Coordinator.

(** [clock n] is what the [n]-th call of [datetime.now()] returns;
  [utcoffset] is the offset of the host's time zone in seconds. *)
Variable clock : nat -> datetime.
Variable utcoffset : Z.

(** [datetime.now()] *)
Definition now : M datetime := fun w => (Ok (clock (ticks w)), tick w).

(** *** Utility functions *)

Definition add_command (device_id action : string) (params : pyval) : M unit :=
queues <- gets command_queues ;;
(if dict_mem device_id queues then ret tt
 else modify (set_command_queues (dict_set device_id []))) ;;
t1 <- now ;;
t2 <- now ;;
let command : pydict :=
  [ ("command_id", VStr (action ++ "_" ++ str_of_Z (int_timestamp utcoffset t1)));
    ("action", VStr action);
    ("parameters", py_or params (VDict []));
    ("timestamp", VStr (isoformat t2)) ] in
queues <- gets command_queues ;;
match dict_get device_id queues with
| Some q => modify (set_command_queues (dict_set device_id (q ++ [command])))
| None => lift (Raise (KeyError ("'" ++ device_id ++ "'")))
end.

(** [minutes_offline > 10] *)
Definition offline_too_long (current_time last_seen : datetime) : bool :=
let minutes_offline := (total_seconds (sub current_time last_seen) / 60)%Q in
negb (Qle_bool minutes_offline 10).

Definition cleanup_offline_devices : M unit :=
current_time <- now ;;
items <- gets device_statuses ;;
for_each items (fun '(device_id, status) =>
  v <- lift (dict_getitem "last_seen" status) ;;
  last_seen <- lift (fromisoformat v) ;;
  if offline_too_long current_time last_seen
  then modify (set_device_statuses (dict_del device_id))
  else ret tt).

(** *** Device communication endpoints *)

Definition device_heartbeat (device_id : string) (json : pyval) : M response :=
try_except
  (let data := py_or json (VDict []) in
   activities <- gets recent_activities ;;
   last_activity <-
     match dict_get device_id activities with
     | Some (entry :: _) => lift (dict_getitem "timestamp" entry)
     | _ => ret (VStr "Never")
     end ;;
   t <- now ;;
   uptime_hours <- lift (py_get data "uptime_hours" (VInt 0)) ;;
   cpu_usage <- lift (py_get data "cpu_usage" (VInt 0)) ;;
   actions_today <- lift (py_get data "actions_today" (VDict [])) ;;
   next_scheduled <- lift (py_get data "next_scheduled" VNone) ;;
   content_version <- lift (py_get data "content_version" (VStr "unknown")) ;;
   twitter_logged_in <- lift (py_get data "twitter_logged_in" (VBool false)) ;;
   modify (set_device_statuses (dict_set device_id
     [ ("status", VStr "online");
       ("last_seen", VStr (isoformat t));
       ("uptime_hours", uptime_hours);
       ("cpu_usage", cpu_usage);
       ("actions_today", actions_today);
       ("next_scheduled", next_scheduled);
       ("content_version", content_version);
       ("twitter_logged_in", twitter_logged_in);
       ("last_activity", last_activity) ])) ;;
   t' <- now ;;
   ret (jsonify [("success", VBool true); ("timestamp", VStr (isoformat t'))]))
  (fun e =>
     ret (mkResponse [("success", VBool false); ("error", VStr (str_exn e))]
                     500)).

Definition log_device_activity (device_id : string) (json : pyval) : M response :=
try_except
  (let activity := py_or json (VDict []) in
   activities <- gets recent_activities ;;
   (if dict_mem device_id activities then ret tt
    else modify (set_recent_activities (dict_set device_id []))) ;;
   t <- now ;;
   action <- lift (py_get activity "action" (VStr "unknown")) ;;
   success <- lift (py_get activity "success" (VBool false)) ;;
   details <- lift (py_get activity "details" (VStr "")) ;;
   preview <- lift (py_get activity "content_preview" (VStr "")) ;;
   content_preview <- lift (py_slice_to 100 preview) ;;
   let activity_entry : pydict :=
     [ ("timestamp", VStr (isoformat t));
       ("action", action);
       ("success", success);
       ("details", details);
       ("content_preview", content_preview) ] in
   activities <- gets recent_activities ;;
   match dict_get device_id activities with
   | Some l =>
       modify (set_recent_activities (dict_set device_id (activity_entry :: l)))
   | None => lift (Raise (KeyError ("'" ++ device_id ++ "'")))
   end ;;
   activities <- gets recent_activities ;;
   match dict_get device_id activities with
   | Some l =>
       modify (set_recent_activities (dict_set device_id (firstn 50 l)))
   | None => lift (Raise (KeyError ("'" ++ device_id ++ "'")))
   end ;;
   statuses <- gets device_statuses ;;
   match dict_get device_id statuses with
   | Some status =>
       stamp <- lift (dict_getitem "timestamp" activity_entry) ;;
       modify (set_device_statuses
                 (dict_set device_id (dict_set "last_activity" stamp status)))
   | None => ret tt
   end ;;
   ret (jsonify [("success", VBool true)]))
  (fun e =>
     ret (mkResponse [("success", VBool false); ("error", VStr (str_exn e))]
                     500)).

Definition get_pending_commands (device_id : string) : M response :=
try_except
  (queues <- gets command_queues ;;
   let commands :=
     match dict_get device_id queues with Some q => q | None => [] end in
   modify (set_command_queues (dict_set device_id [])) ;;
   t <- now ;;
   ret (jsonify [ ("commands", VList (map VDict commands));
                  ("timestamp", VStr (isoformat t)) ]))
  (fun e =>
     ret (jsonify [("commands", VList []); ("error", VStr (str_exn e))])).

(** *** Control room endpoints *)

Definition stop_device (device_id : string) : M response :=
try_except
  (add_command device_id "stop_bot"
     (VDict [("reason", VStr "Manual stop from Control Room")]) ;;
   ret (jsonify [ ("success", VBool true);
                  ("message", VStr ("Stop command sent to " ++ device_id)) ]))
  (fun e =>
     ret (mkResponse [("success", VBool false); ("error", VStr (str_exn e))]
                     500)).

Definition restart_device (device_id : string) (json : pyval) : M response :=
try_except
  (let params := py_or json (VDict []) in
   add_command device_id "restart_bot" params ;;
   ret (jsonify [ ("success", VBool true);
                  ("message", VStr ("Restart command sent to " ++ device_id)) ]))
  (fun e =>
     ret (mkResponse [("success", VBool false); ("error", VStr (str_exn e))]
                     500)).

(** The loop of [emergency_stop_all] over the keys present when it
  starts; the result is [stopped_devices]. *)
Fixpoint stop_each (ids : list string) (stopped_devices : list string)
: M (list string) :=
match ids with
| [] => ret stopped_devices
| device_id :: ids' =>
    add_command device_id "emergency_stop"
      (VDict [("priority", VStr "critical")]) ;;
    stop_each ids' (stopped_devices ++ [device_id])
end.

Definition emergency_stop_all : M response :=
try_except
  (statuses <- gets device_statuses ;;
   stopped_devices <- stop_each (dict_keys statuses) [] ;;
   ret (jsonify
     [ ("success", VBool true);
       ("message", VStr ("Emergency stop sent to "
                         ++ str_of_Z (len stopped_devices) ++ " devices"));
       ("devices", VList (map VStr stopped_devices)) ]))
  (fun e =>
     ret (mkResponse [("success", VBool false); ("error", VStr (str_exn e))]
                     500)).

(** *** Monitoring endpoints *)

(** [len([d for d in device_statuses.values() if d['status'] == 'online'])] *)
Definition count_online_strict (statuses : list (string * pydict)) : result Z :=
fold_result
  (fun n d =>
     rbind (dict_getitem "status" d)
           (fun s => Ok (if eq_str s "online" then n + 1 else n)))
  (dict_values statuses) 0.

Definition get_all_status : M response :=
try_except
  (cleanup_offline_devices ;;
   t <- now ;;
   statuses <- gets device_statuses ;;
   activities <- gets recent_activities ;;
   online <- lift (count_online_strict statuses) ;;
   ret (jsonify
     [ ("timestamp", VStr (isoformat t));
       ("devices", statuses_json statuses);
       ("recent_activities", lists_json activities);
       ("total_devices", VInt (len statuses));
       ("online_devices", VInt online) ]))
  (fun e => ret (mkResponse [("error", VStr (str_exn e))] 500)).

(** [d.get(k, default)] on a status dict. *)
Definition get_or (d : pydict) (k : string) (default : pyval) : pyval :=
match dict_get k d with Some v => v | None => default end.

(** [len([d for d in devices.values() if d.get('status') == 'online'])] *)
Definition count_online (devices : list (string * pydict)) : Z :=
len (filter (fun d => eq_str (get_or d "status" VNone) "online")
            (dict_values devices)).

(** The running totals of the first loop of [get_analytics]. *)
Record totals : Type := mkTotals {
total_actions : pyval;
total_tweets : pyval;
total_replies : pyval;
total_retweets : pyval;
total_uptime : pyval
}.

Definition zero_totals : totals :=
mkTotals (VInt 0) (VInt 0) (VInt 0) (VInt 0) (VInt 0).

Notation "x <~ r ;; k" := (rbind r (fun x => k))
(at level 61, r at next level, right associativity) : monad_scope.

(** [sum(actions_today.values()) if isinstance(actions_today, dict) else 0] *)
Definition sum_actions (actions_today : pyval) : result pyval :=
match actions_today with
| VDict d => py_sum (dict_values d)
| _ => Ok (VInt 0)
end.

(** One round of the first loop. *)
Definition add_device (acc : totals) (device_data : pydict) : result totals :=
let actions_today := get_or device_data "actions_today" (VDict []) in
tweets <~ py_get actions_today "tweets" (VInt 0) ;;
total_tweets' <~ py_add "+=" (total_tweets acc) tweets ;;
replies <~ py_get actions_today "replies" (VInt 0) ;;
total_replies' <~ py_add "+=" (total_replies acc) replies ;;
retweets <~ py_get actions_today "retweets" (VInt 0) ;;
total_retweets' <~ py_add "+=" (total_retweets acc) retweets ;;
device_actions <~ sum_actions actions_today ;;
total_actions' <~ py_add "+=" (total_actions acc) device_actions ;;
total_uptime' <~
  py_add "+=" (total_uptime acc) (get_or device_data "uptime_hours" (VInt 0)) ;;
Ok (mkTotals total_actions' total_tweets' total_replies' total_retweets'
             total_uptime').

(** [a / b if b > 0 else 0] *)
Definition ratio (a b : pyval) : result pyval :=
positive <~ py_gt b (VInt 0) ;;
if positive then py_truediv a b else Ok (VInt 0).

(** [(a / b * 100) if b > 0 else 0] *)
Definition percentage (a b : pyval) : result pyval :=
positive <~ py_gt b (VInt 0) ;;
if positive then (q <~ py_truediv a b ;; py_mul q (VInt 100)) else Ok (VInt 0).

(** One round of the second loop: the entry appended to
  [device_details]. *)
Definition device_detail (device_id : string) (device_data : pydict)
: result pydict :=
let actions_today := get_or device_data "actions_today" (VDict []) in
total_device_actions <~ sum_actions actions_today ;;
Ok [ ("id", VStr device_id);
     ("name", VStr (str_remove_all "bot_" device_id));
     ("status", get_or device_data "status" (VStr "unknown"));
     ("uptime_hours", get_or device_data "uptime_hours" (VInt 0));
     ("actions_today", actions_today);
     ("total_actions", total_device_actions);
     ("last_activity", get_or device_data "last_activity" (VStr "Never"));
     ("cpu_usage", get_or device_data "cpu_usage" (VInt 0));
     ("memory_usage", get_or device_data "memory_usage" (VInt 0)) ].

Definition device_details_of (devices : list (string * pydict))
: result (list pydict) :=
fold_result
  (fun details '(device_id, device_data) =>
     entry <~ device_detail device_id device_data ;;
     Ok (details ++ [entry]))
  devices [].

(** [analytics_data], computed from the registry after the cleanup. *)
Definition analytics_data (devices : list (string * pydict)) : result pydict :=
let total_devices := VInt (len devices) in
let online_devices := VInt (count_online devices) in
t <~ fold_result add_device (dict_values devices) zero_totals ;;
avg_uptime <~ ratio (total_uptime t) total_devices ;;
uptime_percentage <~ percentage online_devices total_devices ;;
avg_actions_per_device <~ ratio (total_actions t) total_devices ;;
details <~ device_details_of devices ;;
let device_details :=
  sort_by_key_reverse (fun x => get_or x "total_actions" VNone) details in
let top_performers :=
  if 3 <=? len device_details then firstn 3 device_details
  else device_details in
offline_devices <~ py_sub total_devices online_devices ;;
tweet_percentage <~ percentage (total_tweets t) (total_actions t) ;;
reply_percentage <~ percentage (total_replies t) (total_actions t) ;;
retweet_percentage <~ percentage (total_retweets t) (total_actions t) ;;
action_efficiency <~ ratio (total_actions t) (total_uptime t) ;;
device_health_score <~ percentage online_devices total_devices ;;
Ok [ ("fleet_overview", VDict
        [ ("total_devices", total_devices);
          ("online_devices", online_devices);
          ("offline_devices", offline_devices);
          ("total_uptime_hours", total_uptime t);
          ("average_uptime_hours", avg_uptime) ]);
     ("action_breakdown", VDict
        [ ("total_actions", total_actions t);
          ("tweets", total_tweets t);
          ("replies", total_replies t);
          ("retweets", total_retweets t);
          ("tweet_percentage", tweet_percentage);
          ("reply_percentage", reply_percentage);
          ("retweet_percentage", retweet_percentage) ]);
     ("device_details", VList (map VDict device_details));
     ("performance_metrics", VDict
        [ ("avg_actions_per_device", avg_actions_per_device);
          ("uptime_percentage", uptime_percentage);
          ("action_efficiency", action_efficiency);
          ("device_health_score", device_health_score) ]);
     ("top_performers", VList (map VDict top_performers)) ].

Definition get_analytics : M response :=
try_except
  (cleanup_offline_devices ;;
   devices <- gets device_statuses ;;
   data <- lift (analytics_data devices) ;;
   t <- now ;;
   ret (jsonify [ ("timestamp", VStr (isoformat t));
                  ("analytics", VDict data) ]))
  (fun e => ret (mkResponse [("error", VStr (str_exn e))] 500)).

Definition home : M response :=
t <- now ;;
statuses <- gets device_statuses ;;
ret (jsonify
  [ ("service", VStr "Central Bot API");
    ("version", VStr "1.0.0");
    ("status", VStr "running");
    ("timestamp", VStr (isoformat t));
    ("connected_devices", VInt (len statuses));
    ("endpoints", VDict
       [ ("device_heartbeat", VStr "/api/device/<id>/heartbeat [POST]");
         ("device_commands", VStr "/api/device/<id>/commands [GET]");
         ("control_stop", VStr "/api/control/stop/<id> [POST]");
         ("emergency_stop", VStr "/api/control/emergency_stop_all [POST]");
         ("fleet_status", VStr "/api/status/all [GET]");
         ("analytics", VStr "/api/status/analytics [GET]") ]) ]).

Definition health_check : M response :=
t <- now ;;
ret (jsonify [("status", VStr "healthy"); ("timestamp", VStr (isoformat t))]).

(** *** The routes *)

Inductive request : Type :=
| Heartbeat (device_id : string) (json : pyval)
| Activity (device_id : string) (json : pyval)
| Commands (device_id : string)
| Stop (device_id : string)
| Restart (device_id : string) (json : pyval)
| EmergencyStopAll
| StatusAll
| Analytics
| Home
| Health.

Definition handle (r : request) : M response :=
match r with
| Heartbeat device_id json => device_heartbeat device_id json
| Activity device_id json => log_device_activity device_id json
| Commands device_id => get_pending_commands device_id
| Stop device_id => stop_device device_id
| Restart device_id json => restart_device device_id json
| EmergencyStopAll => emergency_stop_all
| StatusAll => get_all_status
| Analytics => get_analytics
| Home => home
| Health => health_check
end.

(** The world after serving the requests in order. *)
Fixpoint serve (rs : list request) (w : world) : world :=
match rs with
| [] => w
| r :: rs' => serve rs' (snd (handle r w))
end.

End Coordinator.

(** Reading a field out of nested JSON objects. *)
Fixpoint json_path (path : list string) (v : pyval) : option pyval :=
  match path with
  | [] => Some v
  | k :: path' =>
      match v with
      | VDict d =>
          match dict_get k d with
          | Some v' => json_path path' v'
          | None => None
          end
      | _ => None
      end
  end.

(** ** Vocabulary of the statements *)

(** The queue of a device; a device without an entry has nothing
    queued. *)
Definition queue_of (device_id : string) (w : world) : list pydict :=
  match dict_get device_id (command_queues w) with
  | Some q => q
  | None => []
  end.

(** The activity log of a device. *)
Definition log_of (device_id : string) (w : world) : list pydict :=
  match dict_get device_id (recent_activities w) with
  | Some l => l
  | None => []
  end.

(** The command [add_command] builds when its clock reads are number
    [n] and [n + 1]. *)
Definition command_at (clock : nat -> datetime) (utcoffset : Z)
  (action : string) (params : pyval) (n : nat) : pydict :=
  [ ("command_id",
     VStr (action ++ "_" ++ str_of_Z (int_timestamp utcoffset (clock n))));
    ("action", VStr action);
    ("parameters", py_or params (VDict []));
    ("timestamp", VStr (isoformat (clock (S n)))) ].

Definition command_id (c : pydict) : pyval := get_or c "command_id" VNone.

(** Going from [w] to [w'] put exactly the command [c] at the tail of
    the queue of [device_id]. *)
Definition appended (w w' : world) (device_id : string) (c : pydict) : Prop :=
  queue_of device_id w' = queue_of device_id w ++ [c].

(** Every dictionary of the storage has each key once. *)
Definition unique_keys (w : world) : Prop :=
  NoDup (dict_keys (device_statuses w))
  /\ NoDup (dict_keys (command_queues w))
  /\ NoDup (dict_keys (recent_activities w)).

(** The broadcast property with pairwise distinct command ids. *)
Definition broadcast_distinct_ids (clock : nat -> datetime) (utcoffset : Z)
  (w : world) : Prop :=
  let w' := snd (emergency_stop_all clock utcoffset w) in
  let ids := dict_keys (device_statuses w) in
  (forall id, In id ids -> exists c, appended w w' id c)
  /\ (forall id1 id2 c1 c2,
        In id1 ids -> In id2 ids -> id1 <> id2 ->
        appended w w' id1 c1 -> appended w w' id2 c2 ->
        command_id c1 <> command_id c2)
  /\ (forall id, ~ In id ids -> queue_of id w' = queue_of id w).

(** [respects R m]: running [m] takes every world to one related to
    it by [R], whether [m] returns or raises. *)
Definition respects (R : world -> world -> Prop) {A} (m : M A) : Prop :=
  forall w, R w (snd (m w)).

(** [f] reads the same in both worlds. *)
Definition same {A} (f : world -> A) (w w' : world) : Prop := f w' = f w.

(** The set of devices with a queue only grows. *)
Definition queues_grow (w w' : world) : Prop :=
  incl (dict_keys (command_queues w)) (dict_keys (command_queues w')).

(** [last_seen = datetime.fromisoformat(status['last_seen'])] *)
Definition last_seen_of (status : pydict) : result datetime :=
  rbind (dict_getitem "last_seen" status) fromisoformat.

(** The row is evicted by a sweep at [current_time]. *)
Definition stale (current_time : datetime) (status : pydict) : bool :=
  match last_seen_of status with
  | Ok t => offline_too_long current_time t
  | Raise _ => false
  end.

Definition fresh (current_time : datetime) (item : string * pydict) : bool :=
  negb (stale current_time (snd item)).

(** The loop of [cleanup_offline_devices] as a function of the items
    it walks: how the loop ends and which of the items are still in the
    registry at that point. *)
Fixpoint sweep (current_time : datetime) (items : list (string * pydict))
  : result unit * list (string * pydict) :=
  match items with
  | [] => (Ok tt, [])
  | (device_id, status) :: items' =>
      match last_seen_of status with
      | Raise e => (Raise e, items)
      | Ok t =>
          let (r, rest) := sweep current_time items' in
          (r, if offline_too_long current_time t then rest
              else (device_id, status) :: rest)
      end
  end.

(** Ten minutes, in microseconds. *)
Definition ten_minutes : Z := 600000000.

(** The failure property of the sweep with a [success] field in the
    answer and no change to the registry. *)
Definition sweep_failure_is_clean (clock : nat -> datetime) (w : world) : Prop :=
  forall e w1,
    cleanup_offline_devices clock w = (Raise e, w1) ->
    exists r w',
      get_all_status clock w = (Ok r, w')
      /\ status_code r = 500
      /\ dict_get "success" (body r) = Some (VBool false)
      /\ (exists msg, dict_get "error" (body r) = Some (VStr msg))
      /\ device_statuses w' = device_statuses w.

(** [mostRecentTimestamp]: what the heartbeat stores as last_activity. *)
Definition most_recent (device_id : string) (w : world) : result pyval :=
  match dict_get device_id (recent_activities w) with
  | Some (entry :: _) => dict_getitem "timestamp" entry
  | _ => Ok (VStr "Never")
  end.

(** The row a heartbeat writes for the report [data] at clock read [t]. *)
Definition status_row (t : datetime) (data : pydict) (last_activity : pyval)
  : pydict :=
  [ ("status", VStr "online");
    ("last_seen", VStr (isoformat t));
    ("uptime_hours", get_or data "uptime_hours" (VInt 0));
    ("cpu_usage", get_or data "cpu_usage" (VInt 0));
    ("actions_today", get_or data "actions_today" (VDict []));
    ("next_scheduled", get_or data "next_scheduled" VNone);
    ("content_version", get_or data "content_version" (VStr "unknown"));
    ("twitter_logged_in", get_or data "twitter_logged_in" (VBool false));
    ("last_activity", last_activity) ].

(** The entry [log_device_activity] builds from the report [data] at
    clock read [t], [preview] being the sliced content_preview. *)
Definition entry_at (t : datetime) (data : pydict) (preview : pyval) : pydict :=
  [ ("timestamp", VStr (isoformat t));
    ("action", get_or data "action" (VStr "unknown"));
    ("success", get_or data "success" (VBool false));
    ("details", get_or data "details" (VStr ""));
    ("content_preview", preview) ].

(** The entry an activity report leads to, if it is accepted: the body
    has to be a JSON object (or an empty value) whose content_preview
    can be sliced. *)
Definition entry_of (t : datetime) (json : pyval) : option pydict :=
  match py_or json (VDict []) with
  | VDict data =>
      match py_slice_to 100 (get_or data "content_preview" (VStr "")) with
      | Ok preview => Some (entry_at t data preview)
      | Raise _ => None
      end
  | _ => None
  end.


(** [device_statuses[device_id]['last_activity'] = stamp], when the
    device has a row. *)
Definition touch (device_id : string) (stamp : pyval)
  (statuses : list (string * pydict)) : list (string * pydict) :=
  match dict_get device_id statuses with
  | Some row => dict_set device_id (dict_set "last_activity" stamp row) statuses
  | None => statuses
  end.

(** The log dictionary once [device_id] is sure to have a log. *)
Definition ensure_log (device_id : string)
  (activities : list (string * list pydict)) : list (string * list pydict) :=
  if dict_mem device_id activities then activities
  else dict_set device_id [] activities.

(** The preview of an entry is a text of at most 100 characters or a
    list of at most 100 items. *)
Definition preview_bounded (entry : pydict) : Prop :=
  match dict_get "content_preview" entry with
  | Some (VStr s) => (String.length s <= 100)%nat
  | Some (VList l) => (List.length l <= 100)%nat
  | _ => False
  end.


(** The result is not a ZeroDivisionError. *)
Definition no_zero_division {A} (r : result A) : Prop :=
  match r with
  | Raise e => is_ZeroDivisionError e = false
  | Ok _ => True
  end.

(** A field of the analytics, by section and name. *)
Definition analytics_field (data : pydict) (section name : string)
  : option pyval :=
  json_path [section; name] (VDict data).

(** The integer a count stands for. *)
Definition int_of (v : pyval) : Z :=
  match v with VInt z => z | _ => 0 end.

Definition is_int (v : pyval) : bool :=
  match v with VInt _ => true | _ => false end.

(** The actions_today of a row, when it is a mapping to ints. *)
Definition int_actions (row : pydict) : option pydict :=
  match get_or row "actions_today" (VDict []) with
  | VDict d => if forallb is_int (dict_values d) then Some d else None
  | _ => None
  end.

(** The sum of all values of a mapping to ints. *)
Definition sum_values (d : pydict) : Z :=
  fold_right Z.add 0 (map int_of (dict_values d)).

(** The count a mapping to ints gives for one kind of action. *)
Definition count_of (kind : string) (d : pydict) : Z :=
  int_of (get_or d kind (VInt 0)).

(** A quantity of the action mappings, summed over the registry. *)
Definition over_devices (f : pydict -> Z) (devices : list (string * pydict)) : Z :=
  fold_right Z.add 0
    (map (fun row => match int_actions row with Some d => f d | None => 0 end)
         (dict_values devices)).

(** A registry row as a heartbeat leaves it: online, with a last_seen
    written by [isoformat] from a valid datetime. *)
Definition row_ok (row : pydict) : Prop :=
  dict_get "status" row = Some (VStr "online")
  /\ exists t, valid t = true
               /\ dict_get "last_seen" row = Some (VStr (isoformat t)).

(** A log entry carries a timestamp. *)
Definition entry_ok (entry : pydict) : Prop :=
  exists s, dict_get "timestamp" entry = Some (VStr s).

(** What holds of the storage whatever requests were served. *)
Definition well_formed (w : world) : Prop :=
  unique_keys w
  /\ (forall id row, In (id, row) (device_statuses w) -> row_ok row)
  /\ (forall id l, In (id, l) (recent_activities w) -> Forall entry_ok l).

(** The three dictionaries are the same in both worlds. *)
Definition same_stores (w w' : world) : Prop :=
  device_statuses w' = device_statuses w
  /\ command_queues w' = command_queues w
  /\ recent_activities w' = recent_activities w.

(** Going from [w] to [w'] keeps the storage well formed. *)
Definition keeps_well_formed (w w' : world) : Prop :=
  well_formed w -> well_formed w'.

(** [td.total_seconds() / 60 > 10] as the interpreter computes it, on
    floats, for a difference of [td] microseconds. *)
Definition float_offline_too_long (td : Z) : result bool :=
  rbind (int_truediv td 1000000) (fun total_seconds =>
  rbind (py_truediv (VFloat total_seconds) (VInt 60)) (fun minutes_offline =>
  py_gt minutes_offline (VInt 10))).

(** ** Concrete runs used as witnesses *)

(** A clock that advances one microsecond per read within the second
    after noon: all the reads of one request fall in the same second. *)
Definition fast_clock (n : nat) : datetime :=
  mkDatetime 2025 1 1 12 0 0 (Z.of_nat n mod 1000000).

(** A clock that advances one minute per read. *)
Definition minute_clock (n : nat) : datetime :=
  mkDatetime 2025 1 1 12 (Z.of_nat n) 0 0.

(** Three devices have sent one heartbeat each. *)
Definition three_devices : world :=
  serve fast_clock 0
    [ Heartbeat "bot_1" (VDict []);
      Heartbeat "bot_2" (VDict []);
      Heartbeat "bot_3" (VDict []) ]
    initial.

(** A heartbeat at 12:00, nine health probes, a heartbeat at 12:11: the
    next clock read says 12:13. *)
Definition old_and_new : world :=
  serve minute_clock 0
    [ Heartbeat "bot_old" (VDict []);
      Health; Health; Health; Health; Health; Health; Health; Health; Health;
      Heartbeat "bot_new" (VDict []) ]
    initial.

(** A registry holding a row that is an hour old and, after it, a row
    whose last_seen is not a timestamp. *)
Definition with_bad_row : world :=
  mkWorld
    [ ("bot_old", [("status", VStr "online");
                   ("last_seen", VStr "2025-01-01T11:00:00")]);
      ("bot_bad", [("status", VStr "online");
                   ("last_seen", VStr "yesterday")]) ]
    [] [] 0.


(** One device reporting one tweet and one action of another kind. *)
Definition one_tweet_one_like : world :=
  serve fast_clock 0
    [ Heartbeat "bot_1"
        (VDict [("actions_today",
                 VDict [("tweets", VInt 1); ("likes", VInt 1)])]) ]
    initial.

(** One device whose heartbeat gave a number for actions_today. *)
Definition actions_not_a_mapping : world :=
  serve fast_clock 0
    [ Heartbeat "bot_1" (VDict [("actions_today", VInt 5)]) ]
    initial.

(** ** Vocabulary of the further properties *)

(** The parameters of the command [stop_device] queues. *)
Definition stop_reason : pyval :=
  VDict [("reason", VStr "Manual stop from Control Room")].

(** What a control request orders for [device_id]: the action and the
    parameters handed to [add_command]; [None] for any other request. *)
Definition control_order (device_id : string) (r : request)
  : option (string * pyval) :=
  match r with
  | Stop id =>
      if String.eqb id device_id then Some ("stop_bot", stop_reason) else None
  | Restart id json =>
      if String.eqb id device_id
      then Some ("restart_bot", py_or json (VDict []))
      else None
  | _ => None
  end.

(** The commands a run of control requests for [device_id] builds, the
    first of them reading the clock at read [n]. *)
Fixpoint issued (clock : nat -> datetime) (utcoffset : Z) (device_id : string)
  (n : nat) (rs : list request) : list pydict :=
  match rs with
  | [] => []
  | r :: rs' =>
      match control_order device_id r with
      | Some (action, params) =>
          command_at clock utcoffset action params n
          :: issued clock utcoffset device_id (S (S n)) rs'
      | None => issued clock utcoffset device_id n rs'
      end
  end.

(** The key the ranking of the analytics sorts by. *)
Definition total_key (detail : pydict) : pyval :=
  get_or detail "total_actions" VNone.

(** The order of two items by their integer keys. *)
Definition key_le {A} (key : A -> pyval) (a b : A) : Prop :=
  int_of (key a) <= int_of (key b).

(** A list of details is ranked: totals do not increase along it. *)
Definition ranked (details : list pydict) : Prop :=
  StronglySorted (fun a b => key_le total_key b a) details.

(** A clock that advances one minute per read and starts the hour
    again after sixty reads: every read is a valid datetime. *)
Definition minute_hand_clock (n : nat) : datetime :=
  mkDatetime 2025 1 1 12 (Z.of_nat n mod 60) 0 0.

(** A heartbeat at 12:00, nine health probes, a heartbeat at 12:11,
    under [minute_hand_clock]: the next clock read says 12:13. *)
Definition one_stale_one_fresh : world :=
  serve minute_hand_clock 0
    [ Heartbeat "bot_old" (VDict []);
      Health; Health; Health; Health; Health; Health; Health; Health; Health;
      Heartbeat "bot_new" (VDict []) ]
    initial.

(** One device whose heartbeat gave a text for one of its counts. *)
Definition count_not_a_number : world :=
  serve fast_clock 0
    [ Heartbeat "bot_1"
        (VDict [("actions_today",
                 VDict [("tweets", VInt 1); ("likes", VStr "many")])]) ]
    initial.

(** Three devices reporting 2, 9 and 4 actions. *)
Definition three_busy_devices : world :=
  serve fast_clock 0
    [ Heartbeat "bot_1" (VDict [("actions_today", VDict [("tweets", VInt 2)])]);
      Heartbeat "bot_2" (VDict [("actions_today", VDict [("tweets", VInt 9)])]);
      Heartbeat "bot_3" (VDict [("actions_today", VDict [("likes", VInt 4)])]) ]
    initial.

(** The fields of a registry row, in the order a heartbeat writes
    them. *)
Definition heartbeat_fields : list string :=
  [ "status"; "last_seen"; "uptime_hours"; "cpu_usage"; "actions_today";
    "next_scheduled"; "content_version"; "twitter_logged_in";
    "last_activity" ].

(** Every registry row has exactly the fields of a heartbeat. *)
Definition rows_shaped (w : world) : Prop :=
  forall id row, In (id, row) (device_statuses w) ->
                 dict_keys row = heartbeat_fields.

(** The registry only loses rows from [w] to [w']. *)
Definition rows_shrink (w w' : world) : Prop :=
  incl (device_statuses w') (device_statuses w).

(** Whatever [m] returns satisfies [P]; [m] may raise. *)
Definition returns_only {A} (P : A -> Prop) (m : M A) : Prop :=
  forall w, match fst (m w) with Ok a => P a | Raise _ => True end.

(** [m] does not raise, and what it returns satisfies [P]. *)
Definition answers {A} (P : A -> Prop) (m : M A) : Prop :=
  forall w, match fst (m w) with Ok a => P a | Raise _ => False end.

(** The status codes a request can be answered with: a poll, the home
    page and the health probe always succeed. *)
Definition status_allowed (r : request) (resp : response) : Prop :=
  match r with
  | Commands _ | Home | Health => status_code resp = 200
  | _ => status_code resp = 200 \/ status_code resp = 500
  end.

(** * Properties *)

(** ** Dictionaries *)

Section DictFacts.
Context {V : Type}.
Implicit Types (k : string) (v : V) (d : list (string * V)).

Lemma dict_get_set_eq k v d : dict_get k (dict_set k v d) = Some v.
Proof.
  induction d as [|[k' v'] d IH]; simpl.
  - now rewrite String.eqb_refl.
  - destruct (String.eqb k k') eqn:E; simpl; rewrite E; auto.
Qed.

Lemma dict_get_set_ne k k' v d :
  k <> k' -> dict_get k' (dict_set k v d) = dict_get k' d.
Proof.
  intros Hne. induction d as [|[k0 v0] d IH]; simpl.
  - destruct (String.eqb k' k) eqn:E; auto.
    apply String.eqb_eq in E. congruence.
  - destruct (String.eqb k k0) eqn:E; simpl; auto.
    + apply String.eqb_eq in E. subst k0.
      destruct (String.eqb k' k) eqn:E'; auto.
      apply String.eqb_eq in E'. congruence.
    + now rewrite IH.
Qed.

Lemma dict_set_set k v v' d : dict_set k v (dict_set k v' d) = dict_set k v d.
Proof.
  induction d as [|[k0 v0] d IH]; simpl.
  - now rewrite String.eqb_refl.
  - destruct (String.eqb k k0) eqn:E; simpl; rewrite E; auto.
    now rewrite IH.
Qed.

Lemma dict_get_None k d : dict_get k d = None <-> ~ In k (dict_keys d).
Proof.
  induction d as [|[k0 v0] d IH]; simpl.
  - tauto.
  - destruct (String.eqb k k0) eqn:E.
    + apply String.eqb_eq in E. subst. split; [discriminate | tauto].
    + apply String.eqb_neq in E. rewrite IH. split; intros H.
      * intros [H1 | H1]; [congruence | tauto].
      * tauto.
Qed.

Lemma dict_get_Some_In k v d : dict_get k d = Some v -> In (k, v) d.
Proof.
  induction d as [|[k0 v0] d IH]; simpl; [discriminate|].
  destruct (String.eqb k k0) eqn:E.
  - apply String.eqb_eq in E. intros [= ->]. subst. now left.
  - intros H. right. auto.
Qed.

Lemma dict_get_In k v d :
  NoDup (dict_keys d) -> In (k, v) d -> dict_get k d = Some v.
Proof.
  induction d as [|[k0 v0] d IH]; simpl; [tauto|].
  intros Hnd [H | H].
  - inversion H; subst. now rewrite String.eqb_refl.
  - inversion Hnd as [|? ? Hnotin Hnd']; subst.
    destruct (String.eqb k k0) eqn:E.
    + apply String.eqb_eq in E. subst k0. exfalso. apply Hnotin.
      change k with (fst (k, v)). now apply in_map.
    + auto.
Qed.

Lemma dict_keys_set_present k v d :
  In k (dict_keys d) -> dict_keys (dict_set k v d) = dict_keys d.
Proof.
  induction d as [|[k0 v0] d IH]; simpl; [tauto|].
  intros H. destruct (String.eqb k k0) eqn:E; simpl; auto.
  apply String.eqb_neq in E. f_equal. apply IH.
  destruct H; [congruence | assumption].
Qed.

Lemma dict_keys_set_absent k v d :
  ~ In k (dict_keys d) -> dict_keys (dict_set k v d) = dict_keys d ++ [k].
Proof.
  induction d as [|[k0 v0] d IH]; simpl; auto.
  intros H. destruct (String.eqb k k0) eqn:E; simpl.
  - apply String.eqb_eq in E. subst. tauto.
  - f_equal. apply IH. tauto.
Qed.

Lemma dict_keys_set_incl k v d :
  incl (dict_keys d) (dict_keys (dict_set k v d)).
Proof.
  intros x Hx.
  destruct (in_dec string_dec k (dict_keys d)) as [Hin | Hout].
  - now rewrite dict_keys_set_present.
  - rewrite dict_keys_set_absent by assumption. apply in_or_app. now left.
Qed.

Lemma NoDup_keys_set k v d :
  NoDup (dict_keys d) -> NoDup (dict_keys (dict_set k v d)).
Proof.
  intros Hnd.
  destruct (in_dec string_dec k (dict_keys d)) as [Hin | Hout].
  - now rewrite dict_keys_set_present.
  - rewrite dict_keys_set_absent by assumption.
    apply NoDup_app; [assumption | repeat constructor; simpl; tauto |].
    intros x Hx [<- | []]. contradiction.
Qed.

Lemma dict_del_middle k v (pre post : list (string * V)) :
  ~ In k (dict_keys pre) ->
  dict_del k (pre ++ (k, v) :: post) = pre ++ post.
Proof.
  induction pre as [|[k0 v0] pre IH]; simpl; intros H.
  - now rewrite String.eqb_refl.
  - destruct (String.eqb k k0) eqn:E.
    + apply String.eqb_eq in E. subst. tauto.
    + f_equal. apply IH. tauto.
Qed.
End DictFacts.

(** ** Printing integers *)

Lemma str_of_Z_inj a b : str_of_Z a = str_of_Z b -> a = b.
Proof.
  unfold str_of_Z. intros H.
  assert (Hnil : forall z, Z.to_int z <> Decimal.Pos Decimal.Nil
                           /\ Z.to_int z <> Decimal.Neg Decimal.Nil).
  { intros z. destruct z; simpl; split; try discriminate; intros [= E];
      revert E; apply DecimalPos.Unsigned.to_uint_nonnil. }
  apply DecimalZ.to_int_inj.
  assert (E : NilZero.int_of_string (NilZero.string_of_int (Z.to_int a))
              = NilZero.int_of_string (NilZero.string_of_int (Z.to_int b)))
    by now rewrite H.
  rewrite !NilZero.isi in E by apply Hnil. now injection E.
Qed.

Lemma string_app_inv_head (p a b : string) :
  (p ++ a)%string = (p ++ b)%string -> a = b.
Proof.
  induction p as [|c p IH]; cbn [append]; intros H; [exact H|].
  apply IH. congruence.
Qed.

(** ** Queueing commands *)

Section CommandFacts.
Variable clock : nat -> datetime.
Variable utcoffset : Z.

Lemma add_command_spec device_id action params w :
  add_command clock utcoffset device_id action params w
  = (Ok tt,
     mkWorld (device_statuses w)
             (dict_set device_id
                (queue_of device_id w
                 ++ [command_at clock utcoffset action params (ticks w)])
                (command_queues w))
             (recent_activities w)
             (S (S (ticks w)))).
Proof.
  unfold add_command, bind, gets, modify, ret, now, lift, queue_of, dict_mem,
    command_at.
  destruct (dict_get device_id (command_queues w)) as [q|] eqn:E; simpl.
  - rewrite E. reflexivity.
  - rewrite dict_get_set_eq. unfold set_command_queues, tick. simpl.
    now rewrite dict_set_set.
Qed.

(** The loop of the broadcast: the [i]-th device gets the command
    built from clock reads [2i] and [2i+1] after the start, nothing
    else moves. *)
Lemma stop_each_spec action_params ids : forall stopped w,
  action_params = VDict [("priority", VStr "critical")] ->
  NoDup ids ->
  exists w',
    stop_each clock utcoffset ids stopped w = (Ok (stopped ++ ids), w')
    /\ device_statuses w' = device_statuses w
    /\ recent_activities w' = recent_activities w
    /\ ticks w' = (ticks w + 2 * List.length ids)%nat
    /\ (forall i id, nth_error ids i = Some id ->
          appended w w' id
            (command_at clock utcoffset "emergency_stop" action_params
                        (ticks w + 2 * i)))
    /\ (forall id, ~ In id ids ->
          dict_get id (command_queues w') = dict_get id (command_queues w))
    /\ incl (dict_keys (command_queues w)) (dict_keys (command_queues w'))
    /\ (NoDup (dict_keys (command_queues w)) ->
        NoDup (dict_keys (command_queues w'))).
Proof.
  intros stopped w ->. revert stopped w.
  induction ids as [|id ids IH]; intros stopped w Hnd.
  - exists w. simpl. unfold ret. rewrite app_nil_r, Nat.add_0_r.
    repeat split; auto.
    + intros [|i] id H; discriminate.
    + apply incl_refl.
  - inversion Hnd as [|? ? Hnotin Hnd']; subst.
    simpl. unfold bind at 1. rewrite add_command_spec.
    match goal with |- context [stop_each _ _ ids ?s ?w1] =>
      destruct (IH s w1 Hnd') as (w' & Hrun & Hds & Hra & Hticks & Hq & Hother & Hincl & Hnd'')
    end.
    exists w'. rewrite Hrun.
    cbn [device_statuses recent_activities ticks command_queues] in *.
    repeat split; auto.
    + now rewrite <- app_assoc.
    + rewrite Hticks. cbn [List.length]. lia.
    + intros [|i] id' H; simpl in H.
      * injection H as <-. unfold appended.
        unfold queue_of at 1. rewrite (Hother id Hnotin).
        rewrite dict_get_set_eq.
        do 3 f_equal. lia.
      * assert (Hne : id <> id').
        { intros <-. apply Hnotin. eapply nth_error_In; eauto. }
        specialize (Hq i id' H). unfold appended in *.
        rewrite Hq. unfold queue_of. cbn [command_queues].
        rewrite dict_get_set_ne by exact Hne. do 3 f_equal. lia.
    + intros id' Hid'. rewrite Hother by tauto.
      apply dict_get_set_ne. intros <-. tauto.
    + eapply incl_tran; [apply dict_keys_set_incl | exact Hincl].
    + intros H. apply Hnd''. now apply NoDup_keys_set.
Qed.
End CommandFacts.

(** ** Handlers and the parts of the storage they leave alone *)

Section Respects.
Variable R : world -> world -> Prop.
Hypothesis R_refl : forall w, R w w.
Hypothesis R_trans : forall a b c, R a b -> R b c -> R a c.

Lemma respects_ret {A} (a : A) : respects R (ret a).
Proof. intros w. apply R_refl. Qed.

Lemma respects_lift {A} (r : result A) : respects R (lift r).
Proof. intros w. apply R_refl. Qed.

Lemma respects_gets {A} (f : world -> A) : respects R (gets f).
Proof. intros w. apply R_refl. Qed.

Lemma respects_modify (f : world -> world) :
  (forall w, R w (f w)) -> respects R (modify f).
Proof. intros H w. apply H. Qed.

Lemma respects_now clock :
  (forall w, R w (tick w)) -> respects R (now clock).
Proof. intros H w. apply H. Qed.

Lemma respects_bind {A B} (m : M A) (k : A -> M B) :
  respects R m -> (forall a, respects R (k a)) -> respects R (bind m k).
Proof.
  intros Hm Hk w. unfold bind. specialize (Hm w).
  destruct (m w) as [[a|e] w1]; simpl in *; auto.
  eapply R_trans; [exact Hm | apply Hk].
Qed.

Lemma respects_try {A} (m : M A) (h : exn -> M A) :
  respects R m -> (forall e, respects R (h e)) -> respects R (try_except m h).
Proof.
  intros Hm Hh w. unfold try_except. specialize (Hm w).
  destruct (m w) as [[a|e] w1]; simpl in *; auto.
  eapply R_trans; [exact Hm | apply Hh].
Qed.

Lemma respects_for_each {A} (xs : list A) (f : A -> M unit) :
  (forall x, In x xs -> respects R (f x)) -> respects R (for_each xs f).
Proof.
  induction xs as [|x xs IH]; intros H; simpl.
  - apply respects_ret.
  - apply respects_bind; [apply H; now left|].
    intros _. apply IH. intros y Hy. apply H. now right.
Qed.
End Respects.

(** Breaks a handler into its steps; what is left are the steps that
    write to the storage or read the clock. *)
Ltac step_respects Hrefl Htrans :=
  cbv zeta;
  repeat
    match goal with
    | |- respects _ (ret _) => apply (respects_ret _ Hrefl)
    | |- respects _ (lift _) => apply (respects_lift _ Hrefl)
    | |- respects _ (gets _) => apply (respects_gets _ Hrefl)
    | |- respects _ (bind _ _) => apply (respects_bind _ Htrans); [|intros ?]
    | |- respects _ (try_except _ _) =>
        apply (respects_try _ Htrans); [|intros ?]
    | |- respects _ (for_each _ _) =>
        apply (respects_for_each _ Hrefl Htrans);
        let x := fresh "x" in intros x _; try destruct x; cbv beta iota
    | |- respects _ (modify _) => apply respects_modify
    | |- respects _ (now _) => apply respects_now
    | |- respects _ (match ?x with _ => _ end) => destruct x
    end.

Lemma same_refl {A} (f : world -> A) w : same f w w.
Proof. reflexivity. Qed.

Lemma same_trans {A} (f : world -> A) a b c :
  same f a b -> same f b c -> same f a c.
Proof. unfold same. congruence. Qed.

Ltac keeps :=
  match goal with
  | |- respects (same ?f) _ => step_respects (same_refl f) (same_trans f)
  end;
  try (intros ?; reflexivity).

Section FrameFacts.
Variable clock : nat -> datetime.
Variable utcoffset : Z.

Lemma device_heartbeat_queues device_id json :
  respects (same command_queues) (device_heartbeat clock device_id json).
Proof. unfold device_heartbeat. keeps. Qed.

Lemma device_heartbeat_activities device_id json :
  respects (same recent_activities) (device_heartbeat clock device_id json).
Proof. unfold device_heartbeat. keeps. Qed.
End FrameFacts.

Lemma queues_grow_refl w : queues_grow w w.
Proof. apply incl_refl. Qed.

Lemma queues_grow_trans a b c :
  queues_grow a b -> queues_grow b c -> queues_grow a c.
Proof. apply incl_tran. Qed.

Ltac grows :=
  step_respects queues_grow_refl queues_grow_trans;
  try (intros ?; first [apply incl_refl | apply dict_keys_set_incl]).

Section GrowFacts.
Variable clock : nat -> datetime.
Variable utcoffset : Z.

Lemma add_command_grows device_id action params :
  respects queues_grow (add_command clock utcoffset device_id action params).
Proof. unfold add_command. grows. Qed.

Lemma stop_each_grows ids : forall stopped,
  respects queues_grow (stop_each clock utcoffset ids stopped).
Proof.
  induction ids as [|id ids IH]; intros stopped; simpl.
  - grows.
  - apply (respects_bind _ queues_grow_trans);
      [apply add_command_grows | intros _; apply IH].
Qed.

Lemma handle_grows r : respects queues_grow (handle clock utcoffset r).
Proof.
  destruct r; simpl;
    unfold device_heartbeat, log_device_activity, get_pending_commands,
      stop_device, restart_device, emergency_stop_all, get_all_status,
      get_analytics, home, health_check, cleanup_offline_devices;
    grows;
    first [apply add_command_grows | apply stop_each_grows].
Qed.

Lemma serve_grows rs : forall w, queues_grow w (serve clock utcoffset rs w).
Proof.
  induction rs as [|r rs IH]; intros w; simpl.
  - apply queues_grow_refl.
  - eapply queues_grow_trans; [apply handle_grows | apply IH].
Qed.
End GrowFacts.

(** ** Broadcast *)

(** C1 (as amended). With the registry holding each device once,
    [emergency_stop_all] appends exactly one command to the queue of
    every registered device, the one for the [i]-th device being built
    from clock reads [2i] and [2i+1] of the request; its command_id is
    "emergency_stop_" followed by the whole POSIX second of its read, so
    two of them are equal exactly when their reads fall in the same
    second; the queue of a device outside the registry is untouched,
    also after that device sends its first heartbeat. *)
Theorem emergency_stop_all_broadcast clock utcoffset w :
  NoDup (dict_keys (device_statuses w)) ->
  let w' := snd (emergency_stop_all clock utcoffset w) in
  let ids := dict_keys (device_statuses w) in
  let cmd := command_at clock utcoffset "emergency_stop"
               (VDict [("priority", VStr "critical")]) in
  (exists r, fst (emergency_stop_all clock utcoffset w) = Ok r
             /\ status_code r = 200
             /\ dict_get "devices" (body r) = Some (VList (map VStr ids)))
  /\ (forall i id, nth_error ids i = Some id ->
        appended w w' id (cmd (ticks w + 2 * i)%nat))
  /\ (forall m n,
        command_id (cmd m) = command_id (cmd n)
        <-> int_timestamp utcoffset (clock m) = int_timestamp utcoffset (clock n))
  /\ (forall id, ~ In id ids ->
        queue_of id w' = queue_of id w
        /\ forall json,
             queue_of id (snd (device_heartbeat clock id json w'))
             = queue_of id w).
Proof.
  intros Hnd w' ids cmd. subst w'. unfold emergency_stop_all.
  unfold try_except, bind at 1, gets. cbn [fst snd].
  destruct (stop_each_spec clock utcoffset _ (dict_keys (device_statuses w))
              [] w eq_refl Hnd)
    as (w1 & Hrun & _ & _ & _ & Hq & Hother & _).
  unfold bind. rewrite Hrun. unfold ret. cbn [fst snd app].
  split; [|split; [|split]].
  - eexists. split; [reflexivity|]. split; reflexivity.
  - exact Hq.
  - intros m n. unfold cmd, command_id, command_at, get_or. cbn [dict_get].
    rewrite String.eqb_refl. split.
    + intros H.
      assert (E : forall s t : string, VStr s = VStr t -> s = t)
        by congruence.
      apply E in H. apply string_app_inv_head in H. cbn [append] in H.
      assert (E' : forall c (s t : string), String c s = String c t -> s = t)
        by congruence.
      apply E' in H. now apply str_of_Z_inj.
    + now intros ->.
  - intros id Hid.
    assert (E : queue_of id w1 = queue_of id w).
    { unfold queue_of. now rewrite (Hother id Hid). }
    split; [exact E|]. intros json.
    unfold queue_of at 1. rewrite (device_heartbeat_queues clock id json w1).
    exact E.
Qed.

Lemma emergency_stop_all_broadcast_witness :
  NoDup (dict_keys (device_statuses three_devices))
  /\ appended three_devices
       (snd (emergency_stop_all fast_clock 0 three_devices)) "bot_2"
       (command_at fast_clock 0 "emergency_stop"
          (VDict [("priority", VStr "critical")]) 8).
Proof.
  assert (Hnd : NoDup (dict_keys (device_statuses three_devices))).
  { vm_compute. repeat constructor; simpl; intuition discriminate. }
  split; [exact Hnd|].
  exact (proj1 (proj2 (emergency_stop_all_broadcast fast_clock 0 three_devices Hnd))
           1%nat "bot_2" eq_refl).
Defined.

(** C1 (as stated) fails: with three registered devices and the reads
    of the request within one second, the three commands carry the same
    command_id. *)
Lemma broadcast_ids_not_distinct :
  ~ broadcast_distinct_ids fast_clock 0 three_devices.
Proof.
  intros (_ & Hdistinct & _).
  apply (Hdistinct "bot_1" "bot_2"
           (command_at fast_clock 0 "emergency_stop"
              (VDict [("priority", VStr "critical")]) 6)
           (command_at fast_clock 0 "emergency_stop"
              (VDict [("priority", VStr "critical")]) 8)).
  - vm_compute. tauto.
  - vm_compute. tauto.
  - discriminate.
  - vm_compute. reflexivity.
  - vm_compute. reflexivity.
  - vm_compute. reflexivity.
Qed.

(** ** Draining a queue *)

Lemma get_pending_commands_spec clock device_id w :
  get_pending_commands clock device_id w
  = (Ok (jsonify [ ("commands", VList (map VDict (queue_of device_id w)));
                   ("timestamp", VStr (isoformat (clock (ticks w)))) ]),
     mkWorld (device_statuses w)
             (dict_set device_id [] (command_queues w))
             (recent_activities w)
             (S (ticks w))).
Proof. reflexivity. Qed.

(** C2. When the queue of [device_id] is not empty, a poll answers
    with the whole queue and leaves the device bound to the empty queue;
    a second poll right after it answers with the empty list. *)
Theorem drain_then_drain clock device_id w :
  queue_of device_id w <> [] ->
  exists r1 w1 r2 w2,
    get_pending_commands clock device_id w = (Ok r1, w1)
    /\ get_pending_commands clock device_id w1 = (Ok r2, w2)
    /\ status_code r1 = 200
    /\ dict_get "commands" (body r1)
       = Some (VList (map VDict (queue_of device_id w)))
    /\ VList (map VDict (queue_of device_id w)) <> VList []
    /\ dict_get device_id (command_queues w1) = Some []
    /\ dict_get "commands" (body r2) = Some (VList [])
    /\ dict_get device_id (command_queues w2) = Some [].
Proof.
  intros Hq. do 4 eexists.
  split; [apply get_pending_commands_spec|].
  split; [apply get_pending_commands_spec|].
  cbn [body status_code jsonify command_queues].
  repeat split.
  - destruct (queue_of device_id w); [congruence | discriminate].
  - apply dict_get_set_eq.
  - unfold queue_of. cbn [command_queues]. now rewrite dict_get_set_eq.
  - rewrite dict_set_set. apply dict_get_set_eq.
Qed.

Lemma drain_then_drain_witness :
  queue_of "bot_9" (snd (stop_device fast_clock 0 "bot_9" initial)) <> []
  /\ exists r1 w1 r2 w2,
       get_pending_commands fast_clock "bot_9"
         (snd (stop_device fast_clock 0 "bot_9" initial)) = (Ok r1, w1)
       /\ get_pending_commands fast_clock "bot_9" w1 = (Ok r2, w2)
       /\ status_code r1 = 200
       /\ dict_get "commands" (body r1)
          = Some (VList (map VDict
               (queue_of "bot_9" (snd (stop_device fast_clock 0 "bot_9" initial)))))
       /\ VList (map VDict
            (queue_of "bot_9" (snd (stop_device fast_clock 0 "bot_9" initial))))
          <> VList []
       /\ dict_get "bot_9" (command_queues w1) = Some []
       /\ dict_get "commands" (body r2) = Some (VList [])
       /\ dict_get "bot_9" (command_queues w2) = Some [].
Proof.
  assert (H : queue_of "bot_9" (snd (stop_device fast_clock 0 "bot_9" initial))
              <> []) by (vm_compute; discriminate).
  split; [exact H|].
  exact (drain_then_drain fast_clock "bot_9" _ H).
Defined.

(** C10. A poll by a device with nothing queued, known or not, answers
    with the empty list and leaves the device bound to the empty queue;
    the binding stays whatever requests follow, and no other device's
    queue changes. *)
Theorem poll_leaves_entry clock utcoffset device_id w :
  queue_of device_id w = [] ->
  exists r w',
    get_pending_commands clock device_id w = (Ok r, w')
    /\ status_code r = 200
    /\ dict_get "commands" (body r) = Some (VList [])
    /\ dict_get device_id (command_queues w') = Some []
    /\ (forall rs,
          In device_id
             (dict_keys (command_queues (serve clock utcoffset rs w'))))
    /\ (forall other, other <> device_id ->
          dict_get other (command_queues w')
          = dict_get other (command_queues w))
    /\ device_statuses w' = device_statuses w
    /\ recent_activities w' = recent_activities w.
Proof.
  intros Hq. do 2 eexists.
  split; [apply get_pending_commands_spec|].
  cbn [body status_code jsonify command_queues device_statuses recent_activities].
  rewrite Hq. repeat split.
  - apply dict_get_set_eq.
  - intros rs. apply (serve_grows clock utcoffset rs). cbn [command_queues].
    destruct (in_dec string_dec device_id
                (dict_keys (dict_set device_id ([] : list pydict)
                                     (command_queues w)))) as [H | H]; auto.
    apply dict_get_None in H. rewrite dict_get_set_eq in H. discriminate.
  - intros other Hne. apply dict_get_set_ne. congruence.
Qed.

Lemma poll_leaves_entry_witness :
  queue_of "never_seen" three_devices = []
  /\ exists r w',
       get_pending_commands fast_clock "never_seen" three_devices = (Ok r, w')
       /\ dict_get "commands" (body r) = Some (VList [])
       /\ dict_get "never_seen" (command_queues w') = Some [].
Proof.
  split; [reflexivity|].
  destruct (poll_leaves_entry fast_clock 0 "never_seen" three_devices eq_refl)
    as (r & w' & H1 & _ & H2 & H3 & _).
  exists r, w'. auto.
Defined.

(** ** Eviction *)

Lemma offline_too_long_spec current_time t :
  offline_too_long current_time t = (600000000 <? sub current_time t).
Proof.
  unfold offline_too_long, total_seconds.
  generalize (sub current_time t). intros td.
  unfold Qle_bool. simpl.
  destruct (Z.leb_spec (td * 1 * 1) 600000000);
    destruct (Z.ltb_spec 600000000 td); simpl; auto; lia.
Qed.

Section SweepFacts.
Variable clock : nat -> datetime.

Lemma cleanup_loop current_time items : forall pre cq ra n,
  NoDup (dict_keys (pre ++ items)) ->
  for_each items
    (fun '(device_id, status) =>
       v <- lift (dict_getitem "last_seen" status) ;;
       last_seen <- lift (fromisoformat v) ;;
       if offline_too_long current_time last_seen
       then modify (set_device_statuses (dict_del device_id))
       else ret tt)
    (mkWorld (pre ++ items) cq ra n)
  = (fst (sweep current_time items),
     mkWorld (pre ++ snd (sweep current_time items)) cq ra n).
Proof.
  induction items as [|[id st] items IH]; intros pre cq ra n Hnd.
  - reflexivity.
  - cbn [for_each sweep]. unfold bind at 1. unfold bind at 1.
    unfold last_seen_of, lift at 1.
    destruct (dict_getitem "last_seen" st) as [v|e]; cbn [rbind];
      [|reflexivity].
    unfold bind at 1, lift at 1.
    destruct (fromisoformat v) as [t|e]; [|reflexivity].
    destruct (sweep current_time items) as [r rest] eqn:Hsw.
    destruct (offline_too_long current_time t).
    + unfold modify, set_device_statuses.
      cbn [device_statuses command_queues recent_activities ticks fst snd].
      assert (Hpre : ~ In id (dict_keys pre)).
      { unfold dict_keys in *. rewrite map_app in Hnd. cbn [map fst] in Hnd.
        apply NoDup_remove_2 in Hnd. intros H. apply Hnd.
        apply in_or_app. now left. }
      rewrite dict_del_middle by exact Hpre.
      rewrite IH; [reflexivity|].
      unfold dict_keys in *. rewrite map_app in *. cbn [map fst] in Hnd.
      now apply NoDup_remove_1 in Hnd.
    + unfold ret. cbn [fst snd].
      replace (pre ++ (id, st) :: items) with ((pre ++ [(id, st)]) ++ items)
        by now rewrite <- app_assoc.
      rewrite IH.
      * cbn [fst snd]. now rewrite <- app_assoc.
      * now rewrite <- app_assoc.
Qed.

Lemma cleanup_offline_devices_spec w :
  NoDup (dict_keys (device_statuses w)) ->
  cleanup_offline_devices clock w
  = (fst (sweep (clock (ticks w)) (device_statuses w)),
     mkWorld (snd (sweep (clock (ticks w)) (device_statuses w)))
             (command_queues w) (recent_activities w) (S (ticks w))).
Proof.
  intros Hnd. unfold cleanup_offline_devices, bind, now, gets.
  cbn [tick device_statuses command_queues recent_activities ticks].
  apply (cleanup_loop (clock (ticks w)) (device_statuses w) []
           (command_queues w) (recent_activities w) (S (ticks w))).
  exact Hnd.
Qed.

(** When every row parses, the sweep keeps the fresh rows. *)
Lemma sweep_all_parse current_time items :
  (forall id st, In (id, st) items -> exists t, last_seen_of st = Ok t) ->
  sweep current_time items = (Ok tt, filter (fresh current_time) items).
Proof.
  induction items as [|[id st] items IH]; intros H; [reflexivity|].
  cbn [sweep filter]. unfold fresh at 1, stale. cbn [snd].
  destruct (H id st (or_introl eq_refl)) as [t Ht]. rewrite Ht.
  rewrite IH by (intros; eapply H; right; eauto).
  now destruct (offline_too_long current_time t).
Qed.

(** However the sweep ends, what it leaves are rows it was given, in
    their order, and every fresh row is among them. *)
Lemma sweep_keeps current_time items :
  forall item, In item (snd (sweep current_time items)) -> In item items.
Proof.
  induction items as [|[id st] items IH]; intros item; [auto|].
  cbn [sweep]. destruct (last_seen_of st) as [t|e]; [|auto].
  destruct (sweep current_time items) as [r rest].
  cbn [snd] in *. destruct (offline_too_long current_time t).
  - intros H. right. auto.
  - intros [H | H]; [now left | right; auto].
Qed.

Lemma sweep_fresh_stay current_time items :
  forall item, In item items -> fresh current_time item = true ->
               In item (snd (sweep current_time items)).
Proof.
  induction items as [|[id st] items IH]; intros item; [auto|].
  cbn [sweep]. destruct (last_seen_of st) as [t|e] eqn:Ht; [|auto].
  destruct (sweep current_time items) as [r rest].
  cbn [snd] in *. intros [<- | H] Hf.
  - unfold fresh, stale in Hf. cbn [snd] in Hf. rewrite Ht in Hf.
    destruct (offline_too_long current_time t); [discriminate | now left].
  - destruct (offline_too_long current_time t); [|right]; auto.
Qed.

(** A sweep that raises stopped at a row whose last_seen cannot be
    read; the rows before it were swept, the rest was not reached. *)
Lemma sweep_raises current_time items e :
  fst (sweep current_time items) = Raise e ->
  exists before id st after,
    items = before ++ (id, st) :: after
    /\ last_seen_of st = Raise e
    /\ snd (sweep current_time items)
       = filter (fresh current_time) before ++ (id, st) :: after.
Proof.
  induction items as [|[id st] items IH]; [discriminate|].
  cbn [sweep]. destruct (last_seen_of st) as [t|e'] eqn:Ht.
  - destruct (sweep current_time items) as [r rest]. cbn [fst snd] in *.
    intros Hr. destruct (IH Hr) as (before & id' & st' & after & -> & He & Hs).
    exists ((id, st) :: before), id', st', after.
    split; [reflexivity|]. split; [exact He|].
    cbn [filter]. unfold fresh at 1, stale. cbn [snd]. rewrite Ht.
    destruct (offline_too_long current_time t); cbn [negb]; now rewrite Hs.
  - cbn [fst snd]. intros [= ->]. exists [], id, st, items. auto.
Qed.
End SweepFacts.

Section FilterFacts.
Context {V : Type}.
Variable f : string * V -> bool.

Lemma dict_get_filter id v (d : list (string * V)) :
  NoDup (dict_keys d) -> In (id, v) d ->
  dict_get id (filter f d) = if f (id, v) then Some v else None.
Proof.
  induction d as [|[k0 v0] d IH]; cbn [In filter dict_keys map fst];
    [tauto|].
  intros Hnd Hin. inversion Hnd as [|? ? Hnotin Hnd']; subst.
  destruct Hin as [[= -> ->] | Hin].
  - destruct (f (id, v)).
    + cbn [dict_get]. now rewrite String.eqb_refl.
    + apply dict_get_None. intros H. apply Hnotin.
      unfold dict_keys in H. apply in_map_iff in H.
      destruct H as (x & Hx & Hfx). apply filter_In in Hfx.
      apply in_map_iff. exists x. tauto.
  - assert (Hne : id <> k0).
    { intros ->. apply Hnotin. change k0 with (fst (k0, v)). now apply in_map. }
    apply String.eqb_neq in Hne.
    destruct (f (k0, v0)); cbn [dict_get]; rewrite ?Hne; now apply IH.
Qed.

Lemma dict_get_filter_None id (d : list (string * V)) :
  dict_get id d = None -> dict_get id (filter f d) = None.
Proof.
  rewrite !dict_get_None. intros H Hin. apply H.
  unfold dict_keys in *. apply in_map_iff in Hin.
  destruct Hin as (x & Hx & Hfx). apply filter_In in Hfx.
  apply in_map_iff. exists x. tauto.
Qed.
End FilterFacts.

(** C3. In a registry whose rows all carry a readable last_seen, the
    sweep at time [now] removes exactly the rows whose last_seen lies
    more than ten minutes before [now]; every other row stays as it is
    and in its place, and no activity log and no command queue
    changes. *)
Theorem eviction_removes_exactly_the_stale clock w :
  NoDup (dict_keys (device_statuses w)) ->
  (forall id st, In (id, st) (device_statuses w) ->
                 exists t, last_seen_of st = Ok t) ->
  let current_time := clock (ticks w) in
  exists w',
    cleanup_offline_devices clock w = (Ok tt, w')
    /\ device_statuses w'
       = filter (fresh current_time) (device_statuses w)
    /\ (forall id st t,
          In (id, st) (device_statuses w) -> last_seen_of st = Ok t ->
          (ten_minutes < sub current_time t ->
           dict_get id (device_statuses w') = None)
          /\ (sub current_time t <= ten_minutes ->
              dict_get id (device_statuses w') = Some st))
    /\ (forall id, dict_get id (device_statuses w) = None ->
                   dict_get id (device_statuses w') = None)
    /\ recent_activities w' = recent_activities w
    /\ command_queues w' = command_queues w.
Proof.
  intros Hnd Hparse current_time.
  eexists. split.
  { rewrite cleanup_offline_devices_spec by exact Hnd.
    rewrite sweep_all_parse by exact Hparse. reflexivity. }
  cbn [device_statuses recent_activities command_queues fst snd].
  fold current_time.
  split; [reflexivity|]. split; [|split; [|split; reflexivity]].
  - intros id st t Hin Ht.
    rewrite (dict_get_filter _ id st) by assumption.
    unfold fresh, stale. cbn [snd]. rewrite Ht, offline_too_long_spec.
    unfold ten_minutes.
    destruct (Z.ltb_spec 600000000 (sub current_time t)); cbn [negb];
      split; intros; first [reflexivity | lia].
  - intros id Hid. now apply dict_get_filter_None.
Qed.

Lemma old_and_new_well_formed :
  NoDup (dict_keys (device_statuses old_and_new))
  /\ (forall id st, In (id, st) (device_statuses old_and_new) ->
                    exists t, last_seen_of st = Ok t).
Proof.
  split.
  - vm_compute. repeat constructor; simpl; intuition discriminate.
  - intros id st H. vm_compute in H.
    destruct H as [H | [H | []]]; injection H as <- <-;
      eexists; vm_compute; reflexivity.
Defined.

Lemma eviction_removes_exactly_the_stale_witness :
  exists w',
    cleanup_offline_devices minute_clock old_and_new = (Ok tt, w')
    /\ dict_keys (device_statuses old_and_new) = ["bot_old"; "bot_new"]
    /\ dict_keys (device_statuses w') = ["bot_new"].
Proof.
  destruct (eviction_removes_exactly_the_stale minute_clock old_and_new
              (proj1 old_and_new_well_formed) (proj2 old_and_new_well_formed))
    as (w' & Hrun & Hrows & _).
  exists w'. split; [exact Hrun|]. split; [reflexivity|].
  rewrite Hrows. vm_compute. reflexivity.
Defined.

(** ** Failure of the sweep *)

(** C5 (as amended). If the sweep raises, [get_all_status] and
    [get_analytics] answer with HTTP 500 and a body that holds the
    message under "error" and nothing else; no activity log and no
    command queue has changed; the sweep stopped at a row whose
    last_seen cannot be read, having evicted the stale rows before it
    in registry order, and every row still present is the row that was
    there. *)
Theorem sweep_failure_surfaces clock w e w1 :
  NoDup (dict_keys (device_statuses w)) ->
  cleanup_offline_devices clock w = (Raise e, w1) ->
  get_all_status clock w
  = (Ok (mkResponse [("error", VStr (str_exn e))] 500), w1)
  /\ get_analytics clock w
     = (Ok (mkResponse [("error", VStr (str_exn e))] 500), w1)
  /\ command_queues w1 = command_queues w
  /\ recent_activities w1 = recent_activities w
  /\ (exists before id st after,
        device_statuses w = before ++ (id, st) :: after
        /\ last_seen_of st = Raise e
        /\ device_statuses w1
           = filter (fresh (clock (ticks w))) before ++ (id, st) :: after)
  /\ (forall id st, dict_get id (device_statuses w1) = Some st ->
                    dict_get id (device_statuses w) = Some st).
Proof.
  intros Hnd Hrun.
  split; [|split].
  { unfold get_all_status, try_except, bind. now rewrite Hrun. }
  { unfold get_analytics, try_except, bind. now rewrite Hrun. }
  rewrite cleanup_offline_devices_spec in Hrun by exact Hnd.
  injection Hrun as Hr <-.
  cbn [device_statuses recent_activities command_queues].
  split; [reflexivity|]. split; [reflexivity|]. split.
  - exact (sweep_raises _ _ _ Hr).
  - intros id st H. apply dict_get_In; [exact Hnd|].
    apply dict_get_Some_In in H. eapply sweep_keeps. exact H.
Qed.

Lemma sweep_failure_surfaces_witness :
  exists e w1,
    cleanup_offline_devices fast_clock with_bad_row = (Raise e, w1)
    /\ get_all_status fast_clock with_bad_row
       = (Ok (mkResponse [("error", VStr (str_exn e))] 500), w1)
    /\ dict_keys (device_statuses w1) = ["bot_bad"].
Proof.
  assert (Hnd : NoDup (dict_keys (device_statuses with_bad_row))).
  { vm_compute. repeat constructor; simpl; intuition discriminate. }
  eexists. eexists.
  assert (Hrun : cleanup_offline_devices fast_clock with_bad_row
                 = (Raise (ValueError "Invalid isoformat string: 'yesterday'"),
                    mkWorld [("bot_bad", [("status", VStr "online");
                                          ("last_seen", VStr "yesterday")])]
                            [] [] 1)).
  { vm_compute. reflexivity. }
  split; [exact Hrun|]. split; [|reflexivity].
  exact (proj1 (sweep_failure_surfaces fast_clock with_bad_row _ _ Hnd Hrun)).
Defined.

(** C5 (as stated) fails: on [with_bad_row] the sweep raises, the
    answer has no "success" field, and the row of [bot_old] is gone. *)
Lemma sweep_failure_is_not_clean :
  ~ sweep_failure_is_clean fast_clock with_bad_row.
Proof.
  intros H.
  destruct (H (ValueError "Invalid isoformat string: 'yesterday'")
              (mkWorld [("bot_bad", [("status", VStr "online");
                                     ("last_seen", VStr "yesterday")])]
                       [] [] 1))
    as (r & w' & Hrun & _ & Hsuccess & _).
  { vm_compute. reflexivity. }
  vm_compute in Hrun. injection Hrun as <- <-.
  vm_compute in Hsuccess. discriminate.
Qed.

(** ** Timestamps: reading back what [isoformat] writes *)

Lemma string_app_assoc (a b c : string) :
  ((a ++ b) ++ c = a ++ (b ++ c))%string.
Proof. induction a as [|x a IH]; simpl; [reflexivity | now rewrite IH]. Qed.

Lemma digit_val_char d : 0 <= d < 10 -> digit_val (digit_char d) = Some d.
Proof.
  intros H.
  assert (E : d = 0 \/ d = 1 \/ d = 2 \/ d = 3 \/ d = 4 \/ d = 5 \/ d = 6
              \/ d = 7 \/ d = 8 \/ d = 9) by lia.
  repeat (destruct E as [-> | E]; [reflexivity|]). subst. reflexivity.
Qed.

Lemma read_digits_last w : forall acc s,
  read_digits (S w) acc s
  = obind (read_digits w acc s) (fun '(a, r) => read_digits 1 a r).
Proof.
  induction w as [|w IH]; intros acc s.
  - reflexivity.
  - change (read_digits (S (S w)) acc s)
      with (match s with
            | String c s' =>
                match digit_val c with
                | Some d => read_digits (S w) (acc * 10 + d) s'
                | None => None
                end
            | EmptyString => None
            end).
    destruct s as [|c s']; [reflexivity|].
    cbn [read_digits]. destruct (digit_val c); [|reflexivity].
    apply IH.
Qed.

Lemma read_digits_zpad w : forall z acc rest,
  0 <= z < 10 ^ Z.of_nat w ->
  read_digits w acc (zpad w z ++ rest) = Some (acc * 10 ^ Z.of_nat w + z, rest).
Proof.
  induction w as [|w IH]; intros z acc rest Hz.
  - cbn [zpad read_digits append]. f_equal. f_equal. simpl in Hz. lia.
  - rewrite Nat2Z.inj_succ, Z.pow_succ_r in * by lia.
    cbn [zpad]. rewrite string_app_assoc. cbn [append].
    rewrite read_digits_last.
    rewrite IH by (split; [apply Z.div_pos; lia | apply Z.div_lt_upper_bound; lia]).
    cbn [obind read_digits].
    rewrite digit_val_char by (apply Z.mod_pos_bound; lia).
    f_equal. f_equal.
    pose proof (Z.div_mod z 10). lia.
Qed.

Lemma valid_fields t :
  valid t = true ->
  1 <= year t <= 9999 /\ 1 <= month t <= 12
  /\ 1 <= day t <= days_in_month (year t) (month t)
  /\ 0 <= hour t <= 23 /\ 0 <= minute t <= 59 /\ 0 <= second t <= 59
  /\ 0 <= microsecond t <= 999999.
Proof.
  unfold valid, check_fields.
  repeat match goal with
         | |- context [negb (?a && ?b)] =>
             let Ha := fresh in let Hb := fresh in
             destruct a eqn:Ha; [destruct b eqn:Hb|]; cbn [negb andb];
             try discriminate
         end.
  intros _.
  repeat match goal with
         | H : (_ <=? _) = true |- _ => apply Z.leb_le in H
         end.
  lia.
Qed.

Lemma check_fields_valid t : valid t = true -> check_fields t = Ok t.
Proof.
  unfold valid. destruct (check_fields t) as [a|e] eqn:E; [|discriminate].
  intros _. f_equal. revert E. unfold check_fields.
  repeat match goal with
         | |- context [negb ?c] => destruct c; cbn [negb]
         end; congruence.
Qed.

Lemma days_in_month_le y m : days_in_month y m <= 31.
Proof.
  unfold days_in_month.
  repeat match goal with
         | |- context [if ?c then _ else _] => destruct c
         end; lia.
Qed.

Lemma read_char_cons c s : read_char c (String c s) = Some s.
Proof. cbn [read_char]. now rewrite Ascii.eqb_refl. Qed.

Lemma read_fraction_zpad us :
  0 <= us <= 999999 -> read_fraction (zpad 6 us) = Some us.
Proof.
  intros H. unfold read_fraction. cbn [zpad append read_digits].
  repeat (rewrite digit_val_char by (apply Z.mod_pos_bound; lia));
    cbn [obind read_digits].
  repeat (rewrite digit_val_char by (apply Z.mod_pos_bound; lia));
    cbn [obind read_digits].
  f_equal. Z.div_mod_to_equations. lia.
Qed.

Ltac eat_field :=
  first [ rewrite read_digits_zpad by (simpl; lia)
        | rewrite read_char_cons ];
  cbn [obind append].

Lemma read_iso_isoformat t : valid t = true -> read_iso (isoformat t) = Some t.
Proof.
  intros Hv. apply valid_fields in Hv.
  destruct Hv as (Hy & Hm & Hd & Hh & Hmi & Hs & Hus).
  pose proof (days_in_month_le (year t) (month t)) as Hdim.
  destruct t as [y m d h mi se us].
  cbn [year month day hour minute second microsecond] in *.
  unfold isoformat, read_iso.
  cbn [year month day hour minute second microsecond append].
  do 5 eat_field. unfold read_time.
  do 5 eat_field.
  destruct (us =? 0) eqn:E.
  - apply Z.eqb_eq in E. subst us. cbn [obind]. f_equal; f_equal; lia.
  - rewrite read_char_cons. cbn [obind].
    rewrite read_fraction_zpad by lia. cbn [obind]. f_equal; f_equal; lia.
Qed.

Lemma fromisoformat_isoformat t :
  valid t = true -> fromisoformat (VStr (isoformat t)) = Ok t.
Proof.
  intros Hv. unfold fromisoformat. rewrite read_iso_isoformat by exact Hv.
  now apply check_fields_valid.
Qed.

(** ** Heartbeats *)

Lemma device_heartbeat_ok clock device_id json data last_activity w :
  py_or json (VDict []) = VDict data ->
  most_recent device_id w = Ok last_activity ->
  device_heartbeat clock device_id json w
  = (Ok (jsonify [ ("success", VBool true);
                   ("timestamp", VStr (isoformat (clock (S (ticks w))))) ]),
     mkWorld (dict_set device_id
                (status_row (clock (ticks w)) data last_activity)
                (device_statuses w))
             (command_queues w) (recent_activities w) (S (S (ticks w)))).
Proof.
  intros Hdata Hrecent. unfold device_heartbeat. rewrite Hdata.
  unfold most_recent in Hrecent.
  unfold try_except, bind, gets, lift, ret, now, modify, py_get.
  destruct (dict_get device_id (recent_activities w)) as [[|entry rest]|].
  - injection Hrecent as <-. reflexivity.
  - rewrite Hrecent. reflexivity.
  - injection Hrecent as <-. reflexivity.
Qed.

(** A heartbeat whose body is not a JSON object (and not an empty
    value) is answered with 500 and records nothing. *)
Lemma device_heartbeat_not_a_mapping clock device_id json w :
  py_truthy json = true -> is_dict json = false ->
  exists r w',
    device_heartbeat clock device_id json w = (Ok r, w')
    /\ status_code r = 500
    /\ device_statuses w' = device_statuses w.
Proof.
  intros Ht Hd. unfold device_heartbeat, py_or. rewrite Ht.
  unfold try_except, bind, gets, lift, ret, now, modify.
  destruct json; try discriminate;
    destruct (dict_get device_id (recent_activities w)) as [[|entry rest]|];
    try destruct (dict_getitem "timestamp" entry);
    cbn [py_get]; do 2 eexists; repeat split.
Qed.

(** ** The activity log *)

Section ActivityFacts.
Variable clock : nat -> datetime.

Lemma log_of_ensure device_id w :
  dict_get device_id (ensure_log device_id (recent_activities w))
  = Some (log_of device_id w).
Proof.
  unfold ensure_log, dict_mem, log_of.
  destruct (dict_get device_id (recent_activities w)) eqn:E.
  - exact E.
  - apply dict_get_set_eq.
Qed.

Lemma dict_set_ensure device_id (l : list pydict) activities :
  dict_set device_id l (ensure_log device_id activities)
  = dict_set device_id l activities.
Proof.
  unfold ensure_log. destruct (dict_mem device_id activities);
    [reflexivity | apply dict_set_set].
Qed.

(** An accepted report: the entry goes in front, the log is cut to
    50, the row of the device, if any, gets the new last_activity. *)
Lemma log_device_activity_ok device_id json entry w :
  entry_of (clock (ticks w)) json = Some entry ->
  log_device_activity clock device_id json w
  = (Ok (jsonify [("success", VBool true)]),
     mkWorld (touch device_id (VStr (isoformat (clock (ticks w))))
                    (device_statuses w))
             (command_queues w)
             (dict_set device_id (firstn 50 (entry :: log_of device_id w))
                       (recent_activities w))
             (S (ticks w))).
Proof.
  unfold entry_of, log_device_activity.
  destruct (py_or json (VDict [])) as [| | | | | |data]; try discriminate.
  destruct (py_slice_to 100 (get_or data "content_preview" (VStr "")))
    as [preview|] eqn:Hslice; [|discriminate].
  intros [= <-].
  unfold try_except, bind at 1, gets at 1.
  unfold bind at 1.
  assert (Hens : (if dict_mem device_id (recent_activities w)
                  then ret tt
                  else modify (set_recent_activities (dict_set device_id [])))
                   w
                 = (Ok tt, mkWorld (device_statuses w) (command_queues w)
                             (ensure_log device_id (recent_activities w))
                             (ticks w))).
  { unfold ensure_log. destruct (dict_mem device_id (recent_activities w));
      [now destruct w | reflexivity]. }
  rewrite Hens. clear Hens.
  unfold bind, now, lift, gets, py_get, ret, modify. fold (get_or data "content_preview" (VStr "")).
  cbn [ticks tick device_statuses command_queues recent_activities].
  unfold get_or in Hslice |- *. rewrite Hslice.
  cbn [recent_activities set_recent_activities device_statuses
       command_queues ticks].
  unfold set_recent_activities, set_device_statuses, tick.
  cbn [recent_activities device_statuses command_queues ticks].
  rewrite log_of_ensure.
  cbn [recent_activities device_statuses command_queues ticks].
  rewrite dict_get_set_eq.
  cbn [recent_activities device_statuses command_queues ticks].
  rewrite dict_set_set, dict_set_ensure.
  unfold touch, entry_at, get_or.
  destruct (dict_get device_id (device_statuses w)); reflexivity.
Qed.

(** A rejected report: answered with 500; the device has a (possibly
    new, empty) log and nothing else has changed. *)
Lemma log_device_activity_rejected device_id json w :
  entry_of (clock (ticks w)) json = None ->
  exists e,
    log_device_activity clock device_id json w
    = (Ok (mkResponse [("success", VBool false); ("error", VStr (str_exn e))]
                      500),
       mkWorld (device_statuses w) (command_queues w)
               (ensure_log device_id (recent_activities w))
               (S (ticks w))).
Proof.
  unfold entry_of, log_device_activity.
  unfold try_except, bind at 1, gets at 1.
  unfold bind at 1.
  assert (Hens : (if dict_mem device_id (recent_activities w)
                  then ret tt
                  else modify (set_recent_activities (dict_set device_id [])))
                   w
                 = (Ok tt, mkWorld (device_statuses w) (command_queues w)
                             (ensure_log device_id (recent_activities w))
                             (ticks w))).
  { unfold ensure_log. destruct (dict_mem device_id (recent_activities w));
      [now destruct w | reflexivity]. }
  rewrite Hens. clear Hens.
  unfold bind, now, lift, gets, ret, modify.
  cbn [ticks tick device_statuses command_queues recent_activities].
  destruct (py_or json (VDict [])) as [| | | | | |data];
    try (intros _; cbn [py_get]; eexists; reflexivity).
  cbn [py_get]. unfold get_or.
  destruct (py_slice_to 100
              match dict_get "content_preview" data with
              | Some v => v
              | None => VStr ""
              end) as [preview|e]; [discriminate|].
  intros _. exists e. reflexivity.
Qed.
End ActivityFacts.

Lemma substring_length_le m : forall s, (String.length (substring 0 m s) <= m)%nat.
Proof.
  induction m as [|m IH]; intros [|c s]; simpl; try lia.
  specialize (IH s). lia.
Qed.

Lemma py_slice_to_bounded n v r :
  py_slice_to n v = Ok r ->
  match r with
  | VStr s => (String.length s <= n)%nat
  | VList l => (List.length l <= n)%nat
  | _ => False
  end.
Proof.
  destruct v; cbn [py_slice_to]; try discriminate; intros H;
    assert (E : forall a b : pyval, Ok a = Ok b -> a = b) by congruence;
    apply E in H; subst r.
  - apply substring_length_le.
  - rewrite length_firstn. lia.
Qed.

Lemma entry_of_facts t json entry :
  entry_of t json = Some entry ->
  dict_get "timestamp" entry = Some (VStr (isoformat t))
  /\ preview_bounded entry.
Proof.
  unfold entry_of.
  destruct (py_or json (VDict [])) as [| | | | | |data]; try discriminate.
  destruct (py_slice_to 100 (get_or data "content_preview" (VStr "")))
    as [preview|] eqn:E; [|discriminate].
  apply py_slice_to_bounded in E.
  intros H. assert (entry = entry_at t data preview) as -> by congruence.
  split; [reflexivity|]. exact E.
Qed.


Lemma Forall_firstn_keep {A} (P : A -> Prop) (l : list A) :
  Forall P l -> forall n, Forall P (firstn n l).
Proof.
  induction 1 as [|x l Hx Hl IH]; intros [|n]; cbn [firstn]; auto.
Qed.


Section LogFacts.
Variable clock : nat -> datetime.
Variable utcoffset : Z.


Lemma add_command_keeps_activities device_id action params :
  respects (same recent_activities)
           (add_command clock utcoffset device_id action params).
Proof. unfold add_command. keeps. Qed.

Lemma stop_each_keeps_activities ids : forall stopped,
  respects (same recent_activities) (stop_each clock utcoffset ids stopped).
Proof.
  induction ids as [|id ids IH]; intros stopped; simpl.
  - keeps.
  - apply (respects_bind _ (same_trans recent_activities));
      [apply add_command_keeps_activities | intros _; apply IH].
Qed.

(** Only the activity endpoint writes to the logs. *)
Lemma handle_keeps_activities r :
  match r with
  | Activity _ _ => True
  | _ => respects (same recent_activities) (handle clock utcoffset r)
  end.
Proof.
  destruct r; [| exact I | ..]; simpl;
    unfold device_heartbeat, get_pending_commands,
      stop_device, restart_device, emergency_stop_all, get_all_status,
      get_analytics, home, health_check, cleanup_offline_devices;
    keeps;
    first [apply add_command_keeps_activities
          | apply stop_each_keeps_activities].
Qed.



End LogFacts.



(** ** Floats: a non-zero int converts to a non-zero float *)

Lemma shr_1_m r : 0 <= shr_m r -> shr_m (shr_1 r) = shr_m r / 2.
Proof.
  destruct r as [m rb sb]. cbn [shr_m shr_1].
  destruct m as [|[p|p|]|p]; cbn [shr_m]; intros H; try lia.
  - reflexivity.
  - rewrite Pos2Z.inj_xI.
    rewrite Z.mul_comm. apply Z.div_unique with (r := 1); lia.
  - rewrite Pos2Z.inj_xO. rewrite Z.mul_comm. now rewrite Z.div_mul.
  - reflexivity.
Qed.

Lemma iter_shr_1_m p : forall r,
  0 <= shr_m r ->
  shr_m (iter_pos shr_1 p r) = shr_m r / 2 ^ Zpos p.
Proof.
  assert (Hpow : forall q, 0 < 2 ^ Zpos q)
    by (intros q; apply Z.pow_pos_nonneg; lia).
  induction p as [p IH|p IH|]; intros r Hr; cbn [iter_pos].
  - assert (H1 : 0 <= shr_m (shr_1 r))
      by (rewrite shr_1_m by lia; apply Z.div_pos; lia).
    assert (H2 : 0 <= shr_m (iter_pos shr_1 p (shr_1 r)))
      by (rewrite IH by exact H1; apply Z.div_pos; [lia | apply Hpow]).
    rewrite IH by exact H2. rewrite IH by exact H1.
    rewrite shr_1_m by exact Hr.
    pose proof (Hpow p) as Hp.
    assert (E : 2 ^ Z.pos p~1 = 2 * (2 ^ Z.pos p * 2 ^ Z.pos p)).
    { rewrite <- Z.pow_add_r by lia. rewrite <- Z.pow_succ_r by lia.
      f_equal. lia. }
    rewrite E. rewrite !Z.div_div by lia. reflexivity.
  - assert (H2 : 0 <= shr_m (iter_pos shr_1 p r))
      by (rewrite IH by exact Hr; apply Z.div_pos; [lia | apply Hpow]).
    rewrite IH by exact H2. rewrite IH by exact Hr.
    pose proof (Hpow p) as Hp.
    assert (E : 2 ^ Z.pos p~0 = 2 ^ Z.pos p * 2 ^ Z.pos p).
    { rewrite <- Z.pow_add_r by lia. f_equal. lia. }
    rewrite E. now rewrite Z.div_div by lia.
  - now apply shr_1_m.
Qed.

Lemma digits2_pos_lower p : 2 ^ (Zpos (digits2_pos p) - 1) <= Zpos p.
Proof.
  induction p as [p IH|p IH|]; cbn [digits2_pos].
  - rewrite Pos2Z.inj_succ. replace (Z.succ (Z.pos (digits2_pos p)) - 1)
      with (1 + (Z.pos (digits2_pos p) - 1)) by lia.
    rewrite Z.pow_add_r by lia. lia.
  - rewrite Pos2Z.inj_succ. replace (Z.succ (Z.pos (digits2_pos p)) - 1)
      with (1 + (Z.pos (digits2_pos p) - 1)) by lia.
    rewrite Z.pow_add_r by lia. lia.
  - simpl. lia.
Qed.

Lemma fexp_ge_emin e : emin fprec femax <= fexp fprec femax e.
Proof. unfold fexp. lia. Qed.

(** Shifting a positive mantissa by fewer places than it has digits
    leaves a positive mantissa, at an exponent that is not below the
    least one. *)
Lemma shr_fexp_positive m e l :
  0 < m -> emin fprec femax < Zdigits2 m + e ->
  0 < shr_m (fst (shr_fexp fprec femax m e l))
  /\ emin fprec femax <= snd (shr_fexp fprec femax m e l).
Proof.
  intros Hm Hbig. unfold shr_fexp, shr.
  destruct m as [|p|p]; try lia.
  cbn [Zdigits2] in *.
  set (d := Z.pos (digits2_pos p)) in *.
  assert (Hshr : shr_m (shr_record_of_loc (Z.pos p) l) = Z.pos p)
    by (destruct l as [|[| |]]; reflexivity).
  pose proof (fexp_ge_emin (d + e)) as Hfexp.
  destruct (fexp fprec femax (d + e) - e) as [|n|n] eqn:En; cbn [fst snd];
    try (rewrite Hshr; lia).
  split; [|lia].
  rewrite iter_shr_1_m by (rewrite Hshr; lia). rewrite Hshr.
  apply Z.div_str_pos. split; [apply Z.pow_pos_nonneg; lia|].
  eapply Z.le_trans; [|apply digits2_pos_lower].
  apply Z.pow_le_mono_r; [lia|]. fold d.
  unfold fexp, fprec in *. lia.
Qed.

Lemma round_nearest_even_ge m l : m <= round_nearest_even m l.
Proof.
  unfold round_nearest_even. destruct l as [|[| |]]; try lia.
  destruct (Z.even m); lia.
Qed.

Lemma Zdigits2_positive m : 0 < m -> 0 < Zdigits2 m.
Proof. destruct m; cbn [Zdigits2]; lia. Qed.

Lemma binary_round_aux_not_zero s m e l :
  0 < m -> emin fprec femax < Zdigits2 m + e ->
  is_fzero (binary_round_aux fprec femax s m e l) = false.
Proof.
  intros Hm Hbig. unfold binary_round_aux.
  destruct (shr_fexp_positive m e l Hm Hbig) as [H1 He1].
  destruct (shr_fexp fprec femax m e l) as [mrs' e'].
  cbn [fst snd] in H1, He1.
  pose proof (round_nearest_even_ge (shr_m mrs') (loc_of_shr_record mrs'))
    as Hround.
  set (m1 := round_nearest_even (shr_m mrs') (loc_of_shr_record mrs')) in *.
  assert (Hm1 : 0 < m1) by lia.
  pose proof (Zdigits2_positive m1 Hm1) as Hd1.
  destruct (shr_fexp_positive m1 e' loc_Exact Hm1 ltac:(lia)) as [H2 _].
  destruct (shr_fexp fprec femax m1 e' loc_Exact) as [mrs'' e''].
  cbn [fst] in H2.
  destruct (shr_m mrs''); try lia.
  now destruct (e'' <=? femax - fprec).
Qed.

(** A non-zero int converts to a non-zero float. *)
Lemma float_of_Z_not_zero z : z <> 0 -> is_fzero (float_of_Z z) = false.
Proof.
  intros Hz. unfold float_of_Z, binary_normalize.
  assert (H : forall s p, is_fzero (binary_round fprec femax s p 0) = false).
  { intros s p. unfold binary_round, shl_align.
    pose proof (fexp_ge_emin (Z.pos (digits2_pos p) + 0)) as Hfexp.
    destruct (fexp fprec femax (Z.pos (digits2_pos p) + 0) - 0) eqn:E;
      apply binary_round_aux_not_zero; cbn [Zdigits2]; try lia;
      unfold emin, fprec, femax in *; lia. }
  destruct z; [congruence | apply H | apply H].
Qed.

(** The test of the divisor in [py_truediv] is the test CPython makes
    on the converted divisor. *)
Lemma to_float_zero n g :
  to_float n = Ok g -> is_fzero g = num_is_zero n.
Proof.
  destruct n as [z|f]; cbn [to_float num_is_zero].
  - unfold int_to_float. destruct (is_finf (float_of_Z z)); [discriminate|].
    intros H. assert (g = float_of_Z z) as -> by congruence.
    destruct (Z.eqb_spec z 0) as [-> | Hz]; [reflexivity|].
    now apply float_of_Z_not_zero.
  - intros H. now assert (g = f) as -> by congruence.
Qed.

(** ** Analytics: the guards of the divisions *)

Lemma no_zero_division_rbind {A B} (r : result A) (k : A -> result B) :
  no_zero_division r -> (forall a, no_zero_division (k a)) ->
  no_zero_division (rbind r k).
Proof. destruct r; simpl; auto. Qed.

Lemma no_zero_division_fold {A S} (f : S -> A -> result S) xs :
  (forall s x, no_zero_division (f s x)) ->
  forall s, no_zero_division (fold_result f xs s).
Proof.
  intros H. induction xs as [|x xs IH]; intros s; simpl; auto.
  apply no_zero_division_rbind; auto.
Qed.

Lemma int_to_float_no_zero_division z : no_zero_division (int_to_float z).
Proof. unfold int_to_float. destruct (is_finf _); simpl; auto. Qed.

Lemma py_add_no_zero_division op a b : no_zero_division (py_add op a b).
Proof.
  unfold py_add.
  destruct (as_num a) as [[x|f]|]; destruct (as_num b) as [[y|g]|];
    try (apply no_zero_division_rbind;
         [apply int_to_float_no_zero_division | intros; exact I]);
    try exact I;
    destruct a; destruct b; simpl; auto.
Qed.

Lemma py_sub_no_zero_division a b : no_zero_division (py_sub a b).
Proof.
  unfold py_sub.
  destruct (as_num a) as [[x|f]|]; destruct (as_num b) as [[y|g]|];
    try (apply no_zero_division_rbind;
         [apply int_to_float_no_zero_division | intros; exact I]);
    simpl; auto.
Qed.

Lemma py_mul_no_zero_division a b : no_zero_division (py_mul a b).
Proof.
  unfold py_mul.
  destruct (as_num a) as [[x|f]|]; destruct (as_num b) as [[y|g]|];
    try (apply no_zero_division_rbind;
         [apply int_to_float_no_zero_division | intros; exact I]);
    simpl; auto.
Qed.

Lemma py_get_no_zero_division v k default :
  no_zero_division (py_get v k default).
Proof. destruct v; simpl; auto. Qed.

Lemma py_gt_no_zero_division a b : no_zero_division (py_gt a b).
Proof.
  unfold py_gt. destruct (as_num a); destruct (as_num b); simpl; auto.
Qed.

Lemma sum_from_no_zero_division xs : forall acc,
  no_zero_division (sum_from acc xs).
Proof.
  induction xs as [|x xs IH]; intros acc; simpl; auto.
  apply no_zero_division_rbind; [apply py_add_no_zero_division | auto].
Qed.

Lemma sum_actions_no_zero_division v : no_zero_division (sum_actions v).
Proof.
  destruct v; simpl; auto. apply sum_from_no_zero_division.
Qed.

(** What [b > 0] tells about [b]. *)
Lemma py_gt_zero_not_zero b :
  py_gt b (VInt 0) = Ok true -> py_is_zero b = false.
Proof.
  unfold py_gt, py_is_zero. cbn [as_num].
  destruct (as_num b) as [[z|f]|]; [| |discriminate].
  - cbn [num_compare]. destruct (Z.compare_spec z 0); try discriminate.
    intros _. apply Z.eqb_neq. lia.
  - destruct f; cbn; auto; discriminate.
Qed.

Lemma py_is_zero_not_gt b :
  py_is_zero b = true -> py_gt b (VInt 0) = Ok false.
Proof.
  unfold py_gt, py_is_zero. cbn [as_num].
  destruct (as_num b) as [[z|f]|]; [| |discriminate].
  - intros H. apply Z.eqb_eq in H. now subst.
  - destruct f; try discriminate. reflexivity.
Qed.

Lemma py_truediv_guarded a b :
  py_is_zero b = false -> no_zero_division (py_truediv a b).
Proof.
  unfold py_truediv, py_is_zero.
  destruct (as_num a) as [x|]; destruct (as_num b) as [y|];
    try (intros _; destruct x; reflexivity); try reflexivity.
  intros Hb.
  assert (Hmixed :
            no_zero_division
              (rbind (to_float x) (fun f =>
               rbind (to_float y) (fun g =>
                 if is_fzero g
                 then Raise (ZeroDivisionError "float division by zero")
                 else Ok (VFloat (fdiv f g)))))).
  { destruct (to_float x) as [f|e] eqn:Ex; cbn [rbind].
    - destruct (to_float y) as [g|e] eqn:Ey; cbn [rbind].
      + rewrite (to_float_zero y g Ey), Hb. exact I.
      + destruct y as [z|g]; [|discriminate]. cbn [to_float] in Ey.
        pose proof (int_to_float_no_zero_division z) as H.
        now rewrite Ey in H.
    - destruct x as [z|f]; [|discriminate]. cbn [to_float] in Ex.
      pose proof (int_to_float_no_zero_division z) as H.
      now rewrite Ex in H. }
  destruct x as [p|f]; [destruct y as [q|g]|]; try exact Hmixed.
  cbn [num_is_zero] in Hb. unfold int_truediv. rewrite Hb. cbn [rbind].
  destruct (is_finf _); reflexivity.
Qed.

Lemma ratio_no_zero_division a b : no_zero_division (ratio a b).
Proof.
  unfold ratio. destruct (py_gt b (VInt 0)) as [[|]|e] eqn:E; cbn [rbind].
  - apply py_truediv_guarded. now apply py_gt_zero_not_zero.
  - exact I.
  - pose proof (py_gt_no_zero_division b (VInt 0)) as H. now rewrite E in H.
Qed.

Lemma percentage_no_zero_division a b : no_zero_division (percentage a b).
Proof.
  unfold percentage. destruct (py_gt b (VInt 0)) as [[|]|e] eqn:E; cbn [rbind].
  - apply no_zero_division_rbind.
    + apply py_truediv_guarded. now apply py_gt_zero_not_zero.
    + intros q. apply py_mul_no_zero_division.
  - exact I.
  - pose proof (py_gt_no_zero_division b (VInt 0)) as H. now rewrite E in H.
Qed.

Lemma ratio_of_zero a b : py_is_zero b = true -> ratio a b = Ok (VInt 0).
Proof.
  intros H. unfold ratio. now rewrite (py_is_zero_not_gt b H).
Qed.

Lemma percentage_of_zero a b :
  py_is_zero b = true -> percentage a b = Ok (VInt 0).
Proof.
  intros H. unfold percentage. now rewrite (py_is_zero_not_gt b H).
Qed.

Lemma add_device_no_zero_division acc row :
  no_zero_division (add_device acc row).
Proof.
  unfold add_device.
  repeat (apply no_zero_division_rbind;
          [first [ apply py_get_no_zero_division
                 | apply py_add_no_zero_division
                 | apply sum_actions_no_zero_division ]
          | intros ?]).
  exact I.
Qed.

Lemma device_details_no_zero_division devices :
  no_zero_division (device_details_of devices).
Proof.
  unfold device_details_of. apply no_zero_division_fold.
  intros details [device_id row]. unfold device_detail.
  cbn [rbind].
  apply no_zero_division_rbind.
  - apply no_zero_division_rbind;
      [apply sum_actions_no_zero_division | intros; exact I].
  - intros; exact I.
Qed.

Lemma analytics_data_no_zero_division devices :
  no_zero_division (analytics_data devices).
Proof.
  unfold analytics_data. cbv zeta.
  repeat (apply no_zero_division_rbind;
          [first [ apply no_zero_division_fold;
                   apply add_device_no_zero_division
                 | apply ratio_no_zero_division
                 | apply percentage_no_zero_division
                 | apply device_details_no_zero_division
                 | apply py_sub_no_zero_division ]
          | intros ?]).
  exact I.
Qed.

Ltac invert_rbind H :=
  repeat match type of H with
         | rbind ?r _ = Ok _ =>
             let a := fresh "a" in
             let E := fresh "E" in
             destruct r as [a|] eqn:E; cbn [rbind] in H; [|discriminate H]
         end.

(** The analytics, when computed, are the record of these steps. *)
Lemma analytics_data_Ok devices data :
  analytics_data devices = Ok data ->
  exists t details,
    fold_result add_device (dict_values devices) zero_totals = Ok t
    /\ device_details_of devices = Ok details
    /\ analytics_field data "fleet_overview" "total_devices"
       = Some (VInt (len devices))
    /\ analytics_field data "fleet_overview" "total_uptime_hours"
       = Some (total_uptime t)
    /\ analytics_field data "action_breakdown" "total_actions"
       = Some (total_actions t)
    /\ analytics_field data "action_breakdown" "tweets"
       = Some (total_tweets t)
    /\ analytics_field data "action_breakdown" "replies"
       = Some (total_replies t)
    /\ analytics_field data "action_breakdown" "retweets"
       = Some (total_retweets t)
    /\ (exists v, ratio (total_uptime t) (VInt (len devices)) = Ok v
         /\ analytics_field data "fleet_overview" "average_uptime_hours"
            = Some v)
    /\ (exists v, percentage (VInt (count_online devices)) (VInt (len devices))
                  = Ok v
         /\ analytics_field data "performance_metrics" "uptime_percentage"
            = Some v
         /\ analytics_field data "performance_metrics" "device_health_score"
            = Some v)
    /\ (exists v, ratio (total_actions t) (VInt (len devices)) = Ok v
         /\ analytics_field data "performance_metrics" "avg_actions_per_device"
            = Some v)
    /\ (exists v, percentage (total_tweets t) (total_actions t) = Ok v
         /\ analytics_field data "action_breakdown" "tweet_percentage" = Some v)
    /\ (exists v, percentage (total_replies t) (total_actions t) = Ok v
         /\ analytics_field data "action_breakdown" "reply_percentage" = Some v)
    /\ (exists v, percentage (total_retweets t) (total_actions t) = Ok v
         /\ analytics_field data "action_breakdown" "retweet_percentage"
            = Some v)
    /\ (exists v, ratio (total_actions t) (total_uptime t) = Ok v
         /\ analytics_field data "performance_metrics" "action_efficiency"
            = Some v).
Proof.
  unfold analytics_data. cbv zeta. intros H. invert_rbind H.
  apply (f_equal (fun r => match r with Ok x => x | Raise _ => data end)) in H.
  cbv beta iota in H. subst data.
  eexists. eexists.
  split; [reflexivity|]. split; [reflexivity|].
  repeat (split; [reflexivity|]).
  repeat (split;
          [eexists; split;
           [first [eassumption | reflexivity] | try split; reflexivity]|]).
  eexists; split; [first [eassumption | reflexivity] | reflexivity].
Qed.

(** C8. The analytics never end in a ZeroDivisionError; whenever they
    are computed, a zero number of devices makes the average uptime,
    the uptime percentage, the average actions per device and the
    health score 0, a zero total of actions makes the three action
    percentages 0, and a zero total uptime makes the efficiency 0; with
    an empty registry the request succeeds and all eight are 0. *)
Theorem analytics_divisions_guarded :
  (forall devices, no_zero_division (analytics_data devices))
  /\ (forall devices data,
        analytics_data devices = Ok data ->
        (forall n,
           analytics_field data "fleet_overview" "total_devices" = Some n ->
           py_is_zero n = true ->
           analytics_field data "fleet_overview" "average_uptime_hours"
           = Some (VInt 0)
           /\ analytics_field data "performance_metrics" "uptime_percentage"
              = Some (VInt 0)
           /\ analytics_field data "performance_metrics" "avg_actions_per_device"
              = Some (VInt 0)
           /\ analytics_field data "performance_metrics" "device_health_score"
              = Some (VInt 0))
        /\ (forall n,
              analytics_field data "action_breakdown" "total_actions" = Some n ->
              py_is_zero n = true ->
              analytics_field data "action_breakdown" "tweet_percentage"
              = Some (VInt 0)
              /\ analytics_field data "action_breakdown" "reply_percentage"
                 = Some (VInt 0)
              /\ analytics_field data "action_breakdown" "retweet_percentage"
                 = Some (VInt 0))
        /\ (forall n,
              analytics_field data "fleet_overview" "total_uptime_hours"
              = Some n ->
              py_is_zero n = true ->
              analytics_field data "performance_metrics" "action_efficiency"
              = Some (VInt 0)))
  /\ (forall clock w,
        device_statuses w = [] ->
        exists r w' data,
          get_analytics clock w = (Ok r, w')
          /\ status_code r = 200
          /\ dict_get "analytics" (body r) = Some (VDict data)
          /\ Forall (fun '(section, name) =>
                       analytics_field data section name = Some (VInt 0))
               [ ("fleet_overview", "average_uptime_hours");
                 ("action_breakdown", "tweet_percentage");
                 ("action_breakdown", "reply_percentage");
                 ("action_breakdown", "retweet_percentage");
                 ("performance_metrics", "avg_actions_per_device");
                 ("performance_metrics", "uptime_percentage");
                 ("performance_metrics", "action_efficiency");
                 ("performance_metrics", "device_health_score") ]).
Proof.
  split; [exact analytics_data_no_zero_division|]. split.
  - intros devices data Hdata.
    destruct (analytics_data_Ok devices data Hdata)
      as (t & details & _ & _ & Hn & Hup & Hact & _ & _ & _
          & (v1 & E1 & F1) & (v2 & E2 & F2 & F2') & (v3 & E3 & F3)
          & (v4 & E4 & F4) & (v5 & E5 & F5) & (v6 & E6 & F6)
          & (v7 & E7 & F7)).
    split; [|split].
    + intros n Hn' Hz. rewrite Hn in Hn'.
      assert (n = VInt (len devices)) as -> by congruence.
      rewrite ratio_of_zero in E1 by exact Hz.
      rewrite ratio_of_zero in E3 by exact Hz.
      rewrite percentage_of_zero in E2 by exact Hz.
      rewrite F1, F2, F2', F3. repeat split; congruence.
    + intros n Hn' Hz. rewrite Hact in Hn'.
      assert (n = total_actions t) as -> by congruence.
      rewrite percentage_of_zero in E4 by exact Hz.
      rewrite percentage_of_zero in E5 by exact Hz.
      rewrite percentage_of_zero in E6 by exact Hz.
      rewrite F4, F5, F6. repeat split; congruence.
    + intros n Hn' Hz. rewrite Hup in Hn'.
      assert (n = total_uptime t) as -> by congruence.
      rewrite ratio_of_zero in E7 by exact Hz.
      rewrite F7. congruence.
  - intros clock w Hempty.
    destruct w as [statuses queues activities n].
    cbn [device_statuses] in Hempty. subst statuses.
    do 3 eexists. split; [reflexivity|].
    split; [reflexivity|]. split; [reflexivity|].
    repeat constructor.
Qed.

Lemma analytics_divisions_guarded_witness :
  exists data,
    analytics_data (device_statuses three_devices) = Ok data
    /\ analytics_field data "action_breakdown" "total_actions" = Some (VInt 0)
    /\ analytics_field data "action_breakdown" "tweet_percentage"
       = Some (VInt 0)
    /\ analytics_field data "fleet_overview" "total_uptime_hours"
       = Some (VInt 0)
    /\ analytics_field data "performance_metrics" "action_efficiency"
       = Some (VInt 0).
Proof.
  destruct (analytics_data (device_statuses three_devices)) as [data|e] eqn:E;
    [|vm_compute in E; discriminate].
  destruct (proj1 (proj2 analytics_divisions_guarded) _ _ E)
    as (_ & Hactions & Huptime).
  assert (Ha : analytics_field data "action_breakdown" "total_actions"
               = Some (VInt 0)).
  { vm_compute in E. injection E as <-. reflexivity. }
  assert (Hu : analytics_field data "fleet_overview" "total_uptime_hours"
               = Some (VInt 0)).
  { vm_compute in E. injection E as <-. reflexivity. }
  exists data. split; [reflexivity|]. split; [exact Ha|].
  split; [exact (proj1 (Hactions _ Ha eq_refl))|].
  split; [exact Hu | exact (Huptime _ Hu eq_refl)].
Defined.

(** ** Analytics: what is summed *)

Lemma sum_from_ints xs : forall acc,
  forallb is_int xs = true ->
  sum_from (VInt acc) xs
  = Ok (VInt (acc + fold_right Z.add 0 (map int_of xs))).
Proof.
  induction xs as [|x xs IH]; intros acc H; cbn [sum_from map fold_right].
  - now rewrite Z.add_0_r.
  - cbn [forallb] in H. apply andb_prop in H. destruct H as [Hx Hxs].
    destruct x; try discriminate. cbn [py_add as_num rbind int_of].
    rewrite IH by exact Hxs. now rewrite Z.add_assoc.
Qed.

Lemma get_or_int d kind :
  forallb is_int (dict_values d) = true ->
  get_or d kind (VInt 0) = VInt (count_of kind d).
Proof.
  unfold count_of, get_or.
  induction d as [|[k v] d IH]; cbn [dict_values map snd forallb dict_get];
    [reflexivity|].
  intros H. apply andb_prop in H. destruct H as [Hv Hd].
  destruct (String.eqb kind k); [|now apply IH].
  now destruct v.
Qed.

Lemma add_device_ints acc row d t a b c e :
  int_actions row = Some d ->
  total_actions acc = VInt a -> total_tweets acc = VInt b ->
  total_replies acc = VInt c -> total_retweets acc = VInt e ->
  add_device acc row = Ok t ->
  total_actions t = VInt (a + sum_values d)
  /\ total_tweets t = VInt (b + count_of "tweets" d)
  /\ total_replies t = VInt (c + count_of "replies" d)
  /\ total_retweets t = VInt (e + count_of "retweets" d).
Proof.
  unfold int_actions, add_device. intros Hd Ha Hb Hc He.
  destruct (get_or row "actions_today" (VDict [])) as [| | | | | |d'];
    try discriminate.
  destruct (forallb is_int (dict_values d')) eqn:Hints; [|discriminate].
  assert (d' = d) as -> by congruence.
  cbn [py_get sum_actions rbind].
  fold (get_or d "tweets" (VInt 0)). fold (get_or d "replies" (VInt 0)).
  fold (get_or d "retweets" (VInt 0)).
  rewrite !get_or_int by exact Hints.
  rewrite Ha, Hb, Hc, He. cbn [py_add as_num rbind].
  unfold py_sum. rewrite sum_from_ints by exact Hints.
  cbn [py_add as_num rbind Z.add].
  destruct (py_add "+=" (total_uptime acc) (get_or row "uptime_hours" (VInt 0)))
    as [u|]; cbn [rbind]; [|discriminate].
  intros H.
  apply (f_equal (fun r => match r with Ok x => x | Raise _ => acc end)) in H.
  cbv beta iota in H. subst t.
  cbn [total_actions total_tweets total_replies total_retweets]. auto.
Qed.

Lemma fold_add_device_ints rows : forall acc t a b c e,
  Forall (fun row => int_actions row <> None) rows ->
  total_actions acc = VInt a -> total_tweets acc = VInt b ->
  total_replies acc = VInt c -> total_retweets acc = VInt e ->
  fold_result add_device rows acc = Ok t ->
  let total f :=
    fold_right Z.add 0
      (map (fun row => match int_actions row with
                       | Some d => f d
                       | None => 0
                       end) rows) in
  total_actions t = VInt (a + total sum_values)
  /\ total_tweets t = VInt (b + total (count_of "tweets"))
  /\ total_replies t = VInt (c + total (count_of "replies"))
  /\ total_retweets t = VInt (e + total (count_of "retweets")).
Proof.
  induction rows as [|row rows IH]; intros acc t a b c e Hrows Ha Hb Hc He.
  - cbn [fold_result map fold_right]. intros H.
    assert (t = acc) as -> by congruence.
    rewrite !Z.add_0_r. auto.
  - cbn [fold_result map fold_right]. inversion Hrows as [|? ? Hrow Hrest]; subst.
    destruct (int_actions row) as [d|] eqn:Hd; [|congruence].
    destruct (add_device acc row) as [acc'|] eqn:Hadd; [|discriminate].
    cbn [rbind]. intros Hfold.
    destruct (add_device_ints acc row d acc' a b c e Hd Ha Hb Hc He Hadd)
      as (Ha' & Hb' & Hc' & He').
    destruct (IH acc' t _ _ _ _ Hrest Ha' Hb' Hc' He' Hfold)
      as (H1 & H2 & H3 & H4).
    rewrite H1, H2, H3, H4. rewrite !Z.add_assoc. auto.
Qed.

(** C9. When every device reports a mapping to ints, total_actions is
    the sum of all values under all keys of all mappings, while tweets,
    replies and retweets sum the values under their own key only; and
    there is an input, a device reporting one tweet and one action of
    another kind, for which total_actions, 2, exceeds tweets + replies
    + retweets, 1, and the three percentages add up to 50. *)
Theorem total_actions_counts_every_kind :
  (forall devices data,
     (forall id row, In (id, row) devices -> int_actions row <> None) ->
     analytics_data devices = Ok data ->
     analytics_field data "action_breakdown" "total_actions"
     = Some (VInt (over_devices sum_values devices))
     /\ analytics_field data "action_breakdown" "tweets"
        = Some (VInt (over_devices (count_of "tweets") devices))
     /\ analytics_field data "action_breakdown" "replies"
        = Some (VInt (over_devices (count_of "replies") devices))
     /\ analytics_field data "action_breakdown" "retweets"
        = Some (VInt (over_devices (count_of "retweets") devices)))
  /\ (exists clock w r w' data,
        get_analytics clock w = (Ok r, w')
        /\ status_code r = 200
        /\ dict_get "analytics" (body r) = Some (VDict data)
        /\ analytics_field data "action_breakdown" "total_actions"
           = Some (VInt 2)
        /\ analytics_field data "action_breakdown" "tweets" = Some (VInt 1)
        /\ analytics_field data "action_breakdown" "replies" = Some (VInt 0)
        /\ analytics_field data "action_breakdown" "retweets" = Some (VInt 0)
        /\ 1 + 0 + 0 < 2
        /\ analytics_field data "action_breakdown" "tweet_percentage"
           = Some (VFloat (float_of_Z 50))
        /\ analytics_field data "action_breakdown" "reply_percentage"
           = Some (VFloat fzero)
        /\ analytics_field data "action_breakdown" "retweet_percentage"
           = Some (VFloat fzero)
        /\ rbind (py_add "+" (VFloat (float_of_Z 50)) (VFloat fzero))
                 (fun s => py_add "+" s (VFloat fzero))
           = Ok (VFloat (float_of_Z 50))
        /\ py_lt (VFloat (float_of_Z 50)) (VInt 100) = Ok true).
Proof.
  split.
  - intros devices data Hrows Hdata.
    destruct (analytics_data_Ok devices data Hdata)
      as (t & details & Hfold & _ & _ & _ & Hact & Htw & Hrp & Hrt & _).
    assert (Hall : Forall (fun row => int_actions row <> None)
                          (dict_values devices)).
    { apply Forall_forall. intros row Hin. unfold dict_values in Hin.
      apply in_map_iff in Hin. destruct Hin as ([id row'] & <- & Hin).
      now apply (Hrows id). }
    destruct (fold_add_device_ints (dict_values devices) zero_totals t 0 0 0 0
                Hall eq_refl eq_refl eq_refl eq_refl Hfold)
      as (H1 & H2 & H3 & H4).
    cbn [Z.add] in H1, H2, H3, H4.
    rewrite Hact, Htw, Hrp, Hrt, H1, H2, H3, H4. unfold over_devices. auto.
  - exists fast_clock, one_tweet_one_like.
    do 3 eexists. split; [vm_compute; reflexivity|].
    repeat split; vm_compute; reflexivity.
Qed.

Lemma total_actions_counts_every_kind_witness :
  exists data,
    analytics_data (device_statuses one_tweet_one_like) = Ok data
    /\ analytics_field data "action_breakdown" "total_actions"
       = Some (VInt (over_devices sum_values
                                  (device_statuses one_tweet_one_like)))
    /\ over_devices sum_values (device_statuses one_tweet_one_like) = 2
    /\ over_devices (count_of "tweets") (device_statuses one_tweet_one_like)
       = 1.
Proof.
  destruct (analytics_data (device_statuses one_tweet_one_like))
    as [data|e] eqn:E; [|vm_compute in E; discriminate].
  exists data. split; [reflexivity|]. split; [|split; reflexivity].
  refine (proj1 (proj1 total_actions_counts_every_kind _ data _ E)).
  intros id row H. vm_compute in H. destruct H as [H | []].
  injection H as <- <-. vm_compute. discriminate.
Defined.

(** ** Analytics: an actions_today that is not a mapping *)

(** The guard of lines 189 and 201 on its own: what is not a mapping
    counts for 0. *)
Lemma sum_actions_not_a_mapping v :
  is_dict v = false -> sum_actions v = Ok (VInt 0).
Proof. destruct v; simpl; auto; discriminate. Qed.

(** A row without actions_today counts as one with an empty mapping. *)
Lemma add_device_without_actions acc row a b c e :
  dict_get "actions_today" row = None ->
  total_actions acc = VInt a -> total_tweets acc = VInt b ->
  total_replies acc = VInt c -> total_retweets acc = VInt e ->
  forall t, add_device acc row = Ok t ->
  total_actions t = VInt a /\ total_tweets t = VInt b
  /\ total_replies t = VInt c /\ total_retweets t = VInt e.
Proof.
  intros Habsent Ha Hb Hc He t Hadd.
  assert (Hd : int_actions row = Some []).
  { unfold int_actions, get_or. now rewrite Habsent. }
  destruct (add_device_ints acc row [] t a b c e Hd Ha Hb Hc He Hadd)
    as (H1 & H2 & H3 & H4).
  unfold sum_values, count_of in *. cbn in H1, H2, H3, H4.
  rewrite Z.add_0_r in *. auto.
Qed.

(** The first loop calls [.get] on actions_today before any guard: a
    row whose actions_today is not a mapping makes it raise. *)
Lemma add_device_not_a_mapping acc row v :
  dict_get "actions_today" row = Some v -> is_dict v = false ->
  exists msg, add_device acc row = Raise (AttributeError msg).
Proof.
  intros Hv Hd. unfold add_device, get_or. rewrite Hv.
  destruct v; try discriminate; cbn [py_get rbind]; eexists; reflexivity.
Qed.

Lemma fold_add_device_not_a_mapping rows row v :
  In row rows ->
  dict_get "actions_today" row = Some v -> is_dict v = false ->
  forall acc, exists e, fold_result add_device rows acc = Raise e.
Proof.
  intros Hin Hv Hd. induction rows as [|r rows IH]; [contradiction|].
  intros acc. cbn [fold_result]. destruct Hin as [-> | Hin].
  - destruct (add_device_not_a_mapping acc row v Hv Hd) as [msg ->].
    eexists. reflexivity.
  - destruct (add_device acc r) as [acc'|e]; cbn [rbind].
    + apply IH. exact Hin.
    + eexists. reflexivity.
Qed.

(** Whatever else the registry holds, one row whose actions_today is
    not a mapping makes the analytics request end in the error answer. *)
Lemma get_analytics_not_a_mapping clock w id row v :
  NoDup (dict_keys (device_statuses w)) ->
  (forall id st, In (id, st) (device_statuses w) ->
                 exists t, last_seen_of st = Ok t) ->
  In (id, row) (device_statuses w) ->
  fresh (clock (ticks w)) (id, row) = true ->
  dict_get "actions_today" row = Some v -> is_dict v = false ->
  exists e w',
    get_analytics clock w
    = (Ok (mkResponse [("error", VStr (str_exn e))] 500), w').
Proof.
  intros Hnd Hparse Hin Hfresh Hv Hd.
  unfold get_analytics, try_except, bind at 1.
  rewrite cleanup_offline_devices_spec by exact Hnd.
  rewrite sweep_all_parse by exact Hparse. cbn [fst snd].
  unfold bind, gets, lift. cbn [device_statuses].
  assert (Hin' : In row (dict_values
                           (filter (fresh (clock (ticks w)))
                                   (device_statuses w)))).
  { unfold dict_values. apply in_map_iff. exists (id, row).
    split; [reflexivity|]. apply filter_In. auto. }
  unfold analytics_data. cbv zeta.
  destruct (fold_add_device_not_a_mapping _ row v Hin' Hv Hd zero_totals)
    as [e ->].
  cbn [rbind]. do 2 eexists. reflexivity.
Qed.

(** C4 (the code at the failing input). A heartbeat reporting
    actions_today = 5 is accepted; the analytics request that follows
    does not return the analytics but the error answer, with the
    AttributeError of the [.get] call as its message. *)
Theorem analytics_fails_on_non_mapping_actions :
  fst (device_heartbeat fast_clock "bot_1"
         (VDict [("actions_today", VInt 5)]) initial)
  = Ok (jsonify [ ("success", VBool true);
                  ("timestamp", VStr "2025-01-01T12:00:00.000001") ])
  /\ dict_keys (device_statuses actions_not_a_mapping) = ["bot_1"]
  /\ fst (get_analytics fast_clock actions_not_a_mapping)
     = Ok (mkResponse
             [("error", VStr "'int' object has no attribute 'get'")] 500).
Proof. repeat split; vm_compute; reflexivity. Qed.

(** ** What every reachable storage satisfies *)

Lemma In_dict_set {V} k v k0 v0 (d : list (string * V)) :
  In (k, v) (dict_set k0 v0 d) -> (k = k0 /\ v = v0) \/ In (k, v) d.
Proof.
  induction d as [|[k1 v1] d IH]; cbn [dict_set In].
  - intros [[= <- <-] | []]. now left.
  - destruct (String.eqb k0 k1) eqn:E; cbn [In].
    + apply String.eqb_eq in E. subst k1.
      intros [[= <- <-] | H]; [now left | right; now right].
    + intros [H | H]; [right; now left|].
      destruct (IH H) as [H' | H']; [now left | right; now right].
Qed.

Lemma NoDup_keys_filter {V} (f : string * V -> bool) (d : list (string * V)) :
  NoDup (dict_keys d) -> NoDup (dict_keys (filter f d)).
Proof.
  induction d as [|[k v] d IH]; cbn [filter dict_keys map fst]; [auto|].
  intros H. inversion H as [|? ? Hnotin Hnd]; subst.
  destruct (f (k, v)); [|now apply IH].
  cbn [map fst]. constructor; [|now apply IH].
  intros Hin. apply Hnotin. unfold dict_keys in *.
  apply in_map_iff in Hin. destruct Hin as (x & Hx & Hfx).
  apply filter_In in Hfx. apply in_map_iff. exists x. tauto.
Qed.

Lemma row_ok_parses row : row_ok row -> exists t, last_seen_of row = Ok t.
Proof.
  intros (_ & t & Hv & Hls). exists t. unfold last_seen_of, dict_getitem.
  rewrite Hls. cbn [rbind]. now apply fromisoformat_isoformat.
Qed.

Lemma row_ok_touch stamp row :
  row_ok row -> row_ok (dict_set "last_activity" stamp row).
Proof.
  intros (Hs & t & Hv & Hls). split.
  - rewrite dict_get_set_ne by discriminate. exact Hs.
  - exists t. split; [exact Hv|].
    rewrite dict_get_set_ne by discriminate. exact Hls.
Qed.

Lemma well_formed_same_stores w w' :
  same_stores w w' -> well_formed w -> well_formed w'.
Proof.
  intros (H1 & H2 & H3). unfold well_formed, unique_keys.
  now rewrite H1, H2, H3.
Qed.

Lemma same_stores_refl w : same_stores w w.
Proof. repeat split. Qed.

Lemma same_stores_trans a b c :
  same_stores a b -> same_stores b c -> same_stores a c.
Proof. unfold same_stores. intuition congruence. Qed.

Ltac keeps_stores :=
  step_respects same_stores_refl same_stores_trans;
  try (intros ?; repeat split).

Section WellFormed.
Variable clock : nat -> datetime.
Variable utcoffset : Z.
Hypothesis clock_valid : forall n, valid (clock n) = true.

Lemma well_formed_heartbeat device_id json w :
  well_formed w ->
  well_formed (snd (device_heartbeat clock device_id json w)).
Proof.
  intros Hwf.
  pose proof (device_heartbeat_queues clock device_id json w) as Hq.
  pose proof (device_heartbeat_activities clock device_id json w) as Ha.
  unfold same in Hq, Ha.
  assert (Hst : device_statuses (snd (device_heartbeat clock device_id json w))
                = device_statuses w
                \/ exists data la,
                     device_statuses
                       (snd (device_heartbeat clock device_id json w))
                     = dict_set device_id
                         (status_row (clock (ticks w)) data la)
                         (device_statuses w)).
  { destruct (most_recent device_id w) as [la|e] eqn:Hrecent.
    - destruct (py_or json (VDict [])) as [| | | | | |data] eqn:Hdata;
        try (left; unfold device_heartbeat; rewrite Hdata;
             unfold most_recent in Hrecent;
             unfold try_except, bind, gets, lift, ret, now, modify;
             destruct (dict_get device_id (recent_activities w))
               as [[|entry rest]|];
             try rewrite Hrecent; reflexivity).
      right. exists data, la.
      now rewrite (device_heartbeat_ok clock device_id json data la w).
    - left. unfold device_heartbeat. unfold most_recent in Hrecent.
      unfold try_except, bind, gets, lift, ret, now, modify.
      destruct (dict_get device_id (recent_activities w))
        as [[|entry rest]|]; try discriminate.
      rewrite Hrecent. reflexivity. }
  destruct Hwf as ((Hk1 & Hk2 & Hk3) & Hrows & Hlogs).
  unfold well_formed, unique_keys. rewrite Hq, Ha.
  destruct Hst as [-> | (data & la & ->)];
    [exact (conj (conj Hk1 (conj Hk2 Hk3)) (conj Hrows Hlogs))|].
  split; [|split]; [| |exact Hlogs].
  - split; [now apply NoDup_keys_set | now split].
  - intros id row H. apply In_dict_set in H.
    destruct H as [[_ ->] | H]; [|now apply (Hrows id)].
    split; [reflexivity|].
    exists (clock (ticks w)). split; [apply clock_valid | reflexivity].
Qed.

Lemma well_formed_activity device_id json w :
  well_formed w ->
  well_formed (snd (log_device_activity clock device_id json w)).
Proof.
  intros ((Hk1 & Hk2 & Hk3) & Hrows & Hlogs).
  assert (Hold : Forall entry_ok (log_of device_id w)).
  { unfold log_of.
    destruct (dict_get device_id (recent_activities w)) as [l|] eqn:E;
      [|constructor].
    apply (Hlogs device_id). now apply dict_get_Some_In. }
  destruct (entry_of (clock (ticks w)) json) as [entry|] eqn:E.
  - rewrite (log_device_activity_ok clock device_id json entry w E).
    cbn [snd]. split; [|split];
      cbn [device_statuses command_queues recent_activities].
    + split; [|split; [exact Hk2 | now apply NoDup_keys_set]].
      cbn [device_statuses]. unfold touch.
      destruct (dict_get device_id (device_statuses w));
        [now apply NoDup_keys_set | exact Hk1].
    + intros id row H. unfold touch in H.
      destruct (dict_get device_id (device_statuses w)) as [row0|] eqn:E0;
        [|now apply (Hrows id)].
      apply In_dict_set in H. destruct H as [[_ ->] | H];
        [|now apply (Hrows id)].
      apply row_ok_touch. apply (Hrows device_id).
      now apply dict_get_Some_In.
    + intros id l H. apply In_dict_set in H.
      destruct H as [[_ ->] | H]; [|now apply (Hlogs id)].
      apply Forall_firstn_keep. constructor; [|exact Hold].
      exists (isoformat (clock (ticks w))).
      now apply (entry_of_facts _ _ _ E).
  - destruct (log_device_activity_rejected clock device_id json w E)
      as [e ->].
    cbn [snd]. unfold ensure_log.
    destruct (dict_mem device_id (recent_activities w));
      [exact (conj (conj Hk1 (conj Hk2 Hk3)) (conj Hrows Hlogs))|].
    split; [|split];
      cbn [device_statuses command_queues recent_activities].
    + split; [exact Hk1 | split; [exact Hk2 | now apply NoDup_keys_set]].
    + exact Hrows.
    + intros id l H. apply In_dict_set in H.
      destruct H as [[_ ->] | H]; [constructor | now apply (Hlogs id)].
Qed.

Lemma keeps_well_formed_refl w : keeps_well_formed w w.
Proof. intros H. exact H. Qed.

Lemma keeps_well_formed_trans a b c :
  keeps_well_formed a b -> keeps_well_formed b c -> keeps_well_formed a c.
Proof. unfold keeps_well_formed. auto. Qed.

Lemma keeps_well_formed_tick w : keeps_well_formed w (tick w).
Proof. now destruct w. Qed.

Lemma keeps_well_formed_queue device_id q w :
  keeps_well_formed w (set_command_queues (dict_set device_id q) w).
Proof.
  intros ((Hk1 & Hk2 & Hk3) & Hrows & Hlogs).
  split; [|split]; cbn [set_command_queues device_statuses recent_activities];
    auto.
  split; [exact Hk1 | split; [|exact Hk3]].
  cbn [set_command_queues command_queues]. now apply NoDup_keys_set.
Qed.

Ltac keeps_wf :=
  step_respects keeps_well_formed_refl keeps_well_formed_trans;
  try (intros ?;
       first [ apply keeps_well_formed_tick
             | apply keeps_well_formed_queue ]).

Lemma add_command_well_formed device_id action params :
  respects keeps_well_formed
           (add_command clock utcoffset device_id action params).
Proof. unfold add_command. keeps_wf. Qed.

Lemma stop_each_well_formed ids : forall stopped,
  respects keeps_well_formed (stop_each clock utcoffset ids stopped).
Proof.
  induction ids as [|id ids IH]; intros stopped; simpl.
  - keeps_wf.
  - apply (respects_bind _ keeps_well_formed_trans);
      [apply add_command_well_formed | intros _; apply IH].
Qed.

(** On a well-formed storage the sweep does not raise: it keeps the
    fresh rows. *)
Lemma cleanup_well_formed w :
  well_formed w ->
  cleanup_offline_devices clock w
  = (Ok tt,
     mkWorld (filter (fresh (clock (ticks w))) (device_statuses w))
             (command_queues w) (recent_activities w) (S (ticks w))).
Proof.
  intros ((Hk1 & _) & Hrows & _).
  rewrite cleanup_offline_devices_spec by exact Hk1.
  rewrite sweep_all_parse; [reflexivity|].
  intros id row H. apply row_ok_parses. now apply (Hrows id).
Qed.

Lemma cleanup_keeps_well_formed :
  respects keeps_well_formed (cleanup_offline_devices clock).
Proof.
  intros w Hwf. rewrite (cleanup_well_formed w Hwf). cbn [snd].
  destruct Hwf as ((Hk1 & Hk2 & Hk3) & Hrows & Hlogs).
  split; [|split]; cbn [device_statuses command_queues recent_activities];
    auto.
  - split; [now apply NoDup_keys_filter | now split].
  - intros id row H. apply filter_In in H. now apply (Hrows id).
Qed.

Lemma handle_well_formed r :
  respects keeps_well_formed (handle clock utcoffset r).
Proof.
  destruct r; cbn [handle];
    try (intros w Hwf; first [ now apply well_formed_heartbeat
                             | now apply well_formed_activity ]);
    unfold get_pending_commands, stop_device, restart_device,
      emergency_stop_all, get_all_status, get_analytics, home, health_check;
    keeps_wf;
    first [ apply add_command_well_formed
          | apply stop_each_well_formed
          | apply cleanup_keeps_well_formed ].
Qed.

Lemma initial_well_formed : well_formed initial.
Proof.
  split; [repeat split; constructor|]. split; intros ? ? [].
Qed.

(** Every storage the requests can lead to is well formed. *)
Lemma serve_well_formed rs : forall w,
  well_formed w -> well_formed (serve clock utcoffset rs w).
Proof.
  induction rs as [|r rs IH]; intros w Hwf; [exact Hwf|].
  cbn [serve]. apply IH. now apply handle_well_formed.
Qed.
End WellFormed.

(** ** The registry snapshot *)

Lemma dict_get_map {V W} (f : V -> W) k (d : list (string * V)) :
  dict_get k (map (fun '(k, v) => (k, f v)) d) = option_map f (dict_get k d).
Proof.
  induction d as [|[k0 v0] d IH]; cbn [map dict_get]; [reflexivity|].
  destruct (String.eqb k k0); [reflexivity | exact IH].
Qed.

Lemma count_online_strict_all rows :
  (forall id row, In (id, row) rows ->
                  dict_get "status" row = Some (VStr "online")) ->
  count_online_strict rows = Ok (len rows).
Proof.
  unfold count_online_strict, len.
  assert (H : forall n,
             (forall id row, In (id, row) rows ->
                             dict_get "status" row = Some (VStr "online")) ->
             fold_result
               (fun n d =>
                  rbind (dict_getitem "status" d)
                        (fun s => Ok (if eq_str s "online" then n + 1 else n)))
               (dict_values rows) n
             = Ok (n + Z.of_nat (List.length rows))).
  { induction rows as [|[id row] rows IH]; intros n Hrows;
      cbn [dict_values map snd fold_result List.length].
    - f_equal. lia.
    - unfold dict_getitem at 1. rewrite (Hrows id row) by now left.
      cbn [rbind eq_str]. change (String.eqb "online" "online") with true.
      cbv iota. unfold dict_values in IH. rewrite IH.
      + f_equal. lia.
      + intros id' row' H. apply (Hrows id'). now right. }
  intros Hrows. now rewrite H.
Qed.

Section SnapshotFacts.
Variable clock : nat -> datetime.

(** On a well-formed storage [get_all_status] answers with the fresh
    rows, all of them online. *)
Lemma get_all_status_well_formed w :
  well_formed w ->
  let rows := filter (fresh (clock (ticks w))) (device_statuses w) in
  get_all_status clock w
  = (Ok (jsonify
           [ ("timestamp", VStr (isoformat (clock (S (ticks w)))));
             ("devices", statuses_json rows);
             ("recent_activities", lists_json (recent_activities w));
             ("total_devices", VInt (len rows));
             ("online_devices", VInt (len rows)) ]),
     mkWorld rows (command_queues w) (recent_activities w)
             (S (S (ticks w)))).
Proof.
  intros Hwf rows. unfold get_all_status, try_except, bind at 1.
  rewrite (cleanup_well_formed clock w Hwf). fold rows.
  unfold bind, now, gets, lift, ret.
  cbn [tick device_statuses command_queues recent_activities ticks].
  rewrite count_online_strict_all; [reflexivity|].
  intros id row H. unfold rows in H. apply filter_In in H.
  destruct Hwf as (_ & Hrows & _). now apply (Hrows id row).
Qed.
End SnapshotFacts.

(** C6. A heartbeat whose report is a JSON object (or an empty body),
    arriving at a well-formed storage, is answered with 200 and leaves
    the device in the registry with status "online", a last_seen that
    reads back as the clock read of this call, every missing report
    field at its default (uptime_hours 0, cpu_usage 0, actions_today
    the empty mapping, content_version "unknown", twitter_logged_in
    false) and every present one as reported, and as last_activity the
    timestamp of entry 0 of the device's log, or "Never" when the log
    is empty or absent; a status request whose sweep reads the clock no
    more than ten minutes later shows that row. *)
Theorem heartbeat_recorded clock device_id json data w :
  (forall n, valid (clock n) = true) ->
  py_or json (VDict []) = VDict data ->
  well_formed w ->
  exists r w' row,
    device_heartbeat clock device_id json w = (Ok r, w')
    /\ status_code r = 200
    /\ dict_get device_id (device_statuses w') = Some row
    /\ dict_get "status" row = Some (VStr "online")
    /\ last_seen_of row = Ok (clock (ticks w))
    /\ dict_get "uptime_hours" row
       = Some (get_or data "uptime_hours" (VInt 0))
    /\ dict_get "cpu_usage" row = Some (get_or data "cpu_usage" (VInt 0))
    /\ dict_get "actions_today" row
       = Some (get_or data "actions_today" (VDict []))
    /\ dict_get "content_version" row
       = Some (get_or data "content_version" (VStr "unknown"))
    /\ dict_get "twitter_logged_in" row
       = Some (get_or data "twitter_logged_in" (VBool false))
    /\ dict_get "last_activity" row
       = Some (match log_of device_id w with
               | entry :: _ => get_or entry "timestamp" VNone
               | [] => VStr "Never"
               end)
    /\ (sub (clock (ticks w')) (clock (ticks w)) <= ten_minutes ->
        exists r2 w2,
          get_all_status clock w' = (Ok r2, w2)
          /\ status_code r2 = 200
          /\ json_path ["devices"; device_id] (VDict (body r2))
             = Some (VDict row)).
Proof.
  intros Hclock Hdata Hwf.
  assert (Hrecent : most_recent device_id w
                    = Ok (match log_of device_id w with
                          | entry :: _ => get_or entry "timestamp" VNone
                          | [] => VStr "Never"
                          end)).
  { unfold most_recent, log_of.
    destruct (dict_get device_id (recent_activities w))
      as [[|entry rest]|] eqn:E; try reflexivity.
    destruct Hwf as (_ & _ & Hlogs).
    apply dict_get_Some_In in E. specialize (Hlogs _ _ E).
    inversion Hlogs as [|? ? [s Hs] _]; subst.
    unfold dict_getitem, get_or. now rewrite Hs. }
  pose proof (well_formed_heartbeat clock Hclock device_id json w Hwf) as Hwf'.
  rewrite (device_heartbeat_ok clock device_id json data _ w Hdata Hrecent)
    in Hwf' |- *.
  cbn [snd] in Hwf'.
  do 3 eexists. split; [reflexivity|]. split; [reflexivity|].
  cbn [device_statuses ticks].
  split; [apply dict_get_set_eq|].
  split; [reflexivity|].
  split.
  { unfold last_seen_of, status_row, dict_getitem. cbn [dict_get String.eqb].
    change (dict_get "last_seen" _) with
      (Some (VStr (isoformat (clock (ticks w))))).
    cbn [rbind]. apply fromisoformat_isoformat, Hclock. }
  do 6 (split; [reflexivity|]).
  intros Hsoon.
  rewrite (get_all_status_well_formed clock _ Hwf').
  cbn [device_statuses ticks recent_activities command_queues].
  do 2 eexists. split; [reflexivity|]. split; [reflexivity|].
  cbn [body jsonify json_path dict_get]. unfold statuses_json.
  change (String.eqb "devices" "timestamp") with false.
  change (String.eqb "devices" "devices") with true. cbv iota.
  rewrite dict_get_map.
  rewrite (dict_get_filter _ device_id
             (status_row (clock (ticks w)) data
                (match log_of device_id w with
                 | entry :: _ => get_or entry "timestamp" VNone
                 | [] => VStr "Never"
                 end))).
  - unfold fresh, stale. cbn [snd].
    assert (Hls : last_seen_of
                    (status_row (clock (ticks w)) data
                       (match log_of device_id w with
                        | entry :: _ => get_or entry "timestamp" VNone
                        | [] => VStr "Never"
                        end))
                  = Ok (clock (ticks w))).
    { unfold last_seen_of, status_row, dict_getitem.
      change (dict_get "last_seen" _) with
        (Some (VStr (isoformat (clock (ticks w))))).
      cbn [rbind]. apply fromisoformat_isoformat, Hclock. }
    rewrite Hls, offline_too_long_spec.
    unfold ten_minutes in Hsoon.
    destruct (Z.ltb_spec 600000000
                (sub (clock (S (S (ticks w)))) (clock (ticks w)))); [lia|].
    reflexivity.
  - destruct Hwf' as ((Hk & _) & _). exact Hk.
  - apply dict_get_Some_In. apply dict_get_set_eq.
Qed.

Lemma fast_clock_valid n : valid (fast_clock n) = true.
Proof.
  unfold valid, check_fields, fast_clock.
  cbn [year month day hour minute second microsecond].
  pose proof (Z.mod_pos_bound (Z.of_nat n) 1000000 ltac:(lia)) as H.
  change ((1 <=? 2025) && (2025 <=? 9999)) with true.
  change ((1 <=? 1) && (1 <=? 12)) with true.
  change ((1 <=? 1) && (1 <=? days_in_month 2025 1)) with true.
  change ((0 <=? 12) && (12 <=? 23)) with true.
  change ((0 <=? 0) && (0 <=? 59)) with true.
  cbn [negb].
  rewrite (proj2 (Z.leb_le 0 (Z.of_nat n mod 1000000))) by lia.
  rewrite (proj2 (Z.leb_le (Z.of_nat n mod 1000000) 999999)) by lia.
  reflexivity.
Qed.

Lemma three_devices_well_formed : well_formed three_devices.
Proof.
  apply (serve_well_formed fast_clock 0 fast_clock_valid).
  apply initial_well_formed.
Qed.

Lemma heartbeat_recorded_witness :
  exists r w' row,
    device_heartbeat fast_clock "bot_4" (VDict []) three_devices = (Ok r, w')
    /\ dict_get "bot_4" (device_statuses w') = Some row
    /\ dict_get "status" row = Some (VStr "online")
    /\ dict_get "content_version" row = Some (VStr "unknown")
    /\ dict_get "last_activity" row = Some (VStr "Never").
Proof.
  destruct (heartbeat_recorded fast_clock "bot_4" (VDict []) [] three_devices
              fast_clock_valid eq_refl three_devices_well_formed)
    as (r & w' & row & Hrun & _ & Hrow & Hstatus & _ & _ & _ & _ & Hversion
        & _ & Hlast & _).
  exists r, w', row. repeat split; assumption.
Defined.

(** In every storage the requests lead to, under a clock whose reads
    are valid datetimes, the sweep returns. *)
Lemma sweep_returns_when_reachable clock utcoffset rs :
  (forall n, valid (clock n) = true) ->
  exists w',
    cleanup_offline_devices clock (serve clock utcoffset rs initial)
    = (Ok tt, w').
Proof.
  intros Hclock. eexists. apply cleanup_well_formed.
  apply serve_well_formed; [exact Hclock | apply initial_well_formed].
Qed.

(** ** Checks against the spec's examples *)

(** Three devices with {tweets: 5}, {replies: 2, retweets: 1} and {}:
    8 actions in total, 62.5 percent of them tweets. *)
Example analytics_of_three_devices :
  exists data,
    analytics_data
      [ ("bot_1", [("actions_today", VDict [("tweets", VInt 5)])]);
        ("bot_2", [("actions_today",
                    VDict [("replies", VInt 2); ("retweets", VInt 1)])]);
        ("bot_3", [("actions_today", VDict [])]) ]
    = Ok data
    /\ analytics_field data "action_breakdown" "total_actions" = Some (VInt 8)
    /\ analytics_field data "action_breakdown" "tweet_percentage"
       = Some (VFloat (fdiv (float_of_Z 125) (float_of_Z 2)))
    /\ json_path ["top_performers"] (VDict data)
       = Some (VList
           [ VDict [ ("id", VStr "bot_1"); ("name", VStr "1");
                     ("status", VStr "unknown"); ("uptime_hours", VInt 0);
                     ("actions_today", VDict [("tweets", VInt 5)]);
                     ("total_actions", VInt 5);
                     ("last_activity", VStr "Never");
                     ("cpu_usage", VInt 0); ("memory_usage", VInt 0) ];
             VDict [ ("id", VStr "bot_2"); ("name", VStr "2");
                     ("status", VStr "unknown"); ("uptime_hours", VInt 0);
                     ("actions_today",
                      VDict [("replies", VInt 2); ("retweets", VInt 1)]);
                     ("total_actions", VInt 3);
                     ("last_activity", VStr "Never");
                     ("cpu_usage", VInt 0); ("memory_usage", VInt 0) ];
             VDict [ ("id", VStr "bot_3"); ("name", VStr "3");
                     ("status", VStr "unknown"); ("uptime_hours", VInt 0);
                     ("actions_today", VDict []);
                     ("total_actions", VInt 0);
                     ("last_activity", VStr "Never");
                     ("cpu_usage", VInt 0); ("memory_usage", VInt 0) ] ]).
Proof. eexists. repeat split; vm_compute; reflexivity. Qed.

(** Equal totals keep the order of the registry in the ranking. *)
Example ranking_is_stable :
  map (fun x => get_or x "id" VNone)
    (sort_by_key_reverse (fun x => get_or x "total_actions" VNone)
       [ [("id", VStr "a"); ("total_actions", VInt 0)];
         [("id", VStr "b"); ("total_actions", VInt 5)];
         [("id", VStr "c"); ("total_actions", VFloat (float_of_Z 5))];
         [("id", VStr "d"); ("total_actions", VInt 7)] ])
  = [VStr "d"; VStr "b"; VStr "c"; VStr "a"].
Proof. vm_compute. reflexivity. Qed.

(** Timestamps as [isoformat] writes them, and what is read back. *)
Example timestamps :
  isoformat (mkDatetime 2025 3 9 7 5 1 0) = "2025-03-09T07:05:01"
  /\ isoformat (mkDatetime 2025 3 9 7 5 1 42) = "2025-03-09T07:05:01.000042"
  /\ fromisoformat (VStr "2025-03-09T07:05:01.000042")
     = Ok (mkDatetime 2025 3 9 7 5 1 42)
  /\ fromisoformat (VStr "2025-02-29T00:00:00")
     = Raise (ValueError "day is out of range for month")
  /\ ymd2ord 1970 1 1 = 719163
  /\ int_timestamp 0 (mkDatetime 2025 1 1 0 0 0 999999) = 1735689600
  /\ offline_too_long (mkDatetime 2025 1 1 12 10 0 0)
                      (mkDatetime 2025 1 1 12 0 0 0) = false
  /\ offline_too_long (mkDatetime 2025 1 1 12 10 0 1)
                      (mkDatetime 2025 1 1 12 0 0 0) = true.
Proof. repeat split; vm_compute; reflexivity. Qed.

(** Around the threshold, and far from it, the float computation of
    the sweep's test gives what the exact one gives. *)
Example float_test_at_the_threshold :
  float_offline_too_long 599999999 = Ok false
  /\ float_offline_too_long 600000000 = Ok false
  /\ float_offline_too_long 600000001 = Ok true
  /\ float_offline_too_long 600000002 = Ok true
  /\ float_offline_too_long (- 1) = Ok false
  /\ float_offline_too_long 315537897599999999 = Ok true.
Proof. repeat split; vm_compute; reflexivity. Qed.

(** * Further properties of the handlers *)

(** ** Control requests *)

Lemma py_or_idem json :
  py_or (py_or json (VDict [])) (VDict []) = py_or json (VDict []).
Proof.
  unfold py_or. destruct (py_truthy json) eqn:E; [now rewrite E | reflexivity].
Qed.

Lemma stop_device_run clock utcoffset device_id w :
  stop_device clock utcoffset device_id w
  = (Ok (jsonify [ ("success", VBool true);
                   ("message", VStr ("Stop command sent to " ++ device_id)) ]),
     mkWorld (device_statuses w)
             (dict_set device_id
                (queue_of device_id w
                 ++ [command_at clock utcoffset "stop_bot" stop_reason
                                (ticks w)])
                (command_queues w))
             (recent_activities w) (S (S (ticks w)))).
Proof.
  unfold stop_device, try_except, bind. rewrite add_command_spec. reflexivity.
Qed.

Lemma restart_device_run clock utcoffset device_id json w :
  restart_device clock utcoffset device_id json w
  = (Ok (jsonify [ ("success", VBool true);
                   ("message", VStr ("Restart command sent to " ++ device_id)) ]),
     mkWorld (device_statuses w)
             (dict_set device_id
                (queue_of device_id w
                 ++ [command_at clock utcoffset "restart_bot"
                                (py_or json (VDict [])) (ticks w)])
                (command_queues w))
             (recent_activities w) (S (S (ticks w)))).
Proof.
  unfold restart_device, try_except, bind. rewrite add_command_spec.
  reflexivity.
Qed.

(** X1. [stop_device] answers 200 for any device id, registered or
    not, and puts exactly one "stop_bot" command with the manual-stop
    reason at the tail of that device's queue; no other queue, no
    registry row and no activity log changes. *)
Theorem stop_device_queues_one_command clock utcoffset device_id w :
  exists r w' c,
    stop_device clock utcoffset device_id w = (Ok r, w')
    /\ status_code r = 200
    /\ appended w w' device_id c
    /\ dict_get "action" c = Some (VStr "stop_bot")
    /\ dict_get "parameters" c = Some stop_reason
    /\ (forall other, other <> device_id ->
          dict_get other (command_queues w')
          = dict_get other (command_queues w))
    /\ device_statuses w' = device_statuses w
    /\ recent_activities w' = recent_activities w.
Proof.
  do 3 eexists. split; [apply stop_device_run|].
  split; [reflexivity|]. split.
  { unfold appended, queue_of at 1. cbn [command_queues].
    rewrite dict_get_set_eq. reflexivity. }
  split; [reflexivity|]. split; [reflexivity|].
  split; [|split; reflexivity].
  intros other Hne. cbn [command_queues]. apply dict_get_set_ne. congruence.
Qed.

(** X2. [restart_device] never rejects a body: it answers 200 and
    queues one "restart_bot" command whose parameters are the body as
    it came when the body is truthy, whatever its JSON type, and the
    empty mapping when the body is null, false, 0, empty text, empty
    list or empty object. *)
Theorem restart_device_keeps_any_parameters clock utcoffset device_id json w :
  exists r w' c,
    restart_device clock utcoffset device_id json w = (Ok r, w')
    /\ status_code r = 200
    /\ appended w w' device_id c
    /\ dict_get "action" c = Some (VStr "restart_bot")
    /\ dict_get "parameters" c
       = Some (if py_truthy json then json else VDict [])
    /\ device_statuses w' = device_statuses w
    /\ recent_activities w' = recent_activities w.
Proof.
  do 3 eexists. split; [apply restart_device_run|].
  split; [reflexivity|]. split.
  { unfold appended, queue_of at 1. cbn [command_queues].
    rewrite dict_get_set_eq. reflexivity. }
  split; [reflexivity|]. split; [|split; reflexivity].
  unfold command_at. cbn [dict_get String.eqb Ascii.eqb Bool.eqb].
  change (dict_get "parameters" _) with
    (Some (py_or (py_or json (VDict [])) (VDict []))).
  rewrite py_or_idem. reflexivity.
Qed.

Lemma control_order_run clock utcoffset device_id r action params w :
  control_order device_id r = Some (action, params) ->
  snd (handle clock utcoffset r w)
  = mkWorld (device_statuses w)
            (dict_set device_id
               (queue_of device_id w
                ++ [command_at clock utcoffset action params (ticks w)])
               (command_queues w))
            (recent_activities w) (S (S (ticks w))).
Proof.
  destruct r; cbn [control_order]; try discriminate;
    destruct (String.eqb device_id0 device_id) eqn:E; try discriminate;
    apply String.eqb_eq in E; subst device_id0; intros [= <- <-];
    cbn [handle].
  - now rewrite stop_device_run.
  - now rewrite restart_device_run.
Qed.

Lemma issued_length clock utcoffset device_id rs : forall n,
  Forall (fun r => control_order device_id r <> None) rs ->
  List.length (issued clock utcoffset device_id n rs) = List.length rs.
Proof.
  induction rs as [|r rs IH]; intros n H; [reflexivity|].
  inversion H as [|? ? Hr Hrs]; subst. cbn [issued].
  destruct (control_order device_id r) as [[action params]|]; [|congruence].
  cbn [List.length]. now rewrite IH.
Qed.

Lemma control_run_queue clock utcoffset device_id rs : forall w,
  Forall (fun r => control_order device_id r <> None) rs ->
  queue_of device_id (serve clock utcoffset rs w)
  = queue_of device_id w ++ issued clock utcoffset device_id (ticks w) rs.
Proof.
  induction rs as [|r rs IH]; intros w H; cbn [serve issued].
  - now rewrite app_nil_r.
  - inversion H as [|? ? Hr Hrs]; subst.
    destruct (control_order device_id r) as [[action params]|] eqn:E;
      [|congruence].
    rewrite (control_order_run clock utcoffset _ _ _ _ w E), IH by exact Hrs.
    unfold queue_of at 1. cbn [command_queues ticks].
    rewrite dict_get_set_eq, <- app_assoc. reflexivity.
Qed.

(** X3. Commands are delivered first in, first out, and the queue has
    no bound: after any run of stop and restart requests for one
    device, its queue is the old queue followed by one command per
    request in the order the requests came, and the next poll of the
    device returns all of them in that order and leaves the queue
    empty. *)
Theorem commands_delivered_in_issue_order clock utcoffset device_id rs w :
  Forall (fun r => control_order device_id r <> None) rs ->
  exists r w',
    get_pending_commands clock device_id (serve clock utcoffset rs w)
    = (Ok r, w')
    /\ dict_get "commands" (body r)
       = Some (VList (map VDict
            (queue_of device_id w
             ++ issued clock utcoffset device_id (ticks w) rs)))
    /\ List.length (queue_of device_id (serve clock utcoffset rs w))
       = (List.length (queue_of device_id w) + List.length rs)%nat
    /\ queue_of device_id w' = [].
Proof.
  intros H. rewrite get_pending_commands_spec. do 2 eexists.
  split; [reflexivity|]. rewrite control_run_queue by exact H.
  split; [reflexivity|]. split.
  - now rewrite length_app, issued_length.
  - unfold queue_of. cbn [command_queues]. now rewrite dict_get_set_eq.
Qed.

Lemma commands_delivered_in_issue_order_witness :
  exists r w',
    get_pending_commands fast_clock "bot_1"
      (serve fast_clock 0
         [Stop "bot_1"; Restart "bot_1" (VDict [("delay", VInt 5)]);
          Stop "bot_1"] initial)
    = (Ok r, w')
    /\ dict_get "commands" (body r)
       = Some (VList (map VDict
            [ command_at fast_clock 0 "stop_bot" stop_reason 0;
              command_at fast_clock 0 "restart_bot"
                (VDict [("delay", VInt 5)]) 2;
              command_at fast_clock 0 "stop_bot" stop_reason 4 ]))
    /\ queue_of "bot_1" w' = [].
Proof.
  destruct (commands_delivered_in_issue_order fast_clock 0 "bot_1"
              [Stop "bot_1"; Restart "bot_1" (VDict [("delay", VInt 5)]);
               Stop "bot_1"] initial)
    as (r & w' & Hrun & Hcommands & _ & Hempty).
  { repeat constructor; discriminate. }
  exists r, w'. repeat split; assumption.
Defined.

(** ** Heartbeats *)

(** X4. A heartbeat whose body is truthy but not a JSON object (a
    number, a text, a list, true) is answered with status 500,
    success false and the message of the AttributeError raised by the
    first [data.get]; it records nothing: registry, queues and logs are
    as before. *)
Theorem heartbeat_rejects_non_object clock device_id json last_activity w :
  py_truthy json = true -> is_dict json = false ->
  most_recent device_id w = Ok last_activity ->
  exists w',
    device_heartbeat clock device_id json w
    = (Ok (mkResponse
             [ ("success", VBool false);
               ("error", VStr ("'" ++ type_name json
                               ++ "' object has no attribute 'get'")) ]
             500), w')
    /\ same_stores w w'.
Proof.
  intros Ht Hd Hrecent. unfold device_heartbeat, py_or. rewrite Ht.
  unfold most_recent in Hrecent.
  unfold try_except, bind, gets, lift, ret, now, modify.
  destruct json; try discriminate;
    destruct (dict_get device_id (recent_activities w)) as [[|entry rest]|];
    try rewrite Hrecent;
    cbn [py_get]; eexists; (split; [reflexivity|]); repeat split.
Qed.

Lemma heartbeat_rejects_non_object_witness :
  exists w',
    device_heartbeat fast_clock "bot_1" (VList [VInt 1]) three_devices
    = (Ok (mkResponse
             [ ("success", VBool false);
               ("error", VStr "'list' object has no attribute 'get'") ]
             500), w')
    /\ same_stores three_devices w'.
Proof.
  exact (heartbeat_rejects_non_object fast_clock "bot_1" (VList [VInt 1])
           (VStr "Never") three_devices eq_refl eq_refl eq_refl).
Defined.

(** X5. An accepted heartbeat changes one row of the registry and
    nothing else: a device already registered keeps its place in the
    registry, a new device goes to the end, every other device's row is
    what it was, and queues and logs are untouched. *)
Theorem heartbeat_changes_one_row clock device_id json data last_activity w :
  py_or json (VDict []) = VDict data ->
  most_recent device_id w = Ok last_activity ->
  exists r w',
    device_heartbeat clock device_id json w = (Ok r, w')
    /\ status_code r = 200
    /\ dict_keys (device_statuses w')
       = (if dict_mem device_id (device_statuses w)
          then dict_keys (device_statuses w)
          else dict_keys (device_statuses w) ++ [device_id])
    /\ (forall other, other <> device_id ->
          dict_get other (device_statuses w')
          = dict_get other (device_statuses w))
    /\ command_queues w' = command_queues w
    /\ recent_activities w' = recent_activities w.
Proof.
  intros Hdata Hrecent. do 2 eexists.
  split; [apply (device_heartbeat_ok _ _ _ _ _ _ Hdata Hrecent)|].
  split; [reflexivity|]. cbn [device_statuses command_queues recent_activities].
  split; [|split; [|split; reflexivity]].
  - unfold dict_mem.
    destruct (dict_get device_id (device_statuses w)) as [row|] eqn:E.
    + apply dict_keys_set_present.
      apply dict_get_Some_In in E. apply (in_map fst) in E. exact E.
    + apply dict_keys_set_absent. now apply dict_get_None.
  - intros other Hne. apply dict_get_set_ne. congruence.
Qed.

Lemma heartbeat_changes_one_row_witness :
  exists r w',
    device_heartbeat fast_clock "bot_2" (VDict [("cpu_usage", VInt 7)])
      three_devices = (Ok r, w')
    /\ dict_keys (device_statuses w') = ["bot_1"; "bot_2"; "bot_3"]
    /\ dict_get "bot_1" (device_statuses w')
       = dict_get "bot_1" (device_statuses three_devices).
Proof.
  destruct (heartbeat_changes_one_row fast_clock "bot_2"
              (VDict [("cpu_usage", VInt 7)]) [("cpu_usage", VInt 7)]
              (VStr "Never") three_devices eq_refl eq_refl)
    as (r & w' & Hrun & _ & Hkeys & Hother & _).
  exists r, w'. split; [exact Hrun|]. split; [exact Hkeys|].
  apply Hother. discriminate.
Defined.

(** ** Activity reports *)

Lemma touch_keys device_id stamp statuses :
  dict_keys (touch device_id stamp statuses) = dict_keys statuses.
Proof.
  unfold touch. destruct (dict_get device_id statuses) as [row|] eqn:E;
    [|reflexivity].
  apply dict_keys_set_present.
  apply dict_get_Some_In in E. apply (in_map fst) in E. exact E.
Qed.

Lemma touch_other device_id stamp statuses other :
  other <> device_id ->
  dict_get other (touch device_id stamp statuses) = dict_get other statuses.
Proof.
  intros Hne. unfold touch. destruct (dict_get device_id statuses);
    [|reflexivity].
  apply dict_get_set_ne. congruence.
Qed.

(** X6. An accepted activity report never registers a device: the
    registry keeps exactly its keys, so a device without a row still
    has none. For a device with a row, the report sets last_activity to
    the timestamp of the new log entry and leaves every other field of
    the row, every other row and all queues as they were. *)
Theorem activity_sets_only_last_activity clock device_id json entry w :
  entry_of (clock (ticks w)) json = Some entry ->
  exists r w',
    log_device_activity clock device_id json w = (Ok r, w')
    /\ status_code r = 200
    /\ dict_keys (device_statuses w') = dict_keys (device_statuses w)
    /\ (dict_get device_id (device_statuses w) = None ->
        device_statuses w' = device_statuses w)
    /\ (forall row,
          dict_get device_id (device_statuses w) = Some row ->
          exists row',
            dict_get device_id (device_statuses w') = Some row'
            /\ dict_get "last_activity" row' = dict_get "timestamp" entry
            /\ forall field, field <> "last_activity" ->
                 dict_get field row' = dict_get field row)
    /\ (forall other, other <> device_id ->
          dict_get other (device_statuses w')
          = dict_get other (device_statuses w))
    /\ command_queues w' = command_queues w.
Proof.
  intros Hentry. do 2 eexists.
  split; [apply (log_device_activity_ok clock _ _ _ _ Hentry)|].
  split; [reflexivity|]. cbn [device_statuses command_queues].
  split; [apply touch_keys|].
  split; [|split; [|split; [|reflexivity]]].
  - intros Hnone. unfold touch. now rewrite Hnone.
  - intros row Hrow. unfold touch. rewrite Hrow, dict_get_set_eq.
    eexists. split; [reflexivity|]. split.
    + rewrite dict_get_set_eq. symmetry.
      exact (proj1 (entry_of_facts _ _ _ Hentry)).
    + intros field Hne. apply dict_get_set_ne. congruence.
  - intros other Hne. now apply touch_other.
Qed.

Lemma activity_sets_only_last_activity_witness :
  exists r w' row',
    log_device_activity fast_clock "bot_2" (VDict [("action", VStr "tweet")])
      three_devices = (Ok r, w')
    /\ dict_keys (device_statuses w') = ["bot_1"; "bot_2"; "bot_3"]
    /\ dict_get "bot_2" (device_statuses w') = Some row'
    /\ dict_get "last_activity" row'
       = Some (VStr (isoformat (fast_clock 6)))
    /\ dict_get "status" row' = Some (VStr "online").
Proof.
  destruct (activity_sets_only_last_activity fast_clock "bot_2"
              (VDict [("action", VStr "tweet")]) _ three_devices eq_refl)
    as (r & w' & Hrun & _ & Hkeys & _ & Hrow & _).
  destruct (Hrow _ eq_refl) as (row' & Hget & Hlast & Hfields).
  exists r, w', row'. split; [exact Hrun|]. split; [exact Hkeys|].
  split; [exact Hget|]. split; [exact Hlast|].
  rewrite Hfields by discriminate. reflexivity.
Defined.

(** X7. A rejected activity report (a body that is neither empty nor
    a JSON object, or a content_preview that cannot be sliced) is
    answered with status 500 and success false, and adds no entry; but
    the device has a log from then on, an empty one if it had none.
    Registry, queues and the logs of other devices are untouched. *)
Theorem rejected_activity_leaves_a_log clock device_id json w :
  entry_of (clock (ticks w)) json = None ->
  exists msg w',
    log_device_activity clock device_id json w
    = (Ok (mkResponse [("success", VBool false); ("error", VStr msg)] 500),
       w')
    /\ dict_get device_id (recent_activities w')
       = Some (log_of device_id w)
    /\ (forall other, other <> device_id ->
          dict_get other (recent_activities w')
          = dict_get other (recent_activities w))
    /\ device_statuses w' = device_statuses w
    /\ command_queues w' = command_queues w.
Proof.
  intros Hentry.
  destruct (log_device_activity_rejected clock device_id json w Hentry)
    as (e & Hrun).
  exists (str_exn e). eexists. split; [exact Hrun|].
  cbn [device_statuses command_queues recent_activities].
  split; [apply log_of_ensure|]. split; [|split; reflexivity].
  intros other Hne. unfold ensure_log.
  destruct (dict_mem device_id (recent_activities w)); [reflexivity|].
  apply dict_get_set_ne. congruence.
Qed.

Lemma rejected_activity_leaves_a_log_witness :
  exists msg w',
    log_device_activity fast_clock "bot_9"
      (VDict [("content_preview", VInt 5)]) initial
    = (Ok (mkResponse [("success", VBool false); ("error", VStr msg)] 500),
       w')
    /\ dict_get "bot_9" (recent_activities initial) = None
    /\ dict_get "bot_9" (recent_activities w') = Some [].
Proof.
  destruct (rejected_activity_leaves_a_log fast_clock "bot_9"
              (VDict [("content_preview", VInt 5)]) initial eq_refl)
    as (msg & w' & Hrun & Hlog & _).
  exists msg, w'. split; [exact Hrun|]. split; [reflexivity|exact Hlog].
Defined.

Lemma substring_short n : forall s,
  (String.length s <= n)%nat -> substring 0 n s = s.
Proof.
  induction n as [|n IH]; intros [|c s] H; cbn [substring]; try reflexivity.
  - cbn [String.length] in H. lia.
  - cbn [String.length] in H. rewrite IH by lia. reflexivity.
Qed.

Lemma substring_is_prefix n : forall s,
  exists rest, s = (substring 0 n s ++ rest)%string.
Proof.
  induction n as [|n IH]; intros [|c s]; cbn [substring].
  - now exists "".
  - now exists (String c s).
  - now exists "".
  - destruct (IH s) as (rest & Hrest). exists rest.
    cbn [String.append]. now rewrite <- Hrest.
Qed.

Lemma substring_long n : forall s,
  (n <= String.length s)%nat -> String.length (substring 0 n s) = n.
Proof.
  induction n as [|n IH]; intros [|c s] H; cbn [substring String.length];
    try reflexivity.
  - cbn [String.length] in H. lia.
  - cbn [String.length] in H. rewrite IH by lia. reflexivity.
Qed.

(** X8. An activity report that is a JSON object with a text
    content_preview (or none) is accepted, and the entry at the head of
    the device's log holds: the report's action, success and details as
    they came, whatever their type, with 'unknown', false and the empty
    text for absent ones; and as content_preview the first 100
    characters of the report's preview, which is the whole preview when
    it has at most 100 characters. *)
Theorem activity_entry_fields clock device_id json data s w :
  py_or json (VDict []) = VDict data ->
  get_or data "content_preview" (VStr "") = VStr s ->
  exists r w' entry,
    log_device_activity clock device_id json w = (Ok r, w')
    /\ status_code r = 200
    /\ hd_error (log_of device_id w') = Some entry
    /\ dict_get "action" entry = Some (get_or data "action" (VStr "unknown"))
    /\ dict_get "success" entry = Some (get_or data "success" (VBool false))
    /\ dict_get "details" entry = Some (get_or data "details" (VStr ""))
    /\ dict_get "content_preview" entry = Some (VStr (substring 0 100 s))
    /\ (exists rest, s = (substring 0 100 s ++ rest)%string)
    /\ ((String.length s <= 100)%nat -> substring 0 100 s = s)
    /\ ((100 <= String.length s)%nat ->
        String.length (substring 0 100 s) = 100%nat).
Proof.
  intros Hdata Hpreview.
  assert (Hentry : entry_of (clock (ticks w)) json
                   = Some (entry_at (clock (ticks w)) data
                             (VStr (substring 0 100 s)))).
  { unfold entry_of. rewrite Hdata, Hpreview. reflexivity. }
  do 3 eexists.
  split; [apply (log_device_activity_ok clock _ _ _ _ Hentry)|].
  split; [reflexivity|]. split.
  { unfold log_of at 1. cbn [recent_activities].
    rewrite dict_get_set_eq.
    change 50%nat with (S 49). cbn [firstn hd_error]. reflexivity. }
  do 4 (split; [reflexivity|]).
  split; [apply substring_is_prefix|].
  split; [apply substring_short | apply substring_long].
Qed.

Lemma activity_entry_fields_witness :
  exists r w' entry,
    log_device_activity fast_clock "bot_1"
      (VDict [("content_preview", VStr "hello")]) initial = (Ok r, w')
    /\ hd_error (log_of "bot_1" w') = Some entry
    /\ dict_get "action" entry = Some (VStr "unknown")
    /\ dict_get "success" entry = Some (VBool false)
    /\ dict_get "details" entry = Some (VStr "")
    /\ dict_get "content_preview" entry = Some (VStr "hello").
Proof.
  destruct (activity_entry_fields fast_clock "bot_1"
              (VDict [("content_preview", VStr "hello")])
              [("content_preview", VStr "hello")] "hello" initial
              eq_refl eq_refl)
    as (r & w' & entry & Hrun & _ & Hhd & Haction & Hsuccess & Hdetails
        & Hpreview & _).
  exists r, w', entry. repeat split; assumption.
Defined.

(** ** The storage after any requests *)

Lemma minute_hand_clock_valid n : valid (minute_hand_clock n) = true.
Proof.
  unfold valid, check_fields, minute_hand_clock.
  cbn [year month day hour minute second microsecond].
  pose proof (Z.mod_pos_bound (Z.of_nat n) 60 ltac:(lia)) as H.
  change ((1 <=? 2025) && (2025 <=? 9999)) with true.
  change ((1 <=? 1) && (1 <=? 12)) with true.
  rewrite (proj2 (Z.leb_le 0 (Z.of_nat n mod 60))) by lia.
  rewrite (proj2 (Z.leb_le (Z.of_nat n mod 60) 59)) by lia.
  reflexivity.
Qed.

Lemma one_stale_one_fresh_well_formed : well_formed one_stale_one_fresh.
Proof.
  apply (serve_well_formed minute_hand_clock 0 minute_hand_clock_valid).
  apply initial_well_formed.
Qed.

Lemma most_recent_well_formed device_id w :
  well_formed w -> exists s, most_recent device_id w = Ok (VStr s).
Proof.
  intros (_ & _ & Hlogs). unfold most_recent.
  destruct (dict_get device_id (recent_activities w)) as [[|entry rest]|] eqn:E;
    try (now exists "Never").
  apply dict_get_Some_In in E. apply Hlogs in E.
  inversion E as [|? ? (s & Hs) _]; subst.
  exists s. unfold dict_getitem. now rewrite Hs.
Qed.

(** X9. Whatever requests were served since the start, with whatever
    bodies, the storage is well formed: no key occurs twice in a
    dictionary, every registry row has status 'online' and a last_seen
    that [fromisoformat] reads, every log entry has a timestamp. So the
    lookups a heartbeat and a sweep make on stored data cannot raise. *)
Theorem storage_stays_well_formed clock utcoffset rs :
  (forall n, valid (clock n) = true) ->
  let w := serve clock utcoffset rs initial in
  well_formed w
  /\ (forall id row, In (id, row) (device_statuses w) ->
        dict_get "status" row = Some (VStr "online")
        /\ exists t, last_seen_of row = Ok t)
  /\ (forall id, exists s, most_recent id w = Ok (VStr s))
  /\ exists w', cleanup_offline_devices clock w = (Ok tt, w').
Proof.
  intros Hclock w.
  assert (Hwf : well_formed w).
  { apply (serve_well_formed clock utcoffset Hclock), initial_well_formed. }
  split; [exact Hwf|]. split; [|split].
  - intros id row Hin. destruct Hwf as (_ & Hrows & _).
    pose proof (Hrows id row Hin) as Hrow. split; [apply Hrow|].
    now apply row_ok_parses.
  - intros id. now apply most_recent_well_formed.
  - eexists. now apply cleanup_well_formed.
Qed.

Lemma storage_stays_well_formed_witness :
  well_formed one_stale_one_fresh
  /\ exists s, most_recent "bot_old" one_stale_one_fresh = Ok (VStr s).
Proof.
  destruct (storage_stays_well_formed minute_hand_clock 0
              [ Heartbeat "bot_old" (VDict []);
                Health; Health; Health; Health; Health; Health; Health;
                Health; Health;
                Heartbeat "bot_new" (VDict []) ]
              minute_hand_clock_valid)
    as (Hwf & _ & Hrecent & _).
  split; [exact Hwf | exact (Hrecent "bot_old")].
Defined.

(** X10. On a well-formed storage, so after any requests, a status
    request cannot fail: it answers 200, keeps exactly the rows seen
    within the last ten minutes, and reports as online_devices the same
    number as total_devices, since no request ever stores a status
    other than 'online'. The answer lists the activity logs of all
    devices, the evicted ones included. *)
Theorem status_counts_every_row_online clock w :
  well_formed w ->
  exists r w',
    get_all_status clock w = (Ok r, w')
    /\ status_code r = 200
    /\ device_statuses w'
       = filter (fresh (clock (ticks w))) (device_statuses w)
    /\ dict_get "devices" (body r)
       = Some (statuses_json (device_statuses w'))
    /\ dict_get "total_devices" (body r)
       = Some (VInt (len (device_statuses w')))
    /\ dict_get "online_devices" (body r)
       = dict_get "total_devices" (body r)
    /\ dict_get "recent_activities" (body r)
       = Some (lists_json (recent_activities w))
    /\ recent_activities w' = recent_activities w.
Proof.
  intros Hwf. do 2 eexists.
  split; [apply (get_all_status_well_formed clock w Hwf)|].
  repeat split.
Qed.

Lemma status_counts_every_row_online_witness :
  exists r w',
    get_all_status minute_hand_clock one_stale_one_fresh = (Ok r, w')
    /\ dict_keys (device_statuses one_stale_one_fresh)
       = ["bot_old"; "bot_new"]
    /\ dict_keys (device_statuses w') = ["bot_new"]
    /\ dict_get "total_devices" (body r) = Some (VInt 1)
    /\ dict_get "online_devices" (body r) = Some (VInt 1).
Proof.
  destruct (status_counts_every_row_online minute_hand_clock
              one_stale_one_fresh one_stale_one_fresh_well_formed)
    as (r & w' & Hrun & _ & Hrows & _ & Htotal & Honline & _).
  assert (Hkeys : dict_keys (device_statuses w') = ["bot_new"]).
  { rewrite Hrows. vm_compute. reflexivity. }
  assert (Hone : dict_get "total_devices" (body r) = Some (VInt 1)).
  { rewrite Htotal, Hrows. vm_compute. reflexivity. }
  exists r, w'. split; [exact Hrun|]. split; [reflexivity|].
  split; [exact Hkeys|]. split; [exact Hone|].
  rewrite Honline. exact Hone.
Defined.

(** X11. The home page and the health probe never sweep and never
    write: the three dictionaries are as before. The home page reports
    as connected_devices the number of registry rows as they are, stale
    ones included, so it exceeds the total_devices a status request at
    the same moment reports by exactly the number of stale rows. *)
Theorem home_counts_stale_rows clock w :
  well_formed w ->
  exists rh wh rp wp rs ws total,
    home clock w = (Ok rh, wh)
    /\ same_stores w wh
    /\ health_check clock w = (Ok rp, wp)
    /\ same_stores w wp
    /\ dict_get "connected_devices" (body rh)
       = Some (VInt (len (device_statuses w)))
    /\ get_all_status clock w = (Ok rs, ws)
    /\ dict_get "total_devices" (body rs) = Some (VInt total)
    /\ len (device_statuses w)
       = total
         + len (filter (fun item => stale (clock (ticks w)) (snd item))
                       (device_statuses w)).
Proof.
  intros Hwf. do 7 eexists.
  split; [reflexivity|]. split; [repeat split|].
  split; [reflexivity|]. split; [repeat split|].
  split; [reflexivity|].
  split; [apply (get_all_status_well_formed clock w Hwf)|].
  split; [reflexivity|].
  unfold len. rewrite <- Nat2Z.inj_add. f_equal.
  rewrite <- (filter_length (fresh (clock (ticks w))) (device_statuses w))
    at 1.
  do 2 f_equal. apply filter_ext. intros item. unfold fresh.
  now rewrite negb_involutive.
Qed.

Lemma home_counts_stale_rows_witness :
  exists rh wh rs ws,
    home minute_hand_clock one_stale_one_fresh = (Ok rh, wh)
    /\ dict_get "connected_devices" (body rh) = Some (VInt 2)
    /\ get_all_status minute_hand_clock one_stale_one_fresh = (Ok rs, ws)
    /\ dict_get "total_devices" (body rs) = Some (VInt 1).
Proof.
  destruct (home_counts_stale_rows minute_hand_clock one_stale_one_fresh
              one_stale_one_fresh_well_formed)
    as (rh & wh & _ & _ & rs & ws & total & Hhome & _ & _ & _ & Hconn
        & Hstatus & Htotal & Hsum).
  assert (Hn : len (device_statuses one_stale_one_fresh) = 2)
    by (vm_compute; reflexivity).
  assert (Hs : len (filter
                      (fun item =>
                         stale (minute_hand_clock (ticks one_stale_one_fresh))
                               (snd item))
                      (device_statuses one_stale_one_fresh)) = 1)
    by (vm_compute; reflexivity).
  rewrite Hn, Hs in Hsum.
  assert (Ht : total = 1) by lia.
  subst total.
  exists rh, wh, rs, ws. repeat split; assumption.
Defined.

(** ** The analytics *)

Lemma count_online_all rows :
  (forall id row, In (id, row) rows ->
                  dict_get "status" row = Some (VStr "online")) ->
  count_online rows = len rows.
Proof.
  unfold count_online, len, dict_values. intros H. f_equal.
  induction rows as [|[id row] rows IH]; [reflexivity|].
  cbn [map filter snd]. unfold get_or at 1.
  rewrite (H id row (or_introl eq_refl)).
  cbn [eq_str String.eqb Ascii.eqb Bool.eqb List.length]. f_equal.
  apply IH. intros id' row' Hin. apply (H id' row'). now right.
Qed.

Lemma analytics_data_counts devices data :
  analytics_data devices = Ok data ->
  analytics_field data "fleet_overview" "total_devices"
  = Some (VInt (len devices))
  /\ analytics_field data "fleet_overview" "online_devices"
     = Some (VInt (count_online devices))
  /\ analytics_field data "fleet_overview" "offline_devices"
     = Some (VInt (len devices - count_online devices)).
Proof.
  unfold analytics_data. cbv zeta. intros H. invert_rbind H.
  apply (f_equal (fun r => match r with Ok x => x | Raise _ => data end)) in H.
  cbv beta iota in H. subst data.
  split; [reflexivity|]. split; [reflexivity|].
  match goal with
  | E : py_sub _ _ = Ok ?a |- _ =>
      cbn [py_sub as_num] in E;
      apply (f_equal (fun r => match r with Ok x => x | Raise _ => a end)) in E;
      cbv beta iota in E; subst a
  end.
  reflexivity.
Qed.

(** X12. On a well-formed storage, so after any requests, the
    analytics, when they are returned, count every device that is left
    after the sweep as online: online_devices equals total_devices and
    offline_devices is 0, whatever the devices reported. *)
Theorem analytics_never_count_offline clock w r w' :
  well_formed w ->
  get_analytics clock w = (Ok r, w') ->
  status_code r = 200 ->
  exists data,
    dict_get "analytics" (body r) = Some (VDict data)
    /\ device_statuses w'
       = filter (fresh (clock (ticks w))) (device_statuses w)
    /\ analytics_field data "fleet_overview" "total_devices"
       = Some (VInt (len (device_statuses w')))
    /\ analytics_field data "fleet_overview" "online_devices"
       = Some (VInt (len (device_statuses w')))
    /\ analytics_field data "fleet_overview" "offline_devices"
       = Some (VInt 0).
Proof.
  intros Hwf Hrun Hstatus. revert Hrun.
  unfold get_analytics, try_except, bind at 1.
  rewrite (cleanup_well_formed clock w Hwf).
  unfold bind, gets, lift, ret, now. cbn [device_statuses].
  set (rows := filter (fresh (clock (ticks w))) (device_statuses w)).
  destruct (analytics_data rows) as [data|e] eqn:E; intros Hrun.
  - injection Hrun as Hr Hw.
    assert (Hrows : device_statuses w' = rows) by (now rewrite <- Hw).
    assert (Hbody : dict_get "analytics" (body r) = Some (VDict data))
      by (now rewrite <- Hr).
    destruct (analytics_data_counts _ _ E) as (Htotal & Honline & Hoffline).
    assert (Hall : count_online rows = len rows).
    { apply count_online_all. intros id row Hin. unfold rows in Hin.
      apply filter_In in Hin. destruct Hwf as (_ & Hok & _).
      now apply (Hok id row). }
    rewrite Hall in Honline, Hoffline. rewrite Z.sub_diag in Hoffline.
    exists data. rewrite Hrows. auto.
  - injection Hrun as Hr Hw. rewrite <- Hr in Hstatus.
    cbn [status_code] in Hstatus. discriminate.
Qed.

Lemma three_busy_devices_well_formed : well_formed three_busy_devices.
Proof.
  apply (serve_well_formed fast_clock 0 fast_clock_valid).
  apply initial_well_formed.
Qed.

Lemma analytics_never_count_offline_witness :
  exists r w' data,
    get_analytics fast_clock three_busy_devices = (Ok r, w')
    /\ dict_get "analytics" (body r) = Some (VDict data)
    /\ analytics_field data "fleet_overview" "online_devices"
       = Some (VInt 3)
    /\ analytics_field data "fleet_overview" "offline_devices"
       = Some (VInt 0).
Proof.
  destruct (get_analytics fast_clock three_busy_devices) as [[r|e] w'] eqn:E;
    [|vm_compute in E; discriminate].
  assert (Hs : status_code r = 200)
    by (vm_compute in E; injection E as <- _; reflexivity).
  destruct (analytics_never_count_offline fast_clock three_busy_devices r w'
              three_busy_devices_well_formed E Hs)
    as (data & Hbody & Hrows & _ & Honline & Hoffline).
  exists r, w', data. split; [reflexivity|]. split; [exact Hbody|].
  split; [|exact Hoffline].
  rewrite Honline, Hrows. vm_compute. reflexivity.
Defined.

(** *** The ranking *)

Section Ranking.
Context {A : Type}.
Variable key : A -> pyval.

Lemma insert_sorted_perm x l : Permutation (x :: l) (insert_sorted key x l).
Proof.
  induction l as [|y l IH]; cbn [insert_sorted]; [reflexivity|].
  destruct (key_lt key y x); [|reflexivity].
  rewrite perm_swap. now apply perm_skip.
Qed.

Lemma sort_by_key_perm l : Permutation l (sort_by_key key l).
Proof.
  unfold sort_by_key. induction l as [|x l IH]; cbn [fold_right]; [constructor|].
  rewrite <- insert_sorted_perm. now apply perm_skip.
Qed.

Lemma sort_by_key_reverse_perm l : Permutation l (sort_by_key_reverse key l).
Proof.
  unfold sort_by_key_reverse.
  rewrite <- Permutation_rev, <- sort_by_key_perm. apply Permutation_rev.
Qed.

Lemma top_three (l : list A) :
  (if 3 <=? len l then firstn 3 l else l) = firstn 3 l.
Proof.
  destruct (3 <=? len l) eqn:E; [reflexivity|].
  symmetry. apply firstn_all2. unfold len in E. apply Z.leb_gt in E. lia.
Qed.

Lemma key_lt_ints x y :
  is_int (key x) = true -> is_int (key y) = true ->
  key_lt key x y = (int_of (key x) <? int_of (key y)).
Proof.
  unfold key_lt, py_lt.
  destruct (key x) as [|b|zx|f|s|l|d]; try discriminate.
  destruct (key y) as [|b|zy|f|s|l|d]; try discriminate.
  intros _ _. cbn [as_num num_compare int_of]. unfold Z.ltb.
  now destruct (zx ?= zy).
Qed.

Lemma insert_sorted_sorted x l :
  is_int (key x) = true -> Forall (fun a => is_int (key a) = true) l ->
  StronglySorted (key_le key) l -> StronglySorted (key_le key) (insert_sorted key x l).
Proof.
  intros Hx Hints Hsorted.
  induction Hsorted as [|y l Hl IH Hy]; cbn [insert_sorted].
  - repeat constructor.
  - inversion Hints as [|? ? Hyi Hli]; subst.
    rewrite key_lt_ints by assumption.
    destruct (int_of (key y) <? int_of (key x)) eqn:E.
    + apply Z.ltb_lt in E. constructor; [now apply IH|].
      apply (Permutation_Forall (insert_sorted_perm x l)).
      constructor; [unfold key_le; lia | exact Hy].
    + apply Z.ltb_ge in E. constructor; [now constructor|].
      constructor; [exact E|].
      apply (Forall_impl _ (P := key_le key y)); [|exact Hy].
      unfold key_le. intros a Ha. lia.
Qed.

Lemma sort_by_key_sorted l :
  Forall (fun a => is_int (key a) = true) l ->
  StronglySorted (key_le key) (sort_by_key key l).
Proof.
  unfold sort_by_key. induction 1 as [|x l Hx Hl IH]; cbn [fold_right].
  - constructor.
  - apply insert_sorted_sorted; [exact Hx | | exact IH].
    apply (Permutation_Forall (sort_by_key_perm l)). exact Hl.
Qed.

Lemma StronglySorted_app (R : A -> A -> Prop) l1 l2 :
  StronglySorted R l1 -> StronglySorted R l2 ->
  (forall a b, In a l1 -> In b l2 -> R a b) ->
  StronglySorted R (l1 ++ l2).
Proof.
  intros H1 H2 H12. induction H1 as [|x l1 Hl1 IH Hx]; [exact H2|].
  cbn [app]. constructor.
  - apply IH. intros a b Ha Hb. apply H12; [now right | exact Hb].
  - apply Forall_app. split; [exact Hx|].
    apply Forall_forall. intros b Hb. apply H12; [now left | exact Hb].
Qed.

Lemma StronglySorted_rev (R : A -> A -> Prop) l :
  StronglySorted R l -> StronglySorted (fun a b => R b a) (rev l).
Proof.
  induction 1 as [|x l Hl IH Hx]; cbn [rev]; [constructor|].
  apply StronglySorted_app; [exact IH | repeat constructor|].
  intros a b Ha [<-|[]]. apply in_rev in Ha.
  now apply (proj1 (Forall_forall _ _) Hx).
Qed.

Lemma sort_by_key_reverse_sorted l :
  Forall (fun a => is_int (key a) = true) l ->
  StronglySorted (fun a b => key_le key b a) (sort_by_key_reverse key l).
Proof.
  intros H. unfold sort_by_key_reverse. apply StronglySorted_rev.
  apply sort_by_key_sorted.
  apply (Permutation_Forall (Permutation_rev l)). exact H.
Qed.
End Ranking.

Lemma device_details_fold devices : forall acc details,
  fold_result
    (fun details '(device_id, device_data) =>
       rbind (device_detail device_id device_data)
             (fun entry => Ok (details ++ [entry])))
    devices acc = Ok details ->
  exists ds,
    details = acc ++ ds
    /\ Forall2 (fun dev d => device_detail (fst dev) (snd dev) = Ok d)
               devices ds.
Proof.
  induction devices as [|[id row] devices IH]; intros acc details;
    cbn [fold_result].
  - intros H. exists []. split; [|constructor].
    rewrite app_nil_r. congruence.
  - destruct (device_detail id row) as [d|e] eqn:E; cbn [rbind];
      [|discriminate].
    intros H. destruct (IH _ _ H) as (ds & -> & Hds).
    exists (d :: ds). split; [now rewrite <- app_assoc|].
    constructor; [exact E | exact Hds].
Qed.

Lemma analytics_data_ranking devices data :
  analytics_data devices = Ok data ->
  exists details,
    Forall2 (fun dev d => device_detail (fst dev) (snd dev) = Ok d)
            devices details
    /\ dict_get "device_details" data
       = Some (VList (map VDict (sort_by_key_reverse total_key details)))
    /\ dict_get "top_performers" data
       = Some (VList (map VDict
            (firstn 3 (sort_by_key_reverse total_key details)))).
Proof.
  unfold analytics_data. cbv zeta. intros H. invert_rbind H.
  rewrite top_three in H.
  apply (f_equal (fun r => match r with Ok x => x | Raise _ => data end)) in H.
  cbv beta iota in H. subst data.
  match goal with
  | E : device_details_of devices = Ok ?ds |- _ =>
      destruct (device_details_fold _ _ _ E) as (ds' & Heq & Hds);
      cbn [app] in Heq; subst ds'; exists ds
  end.
  split; [exact Hds|]. split; reflexivity.
Qed.

(** X13. The device_details of the analytics hold one entry for each
    device left after the sweep, the entry [device_detail] builds for
    it, rearranged by the sort; and top_performers are the first three
    entries of device_details, all of them when there are fewer than
    three. *)
Theorem analytics_rank_every_device devices data :
  analytics_data devices = Ok data ->
  exists details ranking,
    Forall2 (fun dev d => device_detail (fst dev) (snd dev) = Ok d)
            devices details
    /\ Permutation details ranking
    /\ List.length ranking = List.length devices
    /\ dict_get "device_details" data = Some (VList (map VDict ranking))
    /\ dict_get "top_performers" data
       = Some (VList (map VDict (firstn 3 ranking))).
Proof.
  intros H. destruct (analytics_data_ranking _ _ H) as (details & Hds & Hd & Ht).
  exists details, (sort_by_key_reverse total_key details).
  split; [exact Hds|]. split; [apply sort_by_key_reverse_perm|].
  split; [|split; assumption].
  rewrite <- (Permutation_length (sort_by_key_reverse_perm total_key details)).
  symmetry. exact (Forall2_length Hds).
Qed.

Lemma analytics_rank_every_device_witness :
  exists data ranking,
    analytics_data (device_statuses three_busy_devices) = Ok data
    /\ List.length ranking = 3%nat
    /\ dict_get "device_details" data = Some (VList (map VDict ranking))
    /\ dict_get "top_performers" data
       = Some (VList (map VDict (firstn 3 ranking))).
Proof.
  destruct (analytics_data (device_statuses three_busy_devices))
    as [data|e] eqn:E; [|vm_compute in E; discriminate].
  destruct (analytics_rank_every_device _ data E)
    as (details & ranking & _ & _ & Hlen & Hd & Ht).
  exists data, ranking. split; [reflexivity|]. split; [exact Hlen|].
  split; assumption.
Defined.

Lemma Forall2_in_right {A B} (R : A -> B -> Prop) l l' :
  Forall2 R l l' -> forall b, In b l' -> exists a, In a l /\ R a b.
Proof.
  induction 1 as [|a b l l' Hab Hl IH]; intros b' Hin; [destruct Hin|].
  destruct Hin as [<-|Hin].
  - exists a. split; [now left | exact Hab].
  - destruct (IH _ Hin) as (a' & Ha' & HR). exists a'. split; [now right|].
    exact HR.
Qed.

Lemma StronglySorted_cross {A} (R : A -> A -> Prop) l1 l2 :
  StronglySorted R (l1 ++ l2) ->
  forall a b, In a l1 -> In b l2 -> R a b.
Proof.
  induction l1 as [|x l1 IH]; cbn [app]; intros H a b Ha Hb; [destruct Ha|].
  inversion H as [|? ? Hs Hx]; subst. destruct Ha as [<-|Ha].
  - apply (proj1 (Forall_forall _ _) Hx). apply in_or_app. now right.
  - now apply IH.
Qed.

Lemma device_detail_int_total device_id row m d :
  int_actions row = Some m ->
  device_detail device_id row = Ok d ->
  dict_get "id" d = Some (VStr device_id)
  /\ dict_get "total_actions" d = Some (VInt (sum_values m)).
Proof.
  unfold int_actions, device_detail. intros Hm.
  destruct (get_or row "actions_today" (VDict [])) as [| | | | | |m'];
    try discriminate.
  destruct (forallb is_int (dict_values m')) eqn:Hints; [|discriminate].
  assert (m' = m) as -> by congruence.
  cbn [sum_actions]. unfold py_sum. rewrite sum_from_ints by exact Hints.
  cbn [rbind Z.add]. intros H.
  apply (f_equal (fun r => match r with Ok x => x | Raise _ => d end)) in H.
  cbv beta iota in H. subst d. split; reflexivity.
Qed.

(** X14. When every device left after the sweep reports a mapping
    of integers as actions_today, every entry of device_details carries
    as total_actions the sum of its device's counts, the entries come
    in descending order of total_actions, and no device outside
    top_performers has a higher total than one inside. *)
Theorem analytics_ranking_descends devices data :
  (forall id row, In (id, row) devices -> int_actions row <> None) ->
  analytics_data devices = Ok data ->
  exists ranking,
    dict_get "device_details" data = Some (VList (map VDict ranking))
    /\ dict_get "top_performers" data
       = Some (VList (map VDict (firstn 3 ranking)))
    /\ (forall d, In d ranking ->
          exists id row m,
            In (id, row) devices
            /\ int_actions row = Some m
            /\ dict_get "id" d = Some (VStr id)
            /\ dict_get "total_actions" d = Some (VInt (sum_values m)))
    /\ ranked ranking
    /\ (forall top rest,
          In top (firstn 3 ranking) -> In rest (skipn 3 ranking) ->
          int_of (total_key rest) <= int_of (total_key top)).
Proof.
  intros Hints H.
  destruct (analytics_data_ranking _ _ H) as (details & Hds & Hd & Ht).
  assert (Hdetail : forall d, In d details ->
            exists id row m,
              In (id, row) devices
              /\ int_actions row = Some m
              /\ dict_get "id" d = Some (VStr id)
              /\ dict_get "total_actions" d = Some (VInt (sum_values m))).
  { intros d Hin.
    destruct (Forall2_in_right _ _ _ Hds d Hin) as ([id row] & Hdev & Hrun).
    cbn [fst snd] in Hrun.
    destruct (int_actions row) as [m|] eqn:Hm;
      [|now destruct (Hints id row Hdev)].
    destruct (device_detail_int_total _ _ _ _ Hm Hrun) as (Hid & Htotal).
    exists id, row, m. auto. }
  assert (Hsorted : ranked (sort_by_key_reverse total_key details)).
  { apply sort_by_key_reverse_sorted. apply Forall_forall. intros d Hin.
    destruct (Hdetail d Hin) as (id & row & m & _ & _ & _ & Htotal).
    unfold total_key, get_or. now rewrite Htotal. }
  exists (sort_by_key_reverse total_key details).
  split; [exact Hd|]. split; [exact Ht|]. split; [|split].
  - intros d Hin. apply Hdetail.
    apply (Permutation_in _
             (Permutation_sym (sort_by_key_reverse_perm total_key details))).
    exact Hin.
  - exact Hsorted.
  - intros top rest Htop Hrest. unfold ranked in Hsorted.
    rewrite <- (firstn_skipn 3 (sort_by_key_reverse total_key details))
      in Hsorted.
    exact (StronglySorted_cross _ _ _ Hsorted top rest Htop Hrest).
Qed.

Lemma analytics_ranking_descends_witness :
  exists data ranking,
    analytics_data (device_statuses three_busy_devices) = Ok data
    /\ dict_get "device_details" data = Some (VList (map VDict ranking))
    /\ map (fun d => dict_get "id" d) ranking
       = [Some (VStr "bot_2"); Some (VStr "bot_3"); Some (VStr "bot_1")]
    /\ ranked ranking.
Proof.
  destruct (analytics_data (device_statuses three_busy_devices))
    as [data|e] eqn:E; [|vm_compute in E; discriminate].
  assert (Hints : forall id row,
            In (id, row) (device_statuses three_busy_devices) ->
            int_actions row <> None).
  { intros id row Hin. vm_compute in Hin.
    destruct Hin as [Hin|[Hin|[Hin|[]]]]; injection Hin as <- <-;
      vm_compute; discriminate. }
  destruct (analytics_ranking_descends _ data Hints E)
    as (ranking & Hd & _ & _ & Hranked & _).
  exists data, ranking. split; [reflexivity|]. split; [exact Hd|].
  split; [|exact Hranked].
  vm_compute in E. injection E as <-.
  cbn [dict_get String.eqb Ascii.eqb Bool.eqb] in Hd.
  injection Hd as Hd. apply (f_equal (map (fun v => match v with
                                                     | VDict d => d
                                                     | _ => []
                                                     end))) in Hd.
  rewrite map_map, map_id in Hd. rewrite <- Hd. vm_compute. reflexivity.
Defined.

(** *** Counts that are not numbers *)

Lemma py_add_numeric op a b c :
  as_num a <> None -> as_num b <> None ->
  py_add op a b = Ok c -> as_num c <> None.
Proof.
  unfold py_add. intros Ha Hb.
  destruct (as_num a) as [[x|f]|]; [| |congruence];
    destruct (as_num b) as [[y|g]|]; try congruence; cbn [rbind].
  - intros [= <-]. discriminate.
  - destruct (int_to_float x); cbn [rbind]; [|discriminate].
    intros [= <-]. discriminate.
  - destruct (int_to_float y); cbn [rbind]; [|discriminate].
    intros [= <-]. discriminate.
  - intros [= <-]. discriminate.
Qed.

Lemma py_add_non_numeric op a b :
  as_num a <> None -> as_num b = None ->
  py_add op a b = Raise (unsupported op a b).
Proof.
  unfold py_add. intros Ha Hb. rewrite Hb.
  destruct a; cbn [as_num] in *; try congruence; reflexivity.
Qed.

Lemma sum_from_non_numeric v xs : forall acc,
  as_num acc <> None -> In v xs -> as_num v = None ->
  exists e, sum_from acc xs = Raise e.
Proof.
  induction xs as [|x xs IH]; intros acc Hacc Hin Hv; [destruct Hin|].
  cbn [sum_from]. destruct (as_num x) eqn:Hx.
  - destruct Hin as [->|Hin]; [congruence|].
    destruct (py_add "+" acc x) as [acc'|e] eqn:E; cbn [rbind];
      [|eexists; reflexivity].
    apply (IH acc'); [|exact Hin|exact Hv].
    apply (py_add_numeric _ _ _ _ Hacc) in E; [exact E | congruence].
  - rewrite py_add_non_numeric by assumption. cbn [rbind].
    eexists. reflexivity.
Qed.

Lemma add_device_non_numeric acc row m v :
  dict_get "actions_today" row = Some (VDict m) ->
  In v (dict_values m) -> as_num v = None ->
  exists e, add_device acc row = Raise e.
Proof.
  intros Hm Hin Hv.
  assert (Hget : get_or row "actions_today" (VDict []) = VDict m)
    by (unfold get_or; now rewrite Hm).
  destruct (sum_from_non_numeric v (dict_values m) (VInt 0)
              ltac:(discriminate) Hin Hv) as (e0 & Hsum).
  unfold add_device. rewrite Hget.
  cbn [py_get sum_actions rbind]. unfold py_sum. rewrite Hsum.
  repeat match goal with
         | |- exists e, Raise _ = Raise e => eexists; reflexivity
         | |- exists e, rbind (Raise _) _ = Raise e =>
             cbn [rbind]; eexists; reflexivity
         | |- exists e, rbind ?r _ = Raise e =>
             destruct r; cbn [rbind]; [|eexists; reflexivity]
         end.
Qed.

Lemma fold_result_raises {A S} (f : S -> A -> result S) x xs :
  In x xs -> (forall s, exists e, f s x = Raise e) ->
  forall s, exists e, fold_result f xs s = Raise e.
Proof.
  intros Hin Hx. induction xs as [|y xs IH]; [destruct Hin|].
  intros s. cbn [fold_result]. destruct Hin as [->|Hin].
  - destruct (Hx s) as (e & ->). cbn [rbind]. eexists. reflexivity.
  - destruct (f s y) as [s'|e]; cbn [rbind]; [|eexists; reflexivity].
    now apply IH.
Qed.

(** X15. One count that is not a number is enough to lose the
    analytics of the whole fleet: when a device seen within the last
    ten minutes has stored an actions_today mapping with a value that
    is neither an integer, a float nor a boolean, the analytics request
    answers 500 with an error message and no figures. *)
Theorem analytics_fail_on_non_numeric_count clock w id row m v :
  well_formed w ->
  In (id, row) (device_statuses w) ->
  fresh (clock (ticks w)) (id, row) = true ->
  dict_get "actions_today" row = Some (VDict m) ->
  In v (dict_values m) -> as_num v = None ->
  exists msg w',
    get_analytics clock w
    = (Ok (mkResponse [("error", VStr msg)] 500), w').
Proof.
  intros Hwf Hin Hfresh Hm Hv Hnum.
  unfold get_analytics, try_except, bind at 1.
  rewrite (cleanup_well_formed clock w Hwf).
  unfold bind, gets, lift. cbn [device_statuses].
  assert (Hin' : In row (dict_values
                           (filter (fresh (clock (ticks w)))
                                   (device_statuses w)))).
  { unfold dict_values. apply in_map_iff. exists (id, row).
    split; [reflexivity|]. apply filter_In. auto. }
  unfold analytics_data. cbv zeta.
  destruct (fold_result_raises add_device row _ Hin'
              (fun acc => add_device_non_numeric acc row m v Hm Hv Hnum)
              zero_totals) as (e & ->).
  cbn [rbind]. exists (str_exn e). eexists. reflexivity.
Qed.

Lemma count_not_a_number_well_formed : well_formed count_not_a_number.
Proof.
  apply (serve_well_formed fast_clock 0 fast_clock_valid).
  apply initial_well_formed.
Qed.

Lemma analytics_fail_on_non_numeric_count_witness :
  exists msg w',
    get_analytics fast_clock count_not_a_number
    = (Ok (mkResponse [("error", VStr msg)] 500), w').
Proof.
  refine (analytics_fail_on_non_numeric_count fast_clock count_not_a_number
            "bot_1" _ [("tweets", VInt 1); ("likes", VStr "many")]
            (VStr "many") count_not_a_number_well_formed _ _ _ _ _).
  - vm_compute. left. reflexivity.
  - vm_compute. reflexivity.
  - reflexivity.
  - right. left. reflexivity.
  - reflexivity.
Defined.

(** ** Which request writes which dictionary *)

Section WriteFacts.
Variable clock : nat -> datetime.
Variable utcoffset : Z.

Lemma add_command_keeps_statuses device_id action params :
  respects (same device_statuses)
           (add_command clock utcoffset device_id action params).
Proof. unfold add_command. keeps. Qed.

Lemma stop_each_keeps_statuses ids : forall stopped,
  respects (same device_statuses) (stop_each clock utcoffset ids stopped).
Proof.
  induction ids as [|id ids IH]; intros stopped; simpl.
  - keeps.
  - apply (respects_bind _ (same_trans device_statuses));
      [apply add_command_keeps_statuses | intros _; apply IH].
Qed.

Lemma handle_keeps_statuses r :
  match r with
  | Heartbeat _ _ | Activity _ _ | StatusAll | Analytics => True
  | _ => respects (same device_statuses) (handle clock utcoffset r)
  end.
Proof.
  destruct r; try exact I; simpl;
    unfold get_pending_commands, stop_device, restart_device,
      emergency_stop_all, home, health_check;
    keeps;
    first [apply add_command_keeps_statuses
          | apply stop_each_keeps_statuses].
Qed.

Lemma handle_keeps_queues r :
  match r with
  | Commands _ | Stop _ | Restart _ _ | EmergencyStopAll => True
  | _ => respects (same command_queues) (handle clock utcoffset r)
  end.
Proof.
  destruct r; try exact I; simpl;
    unfold device_heartbeat, log_device_activity, get_all_status,
      get_analytics, home, health_check, cleanup_offline_devices;
    keeps.
Qed.
End WriteFacts.

(** X16. Each dictionary is written by a fixed set of requests, on
    success and on failure alike. The activity logs change only on an
    activity report; the command queues only on a poll, a stop, a
    restart and an emergency stop; the registry only on a heartbeat, an
    activity report, a status request and an analytics request. In
    particular eviction never removes a log or a queue, and queueing a
    command never registers a device. *)
Theorem requests_write_their_own_dictionaries clock utcoffset r w :
  let w' := snd (handle clock utcoffset r w) in
  match r with
  | Heartbeat _ _ =>
      command_queues w' = command_queues w
      /\ recent_activities w' = recent_activities w
  | Activity _ _ => command_queues w' = command_queues w
  | Commands _ | Stop _ | Restart _ _ | EmergencyStopAll =>
      device_statuses w' = device_statuses w
      /\ recent_activities w' = recent_activities w
  | StatusAll | Analytics =>
      command_queues w' = command_queues w
      /\ recent_activities w' = recent_activities w
  | Home | Health => same_stores w w'
  end.
Proof.
  pose proof (handle_keeps_activities clock utcoffset r) as Ha.
  pose proof (handle_keeps_statuses clock utcoffset r) as Hs.
  pose proof (handle_keeps_queues clock utcoffset r) as Hq.
  destruct r; cbv zeta; unfold same_stores;
    repeat split;
    first [apply (Ha w) | apply (Hs w) | apply (Hq w)].
Qed.

(** ** Every request is answered *)

Lemma returns_only_ret {A} (P : A -> Prop) a : P a -> returns_only P (ret a).
Proof. intros H w. exact H. Qed.

Lemma returns_only_bind {A B} (P : B -> Prop) (m : M A) (k : A -> M B) :
  (forall x, returns_only P (k x)) -> returns_only P (bind m k).
Proof.
  intros Hk w. unfold bind. destruct (m w) as [[a|e] w1]; [|exact I].
  apply Hk.
Qed.

Lemma answers_ret {A} (P : A -> Prop) a : P a -> answers P (ret a).
Proof. intros H w. exact H. Qed.

Lemma answers_try {A} (P : A -> Prop) (m : M A) (h : exn -> M A) :
  returns_only P m -> (forall e, answers P (h e)) ->
  answers P (try_except m h).
Proof.
  intros Hm Hh w. unfold try_except. specialize (Hm w).
  destruct (m w) as [[a|e] w1]; [exact Hm | apply Hh].
Qed.

Ltac answered :=
  apply answers_try;
  [ cbv zeta; repeat (apply returns_only_bind; intros ?);
    apply returns_only_ret
  | intros ?; apply answers_ret ].

Lemma handle_answers clock utcoffset r :
  answers (status_allowed r) (handle clock utcoffset r).
Proof.
  destruct r; cbn [handle status_allowed];
    try (intros w; reflexivity);
    unfold device_heartbeat, log_device_activity, get_pending_commands,
      stop_device, restart_device, emergency_stop_all, get_all_status,
      get_analytics;
    answered; unfold status_allowed, jsonify; cbn [status_code]; auto.
Qed.

(** X17. No exception escapes a handler: every request, with any
    body and on any storage, is answered, with status 200 or 500. A
    poll for commands, the home page and the health probe are always
    answered with 200. *)
Theorem every_request_is_answered clock utcoffset r w :
  exists resp w',
    handle clock utcoffset r w = (Ok resp, w')
    /\ (status_code resp = 200 \/ status_code resp = 500)
    /\ match r with
       | Commands _ | Home | Health => status_code resp = 200
       | _ => True
       end.
Proof.
  pose proof (handle_answers clock utcoffset r w) as H.
  destruct (handle clock utcoffset r w) as [[resp|e] w'] eqn:E;
    cbn [fst] in H; [|destruct H].
  exists resp, w'. split; [reflexivity|].
  destruct r; cbn [status_allowed] in H; auto.
Qed.

(** ** The fields of a registry row *)

Lemma dict_del_incl {V} k (d : list (string * V)) : incl (dict_del k d) d.
Proof.
  induction d as [|[k' v'] d IH]; cbn [dict_del]; [apply incl_refl|].
  destruct (String.eqb k k').
  - apply incl_tl, incl_refl.
  - intros x [<-|Hx]; [now left | right; now apply IH].
Qed.

Lemma rows_shrink_refl w : rows_shrink w w.
Proof. apply incl_refl. Qed.

Lemma rows_shrink_trans a b c :
  rows_shrink a b -> rows_shrink b c -> rows_shrink a c.
Proof. unfold rows_shrink. intros Hab Hbc. exact (incl_tran Hbc Hab). Qed.

Ltac shrinks :=
  step_respects rows_shrink_refl rows_shrink_trans;
  try (intros ?; first [apply incl_refl | apply dict_del_incl]).

Lemma sweeping_requests_shrink clock :
  respects rows_shrink (get_all_status clock)
  /\ respects rows_shrink (get_analytics clock).
Proof.
  split; unfold get_all_status, get_analytics, cleanup_offline_devices;
    shrinks.
Qed.

Lemma device_heartbeat_statuses clock device_id json w :
  device_statuses (snd (device_heartbeat clock device_id json w))
  = device_statuses w
  \/ exists data la,
       device_statuses (snd (device_heartbeat clock device_id json w))
       = dict_set device_id (status_row (clock (ticks w)) data la)
                  (device_statuses w).
Proof.
  destruct (most_recent device_id w) as [la|e] eqn:Hrecent.
  - destruct (py_or json (VDict [])) as [| | | | | |data] eqn:Hdata;
      try (left; unfold device_heartbeat; rewrite Hdata;
           unfold most_recent in Hrecent;
           unfold try_except, bind, gets, lift, ret, now, modify;
           destruct (dict_get device_id (recent_activities w))
             as [[|entry rest]|];
           try rewrite Hrecent; reflexivity).
    right. exists data, la.
    now rewrite (device_heartbeat_ok clock device_id json data la w).
  - left. unfold device_heartbeat. unfold most_recent in Hrecent.
    unfold try_except, bind, gets, lift, ret, now, modify.
    destruct (dict_get device_id (recent_activities w))
      as [[|entry rest]|]; try discriminate.
    rewrite Hrecent. reflexivity.
Qed.

Lemma handle_rows_shaped clock utcoffset r w :
  rows_shaped w -> rows_shaped (snd (handle clock utcoffset r w)).
Proof.
  intros Hw.
  assert (Hsame : device_statuses (snd (handle clock utcoffset r w))
                  = device_statuses w ->
                  rows_shaped (snd (handle clock utcoffset r w))).
  { intros Heq id row Hin. rewrite Heq in Hin. now apply (Hw id). }
  assert (Hshrink : rows_shrink w (snd (handle clock utcoffset r w)) ->
                    rows_shaped (snd (handle clock utcoffset r w))).
  { intros Hincl id row Hin. apply (Hw id). now apply Hincl. }
  pose proof (handle_keeps_statuses clock utcoffset r) as Hkeeps.
  destruct r; cbn [handle] in *;
    try (apply Hsame; apply (Hkeeps w)).
  - destruct (device_heartbeat_statuses clock device_id json w)
      as [Heq | (data & la & Heq)]; [now apply Hsame|].
    intros id row Hin. rewrite Heq in Hin. apply In_dict_set in Hin.
    destruct Hin as [[_ ->] | Hin]; [reflexivity | now apply (Hw id)].
  - destruct (entry_of (clock (ticks w)) json) as [entry|] eqn:E.
    + rewrite (log_device_activity_ok clock device_id json entry w E).
      cbn [snd]. intros id row Hin. cbn [device_statuses] in Hin.
      unfold touch in Hin.
      destruct (dict_get device_id (device_statuses w)) as [row0|] eqn:E0;
        [|now apply (Hw id)].
      apply In_dict_set in Hin. destruct Hin as [[_ ->] | Hin];
        [|now apply (Hw id)].
      apply dict_get_Some_In in E0. apply Hw in E0.
      rewrite dict_keys_set_present; [exact E0|].
      rewrite E0. unfold heartbeat_fields. cbn [In]. tauto.
    + destruct (log_device_activity_rejected clock device_id json w E)
        as [e Hrun].
      apply Hsame. now rewrite Hrun.
  - apply Hshrink. apply (proj1 (sweeping_requests_shrink clock) w).
  - apply Hshrink. apply (proj2 (sweeping_requests_shrink clock) w).
Qed.

Lemma serve_rows_shaped clock utcoffset rs : forall w,
  rows_shaped w -> rows_shaped (serve clock utcoffset rs w).
Proof.
  induction rs as [|r rs IH]; intros w Hw; [exact Hw|].
  cbn [serve]. apply IH. now apply handle_rows_shaped.
Qed.

Lemma device_detail_fields device_id row d :
  device_detail device_id row = Ok d ->
  dict_get "id" d = Some (VStr device_id)
  /\ dict_get "status" d = Some (get_or row "status" (VStr "unknown"))
  /\ dict_get "memory_usage" d = Some (get_or row "memory_usage" (VInt 0)).
Proof.
  unfold device_detail.
  destruct (sum_actions (get_or row "actions_today" (VDict [])));
    cbn [rbind]; [|discriminate].
  intros H.
  apply (f_equal (fun r => match r with Ok x => x | Raise _ => d end)) in H.
  cbv beta iota in H. subst d. repeat split.
Qed.

Lemma get_analytics_returned clock w r w' :
  well_formed w ->
  get_analytics clock w = (Ok r, w') ->
  status_code r = 200 ->
  exists data,
    analytics_data (filter (fresh (clock (ticks w))) (device_statuses w))
    = Ok data
    /\ dict_get "analytics" (body r) = Some (VDict data).
Proof.
  intros Hwf Hrun Hstatus. revert Hrun.
  unfold get_analytics, try_except, bind at 1.
  rewrite (cleanup_well_formed clock w Hwf).
  unfold bind, gets, lift, ret, now. cbn [device_statuses].
  destruct (analytics_data
              (filter (fresh (clock (ticks w))) (device_statuses w)))
    as [data|e] eqn:E; intros Hrun; injection Hrun as Hr Hw.
  - exists data. split; [reflexivity|]. now rewrite <- Hr.
  - rewrite <- Hr in Hstatus. cbn [status_code] in Hstatus. discriminate.
Qed.

(** X18. After any requests every registry row has exactly the nine
    fields a heartbeat writes, so it has no memory_usage: in the
    analytics, when they are returned, every entry of device_details
    shows memory_usage 0, whatever the devices reported, and status
    'online'. *)
Theorem analytics_memory_usage_is_zero clock utcoffset rs r w' :
  (forall n, valid (clock n) = true) ->
  get_analytics clock (serve clock utcoffset rs initial) = (Ok r, w') ->
  status_code r = 200 ->
  (forall id row,
     In (id, row) (device_statuses (serve clock utcoffset rs initial)) ->
     dict_keys row = heartbeat_fields)
  /\ exists data ranking,
       dict_get "analytics" (body r) = Some (VDict data)
       /\ dict_get "device_details" data = Some (VList (map VDict ranking))
       /\ forall d, In d ranking ->
            dict_get "memory_usage" d = Some (VInt 0)
            /\ dict_get "status" d = Some (VStr "online").
Proof.
  intros Hclock Hrun Hstatus.
  set (w := serve clock utcoffset rs initial) in *.
  assert (Hwf : well_formed w).
  { apply (serve_well_formed clock utcoffset Hclock), initial_well_formed. }
  assert (Hshape : rows_shaped w).
  { apply serve_rows_shaped. intros id row []. }
  split; [exact Hshape|].
  destruct (get_analytics_returned clock w r w' Hwf Hrun Hstatus)
    as (data & Hdata & Hbody).
  destruct (analytics_data_ranking _ _ Hdata) as (details & Hds & Hd & _).
  exists data, (sort_by_key_reverse total_key details).
  split; [exact Hbody|]. split; [exact Hd|].
  intros d Hin.
  apply (Permutation_in _
           (Permutation_sym (sort_by_key_reverse_perm total_key details)))
    in Hin.
  destruct (Forall2_in_right _ _ _ Hds d Hin) as ([id row] & Hdev & Hdetail).
  cbn [fst snd] in Hdetail. apply filter_In in Hdev. destruct Hdev as (Hdev & _).
  destruct (device_detail_fields _ _ _ Hdetail) as (_ & Hst & Hmem).
  rewrite Hst, Hmem. unfold get_or.
  destruct Hwf as (_ & Hrows & _).
  destruct (Hrows id row Hdev) as (Honline & _). rewrite Honline.
  assert (Hnone : dict_get "memory_usage" row = None).
  { apply dict_get_None. rewrite (Hshape id row Hdev).
    unfold heartbeat_fields. cbn [In].
    intros H. repeat (destruct H as [H|H]; [discriminate|]). exact H. }
  rewrite Hnone. split; reflexivity.
Qed.

Lemma analytics_memory_usage_is_zero_witness :
  exists r w' data ranking,
    get_analytics fast_clock
      (serve fast_clock 0
         [Heartbeat "bot_1" (VDict [("memory_usage", VInt 73)])] initial)
    = (Ok r, w')
    /\ dict_get "analytics" (body r) = Some (VDict data)
    /\ dict_get "device_details" data = Some (VList (map VDict ranking))
    /\ ranking <> []
    /\ forall d, In d ranking -> dict_get "memory_usage" d = Some (VInt 0).
Proof.
  destruct (get_analytics fast_clock
              (serve fast_clock 0
                 [Heartbeat "bot_1" (VDict [("memory_usage", VInt 73)])]
                 initial)) as [[r|e] w'] eqn:E;
    [|vm_compute in E; discriminate].
  assert (Hs : status_code r = 200)
    by (vm_compute in E; injection E as <- _; reflexivity).
  destruct (analytics_memory_usage_is_zero fast_clock 0
              [Heartbeat "bot_1" (VDict [("memory_usage", VInt 73)])]
              r w' fast_clock_valid E Hs)
    as (_ & data & ranking & Hbody & Hd & Hzero).
  exists r, w', data, ranking. split; [reflexivity|].
  split; [exact Hbody|]. split; [exact Hd|].
  split; [|intros d Hin; exact (proj1 (Hzero d Hin))].
  intros ->. vm_compute in E. injection E as <- _.
  cbn [body dict_get String.eqb Ascii.eqb Bool.eqb] in Hbody.
  injection Hbody as <-.
  cbn [dict_get String.eqb Ascii.eqb Bool.eqb map] in Hd. discriminate.
Defined.
